(** * The versioned-item lifecycle of the PLM server (server.js)

    A shallow embedding of the "Vault Rules" route handlers of [server.js]
    (parts, part versions, assemblies, assembly versions, composition
    edges, edit and release requests, revision comparison, bulk
    operations) and of the read routes for the bill of materials, the
    impact check and the pending requests, over an explicit model of the
    SQLite tables they touch; and of the helpers [csvSafe],
    [validatePassword] and [validateEmail].

    Conventions of the embedding:
    - a table is the list of its rows in rowid order together with the
      AUTOINCREMENT counter of [sqlite_sequence];
    - INTEGER columns and ids are [Z], TEXT columns are [string], a
      nullable column is an [option];
    - [CURRENT_TIMESTAMP] is the argument [now] of a handler;
    - every handler is a function from the store to the new store and
      the HTTP response; a handler runs to completion before the next
      one starts;
    - the [err] argument that the sqlite3 driver passes to a callback is
      read from a record [sqlite_errors], one field per callback
      parameter name of the source; [no_errors] is a driver in working
      order;
    - route parameters and ids of the JSON body are numbers in canonical
      form, so that SQLite's comparison with an INTEGER column and
      JavaScript's [String(r.id) === String(v)] agree with equality on
      [Z]; a route parameter that a handler echoes in its answer is the
      string of the URL, [string_of_Z] of the number;
    - SQLite runs with its default [foreign_keys = OFF]: server.js never
      issues the pragma, so FOREIGN KEY clauses are not enforced;
    - the strings that [validatePassword] and [validateEmail] read
      character by character are lists of UTF-16 code units. *)

From Stdlib Require Import ZArith List String Ascii Bool Lia DecimalString.
From Stdlib Require Import Sorted Permutation.
Import ListNotations.

Local Open Scope string_scope.
Local Open Scope Z_scope.

(** ** JavaScript values of the request body *)

(** [!!x] for a value that is a string, [null] or [undefined]. *)
Definition truthy (x : option string) : bool :=
  match x with
  | Some s => negb (s =? "")%string
  | None => false
  end.

(** [x || null]. *)
Definition or_null (x : option string) : option string :=
  if truthy x then x else None.

(** [x || d] for a string default. *)
Definition or_default (x : option string) (d : string) : string :=
  match x with
  | Some s => if (s =? "")%string then d else s
  | None => d
  end.

(** SQL [COALESCE(a, b)]. *)
Definition COALESCE {A : Type} (a b : option A) : option A :=
  match a with
  | Some _ => a
  | None => b
  end.

(** Decimal rendering of a number inside a template literal. *)
Definition string_of_Z (z : Z) : string :=
  NilZero.string_of_int (Z.to_int z).

Definition strlen (s : string) : Z := Z.of_nat (String.length s).

Definition includes (allowed : list string) (v : string) : bool :=
  existsb (String.eqb v) allowed.

Definition mem (x : Z) (l : list Z) : bool := existsb (Z.eqb x) l.

(** ** Enum validators *)

Definition VALID_ROLES : list string := ["admin"; "designer"; "approver"].
Definition VALID_CRITICALITY : list string := ["normal"; "low"; "high"; "critical"].
Definition VALID_LIFECYCLE : list string := ["draft"; "active"; "released"; "obsolete"].

Definition validateEnum (value : option string) (allowed : list string)
    (fieldName : string) : option string :=
  match value with
  | Some v =>
      if negb (v =? "")%string && negb (includes allowed v)
      then Some ("Invalid " ++ fieldName ++ ": must be one of "
                   ++ String.concat ", " allowed)
      else None
  | None => None
  end.

(** ** Rows of the tables *)

Record user_row := mkUser {
  u_id : string;
  u_username : string;
  u_role : string
}.

Record part_row := mkPart {
  p_id : Z;
  part_code : string;
  p_name : string;
  p_description : option string;
  material : option string;
  vendor : option string;
  p_criticality : option string;
  p_lifecycle_state : option string;
  p_tags : option string;
  p_owner_id : string;
  p_created_at : Z;
  p_updated_at : Z
}.

Record assembly_row := mkAssembly {
  a_id : Z;
  assembly_code : string;
  a_name : string;
  a_description : option string;
  a_criticality : option string;
  a_lifecycle_state : option string;
  a_tags : option string;
  a_owner_id : string;
  a_created_at : Z;
  a_updated_at : Z
}.

(** [part_versions] and [assembly_versions] have the same columns; the
    column [part_id], respectively [assembly_id], is [item_id]. *)
Record version_row := mkVersion {
  v_id : Z;
  item_id : Z;
  version_label : string;
  status : string;
  storage_path : option string;
  working_path : option string;
  change_notes : option string;
  frozen_by : option string;
  frozen_at : option Z;
  v_created_at : Z
}.

Record assembly_part_row := mkEdge {
  ap_id : Z;
  assembly_version_id : Z;
  part_version_id : Z;
  ap_created_at : Z
}.

Record part_permission_row := mkPermission {
  pp_id : Z;
  pp_part_id : Z;
  pp_user_id : string;
  can_edit : bool;
  pp_created_at : Z
}.

Record edit_request_row := mkEditRequest {
  er_id : Z;
  er_part_id : Z;
  er_requester_id : string;
  er_status : string;
  er_reason : option string;
  er_created_at : Z;
  er_decided_by : option string;
  er_decided_at : option Z
}.

Record release_request_row := mkReleaseRequest {
  rr_id : Z;
  item_type : string;
  item_version_id : Z;
  rr_requester_id : string;
  rr_status : string;
  rr_reason : option string;
  rr_created_at : Z;
  rr_decided_by : option string;
  rr_decided_at : option Z
}.

(** ** Tables *)

Record table (A : Type) := mkTable {
  rows : list A;
  last_rowid : Z
}.
Arguments mkTable {A} _ _.
Arguments rows {A} _.
Arguments last_rowid {A} _.

Definition empty_table {A : Type} : table A := mkTable [] 0.

(** [INSERT]: the new row gets the rowid after the largest one ever used;
    the second component is [this.lastID]. *)
Definition insert {A : Type} (mk : Z -> A) (t : table A) : table A * Z :=
  let id := last_rowid t + 1 in
  (mkTable (rows t ++ [mk id])%list id, id).

(** [INSERT ... VALUES (..), (..), ...]: one row per element of [xs]. *)
Fixpoint insert_many {A B : Type} (mk : B -> Z -> A) (xs : list B)
    (t : table A) : table A :=
  match xs with
  | [] => t
  | x :: xs' => insert_many mk xs' (fst (insert (mk x) t))
  end.

(** [UPDATE ... SET ... WHERE p]; the second component is [this.changes]. *)
Definition update {A : Type} (p : A -> bool) (f : A -> A) (t : table A)
    : table A * Z :=
  (mkTable (map (fun r => if p r then f r else r) (rows t)) (last_rowid t),
   Z.of_nat (List.length (filter p (rows t)))).

(** [DELETE FROM ... WHERE p]; the second component is [this.changes]. *)
Definition delete {A : Type} (p : A -> bool) (t : table A) : table A * Z :=
  (mkTable (filter (fun r => negb (p r)) (rows t)) (last_rowid t),
   Z.of_nat (List.length (filter p (rows t)))).

(** [SELECT * FROM ... WHERE p] with [db.all]. *)
Definition select {A : Type} (p : A -> bool) (t : table A) : list A :=
  filter p (rows t).

(** [SELECT * FROM ... WHERE p] with [db.get]: the first row or
    [undefined]. *)
Definition get {A : Type} (p : A -> bool) (t : table A) : option A :=
  find p (rows t).

(** [SELECT COUNT( * ) FROM ... WHERE p]. *)
Definition count {A : Type} (p : A -> bool) (t : table A) : Z :=
  Z.of_nat (List.length (filter p (rows t))).

(** ** The store *)

Record db := mkDb {
  users : list user_row;
  parts : table part_row;
  part_versions : table version_row;
  assemblies : table assembly_row;
  assembly_versions : table version_row;
  assembly_parts : table assembly_part_row;
  part_permissions : table part_permission_row;
  edit_requests : table edit_request_row;
  release_requests : table release_request_row
}.

Definition empty_db (us : list user_row) : db :=
  mkDb us empty_table empty_table empty_table empty_table empty_table
       empty_table empty_table empty_table.

Definition set_parts (t : table part_row) (st : db) : db :=
  mkDb (users st) t (part_versions st) (assemblies st) (assembly_versions st)
       (assembly_parts st) (part_permissions st) (edit_requests st)
       (release_requests st).

Definition set_part_versions (t : table version_row) (st : db) : db :=
  mkDb (users st) (parts st) t (assemblies st) (assembly_versions st)
       (assembly_parts st) (part_permissions st) (edit_requests st)
       (release_requests st).

Definition set_assemblies (t : table assembly_row) (st : db) : db :=
  mkDb (users st) (parts st) (part_versions st) t (assembly_versions st)
       (assembly_parts st) (part_permissions st) (edit_requests st)
       (release_requests st).

Definition set_assembly_versions (t : table version_row) (st : db) : db :=
  mkDb (users st) (parts st) (part_versions st) (assemblies st) t
       (assembly_parts st) (part_permissions st) (edit_requests st)
       (release_requests st).

Definition set_assembly_parts (t : table assembly_part_row) (st : db) : db :=
  mkDb (users st) (parts st) (part_versions st) (assemblies st)
       (assembly_versions st) t (part_permissions st) (edit_requests st)
       (release_requests st).

Definition set_part_permissions (t : table part_permission_row) (st : db) : db :=
  mkDb (users st) (parts st) (part_versions st) (assemblies st)
       (assembly_versions st) (assembly_parts st) t (edit_requests st)
       (release_requests st).

Definition set_edit_requests (t : table edit_request_row) (st : db) : db :=
  mkDb (users st) (parts st) (part_versions st) (assemblies st)
       (assembly_versions st) (assembly_parts st) (part_permissions st) t
       (release_requests st).

Definition set_release_requests (t : table release_request_row) (st : db) : db :=
  mkDb (users st) (parts st) (part_versions st) (assemblies st)
       (assembly_versions st) (assembly_parts st) (part_permissions st)
       (edit_requests st) t.

(** ** Requests and responses *)

(** [req.user], the decoded token. *)
Record user := mkReqUser {
  id : string;
  username : string;
  role : string
}.

Inductive json :=
| JNull
| JUndefined
| JBool (b : bool)
| JNum (z : Z)
| JStr (s : string)
| JVersion (r : version_row) (frozen_by_name : option string).

(** [res.status(code).json({...})]. *)
Record response := mkResponse {
  http_status : Z;
  body : list (string * json)
}.

Definition error (code : Z) (msg : string) : response :=
  mkResponse code [("error", JStr msg)].

Definition success (msg : string) : response :=
  mkResponse 200 [("success", JBool true); ("message", JStr msg)].

Definition is_error (r : response) : bool := 400 <=? http_status r.

(** The [err] values handed to the callbacks, by callback parameter name. *)
Record sqlite_errors := mkErrors {
  err : option string;
  permErr : option string;
  lastErr : option string;
  countErr : option string;
  insertErr : option string;
  versionErr : option string;
  linkErr : option string;
  partErr : option string;
  mapErr : option string;
  updateErr : option string;
  freezeErr : option string;
  delErr : option string
}.

Definition no_errors : sqlite_errors :=
  mkErrors None None None None None None None None None None None None.

(** [if (e) return res.status(500).json({ error: e.message })]. *)
Definition on_error (e : option string) (st : db) (k : db * response)
    : db * response :=
  match e with
  | Some message => (st, error 500 message)
  | None => k
  end.

(** ** Authorization helpers *)

Definition requireRole (roles : list string) (u : user) : bool :=
  includes roles (role u).

Definition isApproverOrAdmin (role : string) : bool :=
  (role =? "approver")%string || (role =? "admin")%string.

(** [canEditPart]: [inl e] is [callback(e)], [inr b] is [callback(null, b)]. *)
Definition canEditPart (E : sqlite_errors) (userId role : string) (partId : Z)
    (st : db) : string + bool :=
  if (role =? "admin")%string then inr true
  else
    match err E with
    | Some e => inl e
    | None =>
        match get (fun p => p_id p =? partId) (parts st) with
        | None => inr false
        | Some part =>
            if (p_owner_id part =? userId)%string then inr true
            else
              match permErr E with
              | Some e => inl e
              | None =>
                  match get (fun pp => (pp_part_id pp =? partId)
                                       && (pp_user_id pp =? userId)%string)
                            (part_permissions st) with
                  | Some perm => inr (can_edit perm)
                  | None => inr false
                  end
              end
        end
    end.

(** [ORDER BY created_at DESC LIMIT 1]: a row with the greatest
    [created_at]; among rows of equal [created_at], which SQL leaves
    open, the first one scanned. *)
Fixpoint order_by_created_at_desc_limit_1 (l : list version_row)
    : option version_row :=
  match l with
  | [] => None
  | r :: l' =>
      match order_by_created_at_desc_limit_1 l' with
      | Some r' => if v_created_at r <? v_created_at r' then Some r' else Some r
      | None => Some r
      end
  end.

Definition getLatestPartVersion (partId : Z) (st : db) : option version_row :=
  order_by_created_at_desc_limit_1
    (select (fun v => item_id v =? partId) (part_versions st)).

Definition getLatestAssemblyVersion (assemblyId : Z) (st : db)
    : option version_row :=
  order_by_created_at_desc_limit_1
    (select (fun v => item_id v =? assemblyId) (assembly_versions st)).

(** [lastVersion && lastVersion.status !== 'frozen']. *)
Definition not_frozen (lastVersion : option version_row) : bool :=
  match lastVersion with
  | Some v => negb (status v =? "frozen")%string
  | None => false
  end.

(** ** Vault rules: parts *)

Record part_body := mkPartBody {
  b_part_code : option string;
  b_name : option string;
  b_working_path : option string;
  b_description : option string;
  b_material : option string;
  b_vendor : option string;
  b_criticality : option string;
  b_lifecycle_state : option string;
  b_tags : option string
}.

Definition too_long (x : option string) (max : Z) : bool :=
  match x with
  | Some s => negb (s =? "")%string && (max <? strlen s)
  | None => false
  end.

Definition new_version (item : Z) (label : string) (path notes : option string)
    (now : Z) (rowid : Z) : version_row :=
  mkVersion rowid item label "working" None path notes None None now.

(** [INSERT OR IGNORE INTO part_permissions (part_id, user_id, can_edit)
    VALUES (?, ?, 1)] under [UNIQUE(part_id, user_id)]. *)
Definition insert_or_ignore_permission (partId : Z) (userId : string) (now : Z)
    (t : table part_permission_row) : table part_permission_row :=
  if existsb (fun pp => (pp_part_id pp =? partId) && (pp_user_id pp =? userId)%string)
             (rows t)
  then t
  else fst (insert (fun rowid => mkPermission rowid partId userId true now) t).

(** [INSERT OR REPLACE INTO part_permissions ...]: the row in conflict is
    deleted, then the new one is inserted. *)
Definition insert_or_replace_permission (partId : Z) (userId : string) (now : Z)
    (t : table part_permission_row) : table part_permission_row :=
  fst (insert (fun rowid => mkPermission rowid partId userId true now)
         (fst (delete (fun pp => (pp_part_id pp =? partId)
                                 && (pp_user_id pp =? userId)%string) t))).

(** [POST /api/parts] *)
Definition post_parts (E : sqlite_errors) (u : user) (b : part_body) (now : Z)
    (st : db) : db * response :=
  if negb (requireRole ["designer"; "admin"] u) then
    (st, error 403 "Access denied. Requires role: designer or admin")
  else if negb (truthy (b_part_code b)) || negb (truthy (b_name b)) then
    (st, error 400 "Missing required fields")
  else if too_long (b_part_code b) 50 then
    (st, error 400 "Part code too long (max 50)")
  else if too_long (b_name b) 200 then
    (st, error 400 "Name too long (max 200)")
  else if too_long (b_description b) 2000 then
    (st, error 400 "Description too long (max 2000)")
  else
    match validateEnum (b_criticality b) VALID_CRITICALITY "criticality" with
    | Some cErr => (st, error 400 cErr)
    | None =>
        let code := or_default (b_part_code b) "" in
        let name := or_default (b_name b) "" in
        if existsb (fun p => (part_code p =? code)%string) (rows (parts st)) then
          (st, error 400 "Part code already exists")
        else
          on_error (err E) st
            (let (tp, partId) :=
               insert (fun rowid =>
                         mkPart rowid code name (or_null (b_description b))
                           (or_null (b_material b)) (or_null (b_vendor b))
                           (Some (or_default (b_criticality b) "normal"))
                           (Some "draft") (or_null (b_tags b)) (id u) now now)
                      (parts st) in
             let st1 := set_parts tp st in
             on_error (versionErr E) st1
               (let st2 :=
                  set_part_versions
                    (fst (insert (new_version partId "V1"
                                    (or_null (b_working_path b)) None now)
                            (part_versions st1))) st1 in
                let st3 :=
                  set_part_permissions
                    (insert_or_ignore_permission partId (id u) now
                       (part_permissions st2)) st2 in
                (st3, mkResponse 201 [("id", JNum partId);
                                      ("part_code", JStr code);
                                      ("name", JStr name)])))
    end.

(** [PUT /api/parts/:part_id] *)
Definition put_part (E : sqlite_errors) (u : user) (partId : Z) (b : part_body)
    (now : Z) (st : db) : db * response :=
  match canEditPart E (id u) (role u) partId st with
  | inl e => (st, error 500 e)
  | inr false => (st, error 403 "No edit permission for this part")
  | inr true =>
      if truthy (b_lifecycle_state b)
         && negb (includes VALID_LIFECYCLE (or_default (b_lifecycle_state b) ""))
      then (st, error 400 ("Invalid lifecycle state. Must be one of: "
                             ++ String.concat ", " VALID_LIFECYCLE))
      else
        on_error (err E) st
          (set_parts
             (fst (update (fun p => p_id p =? partId)
                     (fun p =>
                        mkPart (p_id p) (part_code p)
                          (match b_name b with Some s => s | None => p_name p end)
                          (COALESCE (b_description b) (p_description p))
                          (COALESCE (b_material b) (material p))
                          (COALESCE (b_vendor b) (vendor p))
                          (COALESCE (b_criticality b) (p_criticality p))
                          (COALESCE (b_lifecycle_state b) (p_lifecycle_state p))
                          (COALESCE (b_tags b) (p_tags p))
                          (p_owner_id p) (p_created_at p) now)
                     (parts st))) st,
           success "Part updated")
  end.

(** [SELECT COUNT( * ) FROM assembly_parts ap JOIN part_versions pv
    ON ap.part_version_id = pv.id WHERE pv.part_id = ?] *)
Definition count_part_references (partId : Z) (st : db) : Z :=
  Z.of_nat
    (List.length
       (flat_map
          (fun ap =>
             filter (fun pv => (part_version_id ap =? v_id pv)
                               && (item_id pv =? partId))
                    (rows (part_versions st)))
          (rows (assembly_parts st)))).

(** The four [DELETE] statements between [BEGIN TRANSACTION] and
    [COMMIT]. *)
Definition delete_part_rows (in_batch : Z -> bool) (st : db) : db * Z :=
  let st1 := set_part_permissions
               (fst (delete (fun pp => in_batch (pp_part_id pp))
                       (part_permissions st))) st in
  let st2 := set_edit_requests
               (fst (delete (fun er => in_batch (er_part_id er))
                       (edit_requests st1))) st1 in
  let st3 := set_part_versions
               (fst (delete (fun v => in_batch (item_id v))
                       (part_versions st2))) st2 in
  let (tp, changes) := delete (fun p => in_batch (p_id p)) (parts st3) in
  (set_parts tp st3, changes).

(** [DELETE /api/parts/:part_id] *)
Definition delete_part (E : sqlite_errors) (u : user) (partId : Z) (st : db)
    : db * response :=
  if negb (role u =? "admin")%string then
    (st, error 403 "Only admins can delete parts")
  else
    on_error (err E) st
      (if 0 <? count_part_references partId st then
         (st, error 400 "Cannot delete: part is referenced by assemblies. Remove assembly references first.")
       else
         match delErr E with
         | Some e => (st, error 500 e)   (* ROLLBACK *)
         | None => (fst (delete_part_rows (Z.eqb partId) st),   (* COMMIT *)
                    success "Part deleted")
         end).

Record version_body := mkVersionBody {
  b_version_label : option string;
  vb_working_path : option string;
  b_change_notes : option string
}.

(** [version_label || `V${(countRow?.count || 0) + 1}`] *)
Definition next_label (version_label : option string) (count : Z) : string :=
  or_default version_label ("V" ++ string_of_Z (count + 1)).

(** [POST /api/parts/:part_id/versions] *)
Definition post_part_versions (E : sqlite_errors) (u : user) (partId : Z)
    (b : version_body) (now : Z) (st : db) : db * response :=
  match canEditPart E (id u) (role u) partId st with
  | inl e => (st, error 500 e)
  | inr false => (st, error 403 "No edit permission for this part")
  | inr true =>
      on_error (lastErr E) st
        (if not_frozen (getLatestPartVersion partId st) then
           (st, error 400 "Previous version must be frozen before creating a new version")
         else
           on_error (countErr E) st
             (let nextLabel :=
                next_label (b_version_label b)
                  (count (fun v => item_id v =? partId) (part_versions st)) in
              on_error (insertErr E) st
                (let (tv, lastID) :=
                   insert (new_version partId nextLabel
                             (or_null (vb_working_path b))
                             (or_null (b_change_notes b)) now)
                          (part_versions st) in
                 (set_part_versions tv st,
                  mkResponse 201
                    [("id", JNum lastID);
                     ("part_id", JStr (string_of_Z partId));
                     ("version_label", JStr nextLabel)]))))
  end.

(** [SET status = 'frozen', storage_path = COALESCE(storage_path,
    working_path), frozen_by = ?, frozen_at = CURRENT_TIMESTAMP] *)
Definition freeze_row (userId : string) (now : Z) (v : version_row)
    : version_row :=
  mkVersion (v_id v) (item_id v) (version_label v) "frozen"
    (COALESCE (storage_path v) (working_path v)) (working_path v)
    (change_notes v) (Some userId) (Some now) (v_created_at v).

(** [POST /api/parts/:part_id/versions/:version_id/freeze] *)
Definition post_part_version_freeze (E : sqlite_errors) (u : user)
    (partId versionId : Z) (now : Z) (st : db) : db * response :=
  if negb (isApproverOrAdmin (role u)) then
    (st, error 403 "Only approvers or admins can freeze versions")
  else
    on_error (err E) st
      (let (tv, changes) :=
         update (fun v => (v_id v =? versionId) && (item_id v =? partId))
                (freeze_row (id u) now) (part_versions st) in
       if changes =? 0 then (set_part_versions tv st,
                             error 404 "Part version not found")
       else (set_part_versions tv st, success "Part version frozen")).

(** [POST /api/parts/:part_id/rollback]; [version_id] is a number of the
    body, falsy when missing or [0]. *)
Definition post_part_rollback (E : sqlite_errors) (u : user) (partId : Z)
    (version_id : option Z) (now : Z) (st : db) : db * response :=
  match version_id with
  | None | Some 0 => (st, error 400 "version_id is required")
  | Some version_id =>
      match canEditPart E (id u) (role u) partId st with
      | inl e => (st, error 500 e)
      | inr false => (st, error 403 "No edit permission for this part")
      | inr true =>
          on_error (linkErr E) st
            (if 0 <? count (fun ap => part_version_id ap =? version_id)
                           (assembly_parts st)
             then (st, error 400 "Rollback blocked: part version is referenced by assemblies")
             else
               on_error (lastErr E) st
                 (if not_frozen (getLatestPartVersion partId st) then
                    (st, error 400 "Freeze current version before rollback")
                  else
                    on_error (countErr E) st
                      (let nextLabel :=
                         next_label None
                           (count (fun v => item_id v =? partId)
                              (part_versions st)) in
                       on_error (insertErr E) st
                         (let (tv, lastID) :=
                            insert (new_version partId nextLabel None None now)
                                   (part_versions st) in
                          (set_part_versions tv st,
                           mkResponse 201
                             [("id", JNum lastID);
                              ("part_id", JStr (string_of_Z partId));
                              ("version_label", JStr nextLabel)])))))
      end
  end.

(** ** Vault rules: assemblies *)

Record assembly_body := mkAssemblyBody {
  b_assembly_code : option string;
  ab_name : option string;
  b_part_version_ids : option (list Z);   (* [None]: missing or not an array *)
  ab_version_label : option string;
  ab_working_path : option string;
  ab_description : option string;
  ab_criticality : option string;
  ab_lifecycle_state : option string;
  ab_tags : option string
}.

(** [SELECT id, status FROM part_versions WHERE id IN (?, ..., ?)] *)
Definition select_part_versions_in (part_version_ids : list Z) (st : db)
    : list version_row :=
  select (fun pv => mem (v_id pv) part_version_ids) (part_versions st).

(** [INSERT INTO assembly_parts (assembly_version_id, part_version_id)
    VALUES (?, ?), ..., (?, ?)] *)
Definition insert_assembly_parts (assemblyVersionId : Z)
    (part_version_ids : list Z) (now : Z) (st : db) : db :=
  set_assembly_parts
    (insert_many (fun pvid rowid => mkEdge rowid assemblyVersionId pvid now)
       part_version_ids (assembly_parts st)) st.

(** The part-version validation shared, statement for statement, by the
    two routes that create an assembly version: [None] when it passes. *)
Definition check_part_versions (E : sqlite_errors) (part_version_ids : list Z)
    (what : string) (st : db) : option response :=
  match partErr E with
  | Some e => Some (error 500 e)
  | None =>
      let rows := select_part_versions_in part_version_ids st in
      if negb (Z.of_nat (List.length rows)
               =? Z.of_nat (List.length part_version_ids))
      then Some (error 400 "One or more part versions not found")
      else
        match find (fun row => negb (status row =? "frozen")%string) rows with
        | Some notFrozen =>
            Some (error 400 ("All part versions must be frozen before creating "
                               ++ what))
        | None => None
        end
  end.

(** [POST /api/assemblies] *)
Definition post_assemblies (E : sqlite_errors) (u : user) (b : assembly_body)
    (now : Z) (st : db) : db * response :=
  if negb (role u =? "designer")%string && negb (role u =? "admin")%string then
    (st, error 403 "Only designers or admins can create assemblies")
  else
    match b_part_version_ids b with
    | None | Some [] => (st, error 400 "Missing required fields")
    | Some part_version_ids =>
        if negb (truthy (b_assembly_code b)) || negb (truthy (ab_name b)) then
          (st, error 400 "Missing required fields")
        else if too_long (b_assembly_code b) 50 then
          (st, error 400 "Assembly code too long (max 50)")
        else if too_long (ab_name b) 200 then
          (st, error 400 "Name too long (max 200)")
        else if too_long (ab_description b) 2000 then
          (st, error 400 "Description too long (max 2000)")
        else
          match check_part_versions E part_version_ids "assembly" st with
          | Some r => (st, r)
          | None =>
              let code := or_default (b_assembly_code b) "" in
              let name := or_default (ab_name b) "" in
              if existsb (fun a => (assembly_code a =? code)%string)
                         (rows (assemblies st))
              then (st, error 400 "Assembly code already exists")
              else
                on_error (err E) st
                  (let (ta, assemblyId) :=
                     insert (fun rowid =>
                               mkAssembly rowid code name
                                 (or_null (ab_description b))
                                 (Some (or_default (ab_criticality b) "normal"))
                                 (Some "draft") (or_null (ab_tags b)) (id u)
                                 now now)
                            (assemblies st) in
                   let st1 := set_assemblies ta st in
                   on_error (versionErr E) st1
                     (let (tv, assemblyVersionId) :=
                        insert (new_version assemblyId "V1"
                                  (or_null (ab_working_path b)) None now)
                               (assembly_versions st1) in
                      let st2 := set_assembly_versions tv st1 in
                      on_error (mapErr E) st2
                        (insert_assembly_parts assemblyVersionId
                           part_version_ids now st2,
                         mkResponse 201 [("id", JNum assemblyId);
                                         ("assembly_code", JStr code);
                                         ("name", JStr name)])))
          end
    end.

(** [PUT /api/assemblies/:assembly_id] *)
Definition put_assembly (E : sqlite_errors) (u : user) (assemblyId : Z)
    (b : assembly_body) (now : Z) (st : db) : db * response :=
  if truthy (ab_lifecycle_state b)
     && negb (includes VALID_LIFECYCLE (or_default (ab_lifecycle_state b) ""))
  then (st, error 400 ("Invalid lifecycle state. Must be one of: "
                         ++ String.concat ", " VALID_LIFECYCLE))
  else
    on_error (err E) st
      match get (fun a => a_id a =? assemblyId) (assemblies st) with
      | None => (st, error 404 "Assembly not found")
      | Some asm =>
          if negb (a_owner_id asm =? id u)%string
             && negb (role u =? "admin")%string
          then (st, error 403 "No permission to edit this assembly")
          else
            on_error (updateErr E) st
              (set_assemblies
                 (fst (update (fun a => a_id a =? assemblyId)
                         (fun a =>
                            mkAssembly (a_id a) (assembly_code a)
                              (match ab_name b with
                               | Some s => s
                               | None => a_name a
                               end)
                              (COALESCE (ab_description b) (a_description a))
                              (COALESCE (ab_criticality b) (a_criticality a))
                              (COALESCE (ab_lifecycle_state b)
                                 (a_lifecycle_state a))
                              (COALESCE (ab_tags b) (a_tags a))
                              (a_owner_id a) (a_created_at a) now)
                         (assemblies st))) st,
               success "Assembly updated")
      end.

(** [DELETE /api/assemblies/:assembly_id] *)
Definition delete_assembly (E : sqlite_errors) (u : user) (assemblyId : Z)
    (st : db) : db * response :=
  if negb (role u =? "admin")%string then
    (st, error 403 "Only admins can delete assemblies")
  else
    match err E with
    | Some e => (st, error 500 e)   (* ROLLBACK *)
    | None =>
        let versions :=
          map v_id (select (fun v => item_id v =? assemblyId)
                      (assembly_versions st)) in
        let st1 := set_assembly_parts
                     (fst (delete (fun ap => mem (assembly_version_id ap) versions)
                             (assembly_parts st))) st in
        let st2 := set_assembly_versions
                     (fst (delete (fun v => item_id v =? assemblyId)
                             (assembly_versions st1))) st1 in
        let st3 := set_assemblies
                     (fst (delete (fun a => a_id a =? assemblyId)
                             (assemblies st2))) st2 in
        (st3, success "Assembly deleted")   (* COMMIT *)
    end.

(** [POST /api/assemblies/:assembly_id/versions] *)
Definition post_assembly_versions (E : sqlite_errors) (u : user)
    (assemblyId : Z) (b : assembly_body) (now : Z) (st : db) : db * response :=
  match b_part_version_ids b with
  | None | Some [] => (st, error 400 "part_version_ids is required")
  | Some part_version_ids =>
      on_error (lastErr E) st
        (if not_frozen (getLatestAssemblyVersion assemblyId st) then
           (st, error 400 "Previous assembly version must be frozen before creating a new version")
         else
           match check_part_versions E part_version_ids "assembly version" st with
           | Some r => (st, r)
           | None =>
               on_error (countErr E) st
                 (let nextLabel :=
                    next_label (ab_version_label b)
                      (count (fun v => item_id v =? assemblyId)
                         (assembly_versions st)) in
                  on_error (versionErr E) st
                    (let (tv, assemblyVersionId) :=
                       insert (new_version assemblyId nextLabel
                                 (or_null (ab_working_path b)) None now)
                              (assembly_versions st) in
                     let st1 := set_assembly_versions tv st in
                     on_error (mapErr E) st1
                       (insert_assembly_parts assemblyVersionId
                          part_version_ids now st1,
                        mkResponse 201
                          [("id", JNum assemblyVersionId);
                           ("assembly_id", JStr (string_of_Z assemblyId));
                           ("version_label", JStr nextLabel)])))
           end)
  end.

(** [POST /api/assemblies/:assembly_id/versions/:version_id/freeze] *)
Definition post_assembly_version_freeze (E : sqlite_errors) (u : user)
    (assemblyId versionId : Z) (now : Z) (st : db) : db * response :=
  if negb (isApproverOrAdmin (role u)) then
    (st, error 403 "Only approvers or admins can freeze versions")
  else
    on_error (err E) st
      (let (tv, changes) :=
         update (fun v => (v_id v =? versionId) && (item_id v =? assemblyId))
                (freeze_row (id u) now) (assembly_versions st) in
       if changes =? 0 then (set_assembly_versions tv st,
                             error 404 "Assembly version not found")
       else (set_assembly_versions tv st, success "Assembly version frozen")).

(** ** Vault rules: edit requests *)

(** [POST /api/parts/:part_id/edit-requests] *)
Definition post_edit_requests (E : sqlite_errors) (u : user) (partId : Z)
    (reason : option string) (now : Z) (st : db) : db * response :=
  if negb (role u =? "designer")%string then
    (st, error 403 "Only designers can request edit access")
  else
    on_error (err E) st
      (let (t, lastID) :=
         insert (fun rowid =>
                   mkEditRequest rowid partId (id u) "pending" (or_null reason)
                     now None None)
                (edit_requests st) in
       (set_edit_requests t st,
        mkResponse 201 [("id", JNum lastID);
                        ("part_id", JStr (string_of_Z partId))])).

(** [POST /api/edit-requests/:request_id/approve] *)
Definition approve_edit_request (E : sqlite_errors) (u : user) (requestId : Z)
    (now : Z) (st : db) : db * response :=
  if negb (isApproverOrAdmin (role u)) then
    (st, error 403 "Only approvers or admins can approve edit requests")
  else
    on_error (err E) st
      match get (fun er => er_id er =? requestId) (edit_requests st) with
      | None => (st, error 404 "Request not found")
      | Some request =>
          on_error (updateErr E) st
            (let st1 :=
               set_edit_requests
                 (fst (update (fun er => er_id er =? requestId)
                         (fun er =>
                            mkEditRequest (er_id er) (er_part_id er)
                              (er_requester_id er) "approved" (er_reason er)
                              (er_created_at er) (Some (id u)) (Some now))
                         (edit_requests st))) st in
             (set_part_permissions
                (insert_or_replace_permission (er_part_id request)
                   (er_requester_id request) now (part_permissions st1)) st1,
              success "Edit request approved"))
      end.

(** [POST /api/edit-requests/:request_id/reject] *)
Definition reject_edit_request (E : sqlite_errors) (u : user) (requestId : Z)
    (now : Z) (st : db) : db * response :=
  if negb (isApproverOrAdmin (role u)) then
    (st, error 403 "Only approvers or admins can reject edit requests")
  else
    on_error (err E) st
      (let (t, changes) :=
         update (fun er => er_id er =? requestId)
                (fun er =>
                   mkEditRequest (er_id er) (er_part_id er)
                     (er_requester_id er) "rejected" (er_reason er)
                     (er_created_at er) (Some (id u)) (Some now))
                (edit_requests st) in
       if changes =? 0 then (set_edit_requests t st,
                             error 404 "Request not found")
       else (set_edit_requests t st, success "Edit request rejected")).

(** ** Vault rules: release requests *)

(** [POST /api/release-requests]; [item_version_id] is falsy when missing
    or [0]. *)
Definition post_release_requests (E : sqlite_errors) (u : user)
    (item_type : option string) (item_version_id : option Z)
    (reason : option string) (now : Z) (st : db) : db * response :=
  match item_version_id with
  | None | Some 0 => (st, error 400 "Missing required fields")
  | Some version =>
      if negb (truthy item_type) then (st, error 400 "Missing required fields")
      else
        let type := or_default item_type "" in
        if negb (type =? "part")%string && negb (type =? "assembly")%string then
          (st, error 400 "Invalid item_type")
        else
          on_error (err E) st
            (let (t, lastID) :=
               insert (fun rowid =>
                         mkReleaseRequest rowid type version (id u) "pending"
                           (or_null reason) now None None)
                      (release_requests st) in
             (set_release_requests t st,
              mkResponse 201 [("id", JNum lastID); ("item_type", JStr type);
                              ("item_version_id", JNum version)]))
  end.

(** [SET status = 'frozen', storage_path = COALESCE(storage_path,
    working_path)], the [freezeQuery] of the approval. *)
Definition release_row (v : version_row) : version_row :=
  mkVersion (v_id v) (item_id v) (version_label v) "frozen"
    (COALESCE (storage_path v) (working_path v)) (working_path v)
    (change_notes v) (frozen_by v) (frozen_at v) (v_created_at v).

(** [POST /api/release-requests/:request_id/approve] *)
Definition approve_release_request (E : sqlite_errors) (u : user)
    (requestId : Z) (now : Z) (st : db) : db * response :=
  if negb (isApproverOrAdmin (role u)) then
    (st, error 403 "Only approvers or admins can approve release requests")
  else
    on_error (err E) st
      match get (fun rr => rr_id rr =? requestId) (release_requests st) with
      | None => (st, error 404 "Request not found")
      | Some request =>
          on_error (updateErr E) st
            (let st1 :=
               set_release_requests
                 (fst (update (fun rr => rr_id rr =? requestId)
                         (fun rr =>
                            mkReleaseRequest (rr_id rr) (item_type rr)
                              (item_version_id rr) (rr_requester_id rr)
                              "approved" (rr_reason rr) (rr_created_at rr)
                              (Some (id u)) (Some now))
                         (release_requests st))) st in
             on_error (freezeErr E) st1
               (if (item_type request =? "part")%string then
                  set_part_versions
                    (fst (update (fun v => v_id v =? item_version_id request)
                            release_row (part_versions st1))) st1
                else
                  set_assembly_versions
                    (fst (update (fun v => v_id v =? item_version_id request)
                            release_row (assembly_versions st1))) st1,
                success "Release request approved"))
      end.

(** [POST /api/release-requests/:request_id/reject] *)
Definition reject_release_request (E : sqlite_errors) (u : user)
    (requestId : Z) (now : Z) (st : db) : db * response :=
  if negb (isApproverOrAdmin (role u)) then
    (st, error 403 "Only approvers or admins can reject release requests")
  else
    on_error (err E) st
      (let (t, changes) :=
         update (fun rr => rr_id rr =? requestId)
                (fun rr =>
                   mkReleaseRequest (rr_id rr) (item_type rr)
                     (item_version_id rr) (rr_requester_id rr) "rejected"
                     (rr_reason rr) (rr_created_at rr) (Some (id u)) (Some now))
                (release_requests st) in
       if changes =? 0 then (set_release_requests t st,
                             error 404 "Request not found")
       else (set_release_requests t st, success "Release request rejected")).

(** ** Revision comparison *)

(** [part_versions pv LEFT JOIN users u ON pv.frozen_by = u.id]: one
    result row per matching user, or one row with a NULL name. *)
Definition left_join_users (us : list user_row) (pv : version_row)
    : list (version_row * option string) :=
  match filter (fun u => match frozen_by pv with
                         | Some f => (f =? u_id u)%string
                         | None => false
                         end) us with
  | [] => [(pv, None)]
  | matches => map (fun u => (pv, Some (u_username u))) matches
  end.

(** [rows.find(r => String(r.id) === String(v))] as a JSON value. *)
Definition find_version (v : Z) (rows : list (version_row * option string))
    : json :=
  match find (fun r => v_id (fst r) =? v) rows with
  | Some (r, frozen_by_name) => JVersion r frozen_by_name
  | None => JUndefined
  end.

(** [GET /api/parts/:id/versions/compare?v1=..&v2=..]; a query parameter
    is [None] when missing or empty. *)
Definition get_versions_compare (E : sqlite_errors) (partId : Z)
    (v1 v2 : option Z) (st : db) : db * response :=
  match v1, v2 with
  | Some v1, Some v2 =>
      on_error (err E) st
        (let rows :=
           flat_map (left_join_users (users st))
             (select (fun pv => ((v_id pv =? v1) || (v_id pv =? v2))
                                && (item_id pv =? partId))
                     (part_versions st)) in
         if negb (Z.of_nat (List.length rows) =? 2) then
           (st, error 404 "One or both versions not found")
         else
           (st, mkResponse 200 [("version1", find_version v1 rows);
                                ("version2", find_version v2 rows)]))
  | _, _ => (st, error 400 "Two version IDs (v1, v2) are required")
  end.

(** ** Bulk operations *)

(** [SELECT DISTINCT p.part_code FROM parts p JOIN part_versions pv ON
    pv.part_id = p.id JOIN assembly_parts ap ON ap.part_version_id = pv.id
    WHERE p.id IN (...)]; the order of the codes, which SQL leaves open,
    is the order in which [nodup] keeps them. *)
Definition referenced_part_codes (ids : list Z) (st : db) : list string :=
  nodup string_dec
    (flat_map
       (fun p =>
          flat_map
            (fun pv =>
               map (fun ap => part_code p)
                 (filter (fun ap => part_version_id ap =? v_id pv)
                    (rows (assembly_parts st))))
            (filter (fun pv => item_id pv =? p_id p) (rows (part_versions st))))
       (filter (fun p => mem (p_id p) ids) (rows (parts st)))).

(** [POST /api/parts/bulk-delete] *)
Definition post_parts_bulk_delete (E : sqlite_errors) (u : user)
    (ids : option (list Z)) (st : db) : db * response :=
  if negb (requireRole ["admin"] u) then
    (st, error 403 "Access denied. Requires role: admin")
  else
    match ids with
    | None | Some [] => (st, error 400 "No IDs provided")
    | Some ids =>
        on_error (err E) st
          match referenced_part_codes ids st with
          | (_ :: _) as referenced =>
              (st, error 400 ("Cannot delete: parts "
                                ++ String.concat ", " referenced
                                ++ " are referenced by assemblies"))
          | [] =>
              match delErr E with
              | Some e => (st, error 500 e)   (* ROLLBACK *)
              | None =>
                  let (st', changes) :=
                    delete_part_rows (fun i => mem i ids) st in
                  (st', mkResponse 200 [("success", JBool true);
                                        ("deleted", JNum changes)])
              end
          end
    end.

(** [SET status = 'frozen', frozen_by = ?, frozen_at = CURRENT_TIMESTAMP],
    the assignment of the bulk route. *)
Definition bulk_freeze_row (userId : string) (now : Z) (v : version_row)
    : version_row :=
  mkVersion (v_id v) (item_id v) (version_label v) "frozen" (storage_path v)
    (working_path v) (change_notes v) (Some userId) (Some now) (v_created_at v).

(** [POST /api/parts/bulk-freeze] *)
Definition post_parts_bulk_freeze (E : sqlite_errors) (u : user)
    (version_ids : option (list Z)) (now : Z) (st : db) : db * response :=
  if negb (requireRole ["admin"; "approver"] u) then
    (st, error 403 "Access denied. Requires role: admin or approver")
  else
    match version_ids with
    | None | Some [] => (st, error 400 "No version IDs provided")
    | Some version_ids =>
        on_error (err E) st
          (let (tv, changes) :=
             update (fun v => mem (v_id v) version_ids
                              && (status v =? "working")%string)
                    (bulk_freeze_row (id u) now) (part_versions st) in
           (set_part_versions tv st,
            mkResponse 200 [("success", JBool true); ("frozen", JNum changes)]))
    end.

(** ** The router *)

Inductive request :=
| PostParts (b : part_body)
| PutPart (partId : Z) (b : part_body)
| DeletePart (partId : Z)
| PostPartVersions (partId : Z) (b : version_body)
| PostPartVersionFreeze (partId versionId : Z)
| PostPartRollback (partId : Z) (version_id : option Z)
| PostAssemblies (b : assembly_body)
| PutAssembly (assemblyId : Z) (b : assembly_body)
| DeleteAssembly (assemblyId : Z)
| PostAssemblyVersions (assemblyId : Z) (b : assembly_body)
| PostAssemblyVersionFreeze (assemblyId versionId : Z)
| PostEditRequests (partId : Z) (reason : option string)
| ApproveEditRequest (requestId : Z)
| RejectEditRequest (requestId : Z)
| PostReleaseRequests (item_type : option string) (item_version_id : option Z)
    (reason : option string)
| ApproveReleaseRequest (requestId : Z)
| RejectReleaseRequest (requestId : Z)
| GetVersionsCompare (partId : Z) (v1 v2 : option Z)
| PostPartsBulkDelete (ids : option (list Z))
| PostPartsBulkFreeze (version_ids : option (list Z)).

Definition handle (E : sqlite_errors) (u : user) (r : request) (now : Z)
    (st : db) : db * response :=
  match r with
  | PostParts b => post_parts E u b now st
  | PutPart partId b => put_part E u partId b now st
  | DeletePart partId => delete_part E u partId st
  | PostPartVersions partId b => post_part_versions E u partId b now st
  | PostPartVersionFreeze partId versionId =>
      post_part_version_freeze E u partId versionId now st
  | PostPartRollback partId version_id =>
      post_part_rollback E u partId version_id now st
  | PostAssemblies b => post_assemblies E u b now st
  | PutAssembly assemblyId b => put_assembly E u assemblyId b now st
  | DeleteAssembly assemblyId => delete_assembly E u assemblyId st
  | PostAssemblyVersions assemblyId b =>
      post_assembly_versions E u assemblyId b now st
  | PostAssemblyVersionFreeze assemblyId versionId =>
      post_assembly_version_freeze E u assemblyId versionId now st
  | PostEditRequests partId reason => post_edit_requests E u partId reason now st
  | ApproveEditRequest requestId => approve_edit_request E u requestId now st
  | RejectEditRequest requestId => reject_edit_request E u requestId now st
  | PostReleaseRequests item_type item_version_id reason =>
      post_release_requests E u item_type item_version_id reason now st
  | ApproveReleaseRequest requestId =>
      approve_release_request E u requestId now st
  | RejectReleaseRequest requestId =>
      reject_release_request E u requestId now st
  | GetVersionsCompare partId v1 v2 => get_versions_compare E partId v1 v2 st
  | PostPartsBulkDelete ids => post_parts_bulk_delete E u ids st
  | PostPartsBulkFreeze version_ids =>
      post_parts_bulk_freeze E u version_ids now st
  end.

(** One HTTP call: the driver's behaviour during it, the caller, the
    request and the clock. *)
Record call := mkCall {
  driver : sqlite_errors;
  caller : user;
  req : request;
  clock : Z
}.

Definition serve (c : call) (st : db) : db * response :=
  handle (driver c) (caller c) (req c) (clock c) st.

(** The store after a sequence of calls. *)
Fixpoint run (calls : list call) (st : db) : db :=
  match calls with
  | [] => st
  | c :: calls' => run calls' (fst (serve c st))
  end.

(** The responses of a sequence of calls. *)
Fixpoint responses (calls : list call) (st : db) : list response :=
  match calls with
  | [] => []
  | c :: calls' => snd (serve c st) :: responses calls' (fst (serve c st))
  end.

Definition is_release_approval (r : request) : bool :=
  match r with
  | ApproveReleaseRequest _ => true
  | _ => false
  end.

Definition is_bulk_freeze (r : request) : bool :=
  match r with
  | PostPartsBulkFreeze _ => true
  | _ => false
  end.

(** ** The default users of [initializeDefaultUsers] and sample bodies *)

Definition admin : user := mkReqUser "ADMIN-001" "admin" "admin".
Definition designer : user := mkReqUser "DESIGNER-01" "designer" "designer".
Definition approver : user := mkReqUser "APPROVER-01" "approver" "approver".

Definition default_users : list user_row :=
  [mkUser "ADMIN-001" "admin" "admin";
   mkUser "DESIGNER-01" "designer" "designer";
   mkUser "APPROVER-01" "approver" "approver"].

Definition part_named (code name : string) (path : option string) : part_body :=
  mkPartBody (Some code) (Some name) path None None None None None None.

Definition assembly_named (code name : string) (ids : list Z) : assembly_body :=
  mkAssemblyBody (Some code) (Some name) (Some ids) None None None None None None.

Definition assembly_version_of (ids : list Z) : assembly_body :=
  mkAssemblyBody None None (Some ids) None None None None None None.

Definition ok (u : user) (r : request) (now : Z) : call :=
  mkCall no_errors u r now.

(** ** Read routes *)

(** The answer of a route that lists rows: [res.status(code).json({ error })]
    or the rows sent with [res.json]. *)
Inductive listing (A : Type) :=
| Failed (code : Z) (message : string)
| Listed (found : list A).
Arguments Failed {A} _ _.
Arguments Listed {A} _.

(** [ORDER BY]: [before x y] says that [x] may stand before [y]; rows of
    equal rank, whose order SQL leaves open, keep the order of the scan. *)
Fixpoint insert_by {A : Type} (before : A -> A -> bool) (x : A) (l : list A)
    : list A :=
  match l with
  | [] => [x]
  | y :: l' => if before x y then x :: l else y :: insert_by before x l'
  end.

Definition order_by {A : Type} (before : A -> A -> bool) (l : list A) : list A :=
  fold_right (insert_by before) [] l.

(** A row of the bill of materials. *)
Record bom_row := mkBom {
  bom_part_id : Z;
  bom_part_code : string;
  part_name : string;
  bom_material : option string;
  bom_vendor : option string;
  bom_criticality : option string;
  bom_part_version_id : Z;
  bom_version_label : string;
  version_status : string;
  bom_change_notes : option string;
  owner_name : string
}.

(** [GET /api/assemblies/:assembly_id/versions/:version_id/bom]:
    [assembly_parts ap JOIN part_versions pv ON ap.part_version_id = pv.id
    JOIN parts p ON pv.part_id = p.id JOIN users u ON p.owner_id = u.id
    WHERE ap.assembly_version_id = ? ORDER BY p.part_code]; the route does
    not use [assembly_id]. *)
Definition get_bom (E : sqlite_errors) (assemblyId versionId : Z) (st : db)
    : listing bom_row :=
  match err E with
  | Some e => Failed 500 e
  | None =>
      Listed
        (order_by
           (fun x y => (bom_part_code x <=? bom_part_code y)%string)
           (flat_map
              (fun ap =>
                 flat_map
                   (fun pv =>
                      flat_map
                        (fun p =>
                           map (fun usr =>
                                  mkBom (p_id p) (part_code p) (p_name p)
                                    (material p) (vendor p) (p_criticality p)
                                    (v_id pv) (version_label pv) (status pv)
                                    (change_notes pv) (u_username usr))
                               (filter (fun usr => (p_owner_id p =? u_id usr)%string)
                                  (users st)))
                        (filter (fun p => item_id pv =? p_id p)
                           (rows (parts st))))
                   (filter (fun pv => part_version_id ap =? v_id pv)
                      (rows (part_versions st))))
              (filter (fun ap => assembly_version_id ap =? versionId)
                 (rows (assembly_parts st)))))
  end.

(** A row of the impact check. *)
Record impact_row := mkImpact {
  impact_assembly_id : Z;
  impact_assembly_code : string;
  assembly_name : string;
  impact_version_label : string;
  impact_version_status : string;
  part_version_label : string;
  impact_part_version_id : Z
}.

Definition impact_row_eq_dec (x y : impact_row) : {x = y} + {x <> y}.
Proof. decide equality; first [apply string_dec | apply Z.eq_dec]. Defined.

(** [ORDER BY a.assembly_code, av.version_label]. *)
Definition impact_before (x y : impact_row) : bool :=
  match (impact_assembly_code x ?= impact_assembly_code y)%string with
  | Lt => true
  | Gt => false
  | Eq => (impact_version_label x <=? impact_version_label y)%string
  end.

(** [GET /api/parts/:part_id/impact]: [SELECT DISTINCT ... FROM
    assembly_parts ap JOIN part_versions pv ON ap.part_version_id = pv.id
    JOIN assembly_versions av ON ap.assembly_version_id = av.id
    JOIN assemblies a ON av.assembly_id = a.id WHERE pv.part_id = ?]. *)
Definition get_part_impact (E : sqlite_errors) (partId : Z) (st : db)
    : listing impact_row :=
  match err E with
  | Some e => Failed 500 e
  | None =>
      Listed
        (order_by impact_before
           (nodup impact_row_eq_dec
              (flat_map
                 (fun ap =>
                    flat_map
                      (fun pv =>
                         flat_map
                           (fun av =>
                              map (fun a =>
                                     mkImpact (a_id a) (assembly_code a)
                                       (a_name a) (version_label av)
                                       (status av) (version_label pv) (v_id pv))
                                  (filter (fun a => item_id av =? a_id a)
                                     (rows (assemblies st))))
                           (filter (fun av => assembly_version_id ap =? v_id av)
                              (rows (assembly_versions st))))
                      (filter (fun pv => (part_version_id ap =? v_id pv)
                                         && (item_id pv =? partId))
                         (rows (part_versions st))))
                 (rows (assembly_parts st)))))
  end.

(** A row of the list of pending edit requests. *)
Record pending_edit_request := mkPendingEdit {
  pending_request : edit_request_row;
  requester_name : string;
  pending_part_code : string
}.

(** [GET /api/edit-requests]: [edit_requests er JOIN users u ON
    er.requester_id = u.id JOIN parts p ON er.part_id = p.id WHERE
    er.status = 'pending' ORDER BY er.created_at DESC]. *)
Definition get_edit_requests (E : sqlite_errors) (u : user) (st : db)
    : listing pending_edit_request :=
  if negb (isApproverOrAdmin (role u)) then
    Failed 403 "Only approvers or admins can view edit requests"
  else
    match err E with
    | Some e => Failed 500 e
    | None =>
        Listed
          (order_by
             (fun x y => er_created_at (pending_request y)
                         <=? er_created_at (pending_request x))
             (flat_map
                (fun er =>
                   flat_map
                     (fun usr =>
                        map (fun p => mkPendingEdit er (u_username usr)
                                        (part_code p))
                            (filter (fun p => er_part_id er =? p_id p)
                               (rows (parts st))))
                     (filter (fun usr => (er_requester_id er =? u_id usr)%string)
                        (users st)))
                (filter (fun er => (er_status er =? "pending")%string)
                   (rows (edit_requests st)))))
    end.

(** [GET /api/release-requests]: [SELECT * FROM release_requests WHERE
    status = 'pending' ORDER BY created_at DESC]. *)
Definition get_release_requests (E : sqlite_errors) (u : user) (st : db)
    : listing release_request_row :=
  if negb (isApproverOrAdmin (role u)) then
    Failed 403 "Only approvers or admins can view release requests"
  else
    match err E with
    | Some e => Failed 500 e
    | None =>
        Listed
          (order_by (fun x y => rr_created_at y <=? rr_created_at x)
             (filter (fun rr => (rr_status rr =? "pending")%string)
                (rows (release_requests st))))
    end.

(** ** CSV export *)

(** The class [[=+\-@\t\r]] of the regular expression of [csvSafe]. *)
Definition formula_char (c : ascii) : bool :=
  existsb (Ascii.eqb c) ["="; "+"; "-"; "@"; "009"; "013"]%char.

(** [/^[=+\-@\t\r]/.test(s)] *)
Definition starts_formula (s : string) : bool :=
  match s with
  | String c _ => formula_char c
  | EmptyString => false
  end.

(** [csvSafe], for a cell that is a string or [null]. *)
Definition csvSafe (val : option string) : string :=
  match val with
  | None => ""
  | Some s => if starts_formula s then "'" ++ s else s
  end.

(** ** Password and email validation *)

(** A JavaScript string as its UTF-16 code units; [length] and the regular
    expressions of the two validators, which carry no [u] flag, work on
    them. *)
Definition code_units : Type := list Z.

Definition in_range (lo hi c : Z) : bool := (lo <=? c) && (c <=? hi).

(** The character class of the test for a symbol, in its order: the
    code units of ! @ # $ % ^ & and the star, of the two round brackets,
    of _ + - = and the square and curly brackets, of ; and the apostrophe,
    of : and the double quote, of the backslash, and of | , . < > / ? *)
Definition symbol_class : list Z :=
  [33; 64; 35; 36; 37; 94; 38; 42; 40; 41; 95; 43; 45; 61; 91; 93; 123; 125;
   59; 39; 58; 34; 92; 124; 44; 46; 60; 62; 47; 63].

Record password_validation := mkValidation {
  isValid : bool;
  errors : list string
}.

(** [validatePassword], for a password that is a string. *)
Definition validatePassword (password : code_units) : password_validation :=
  let errors :=
    ((if Z.of_nat (List.length password) <? 8
      then ["at least 8 characters"] else [])
     ++ (if negb (existsb (in_range 65 90) password)
         then ["at least one uppercase letter (A-Z)"] else [])
     ++ (if negb (existsb (in_range 97 122) password)
         then ["at least one lowercase letter (a-z)"] else [])
     ++ (if negb (existsb (in_range 48 57) password)
         then ["at least one number (0-9)"] else [])
     ++ (if negb (existsb (fun c => mem c symbol_class) password)
         then ["at least one symbol (!@#$%^&* etc.)"] else []))%list in
  mkValidation (Z.of_nat (List.length errors) =? 0) errors.

(** Regular expressions over code units, as far as [validateEmail] needs
    them, with their Brzozowski derivatives. *)
Inductive regex :=
| Void
| Eps
| Class (member : Z -> bool)
| Seq (r1 r2 : regex)
| Alt (r1 r2 : regex)
| Star (r : regex).

(** [r+] *)
Definition Plus (r : regex) : regex := Seq r (Star r).

Fixpoint nullable (r : regex) : bool :=
  match r with
  | Void => false
  | Eps => true
  | Class _ => false
  | Seq r1 r2 => nullable r1 && nullable r2
  | Alt r1 r2 => nullable r1 || nullable r2
  | Star _ => true
  end.

Fixpoint deriv (c : Z) (r : regex) : regex :=
  match r with
  | Void => Void
  | Eps => Void
  | Class member => if member c then Eps else Void
  | Seq r1 r2 =>
      if nullable r1 then Alt (Seq (deriv c r1) r2) (deriv c r2)
      else Seq (deriv c r1) r2
  | Alt r1 r2 => Alt (deriv c r1) (deriv c r2)
  | Star r' => Seq (deriv c r') (Star r')
  end.

(** [/^r$/.test(s)] *)
Fixpoint test_anchored (r : regex) (s : code_units) : bool :=
  match s with
  | [] => nullable r
  | c :: s' => test_anchored (deriv c r) s'
  end.

(** The class [\s]: the white space and line terminators of ECMAScript. *)
Definition js_whitespace (c : Z) : bool :=
  mem c [9; 10; 11; 12; 13; 32; 160; 5760; 8232; 8233; 8239; 8287; 12288; 65279]
  || in_range 8192 8202 c.

(** [[^\s@]] *)
Definition not_space_or_at (c : Z) : bool :=
  negb (js_whitespace c || (c =? 64)).

(** [validateEmail]: [/^[^\s@]+@[^\s@]+\.[^\s@]+$/.test(email)], for an
    email that is a string. *)
Definition validateEmail (email : code_units) : bool :=
  test_anchored
    (Seq (Plus (Class not_space_or_at))
       (Seq (Class (Z.eqb 64))
          (Seq (Plus (Class not_space_or_at))
             (Seq (Class (Z.eqb 46)) (Plus (Class not_space_or_at))))))
    email.

(** * Vocabulary of the properties *)

(** The number of frozen rows of a table of versions. *)
Definition frozen_count (t : table version_row) : Z :=
  count (fun v => (status v =? "frozen")%string) t.

(** Some composition edge points to a version of the part. *)
Definition part_referenced (partId : Z) (st : db) : Prop :=
  exists ap pv,
    In ap (rows (assembly_parts st)) /\ In pv (rows (part_versions st))
    /\ part_version_id ap = v_id pv /\ item_id pv = partId.

(** The refusal of [DELETE /api/parts/:part_id]. *)
Definition conflict_part_referenced : response :=
  error 400 "Cannot delete: part is referenced by assemblies. Remove assembly references first.".

(** The rowids of a table are pairwise distinct (INTEGER PRIMARY KEY). *)
Definition primary_key {A : Type} (key : A -> Z) (t : table A) : Prop :=
  NoDup (map key (rows t)).

(** The id names a row of [part_versions]. *)
Definition resolves (st : db) (i : Z) : Prop :=
  exists pv, In pv (rows (part_versions st)) /\ v_id pv = i.

(** The edge points to a part version that is frozen in the store. *)
Definition references_frozen (st : db) (ap : assembly_part_row) : Prop :=
  exists pv, In pv (rows (part_versions st))
             /\ v_id pv = part_version_id ap /\ status pv = "frozen".

(** The two calls that create an assembly version: [POST /api/assemblies]
    and [POST /api/assemblies/:assembly_id/versions]. *)
Inductive target :=
| NewAssembly
| ExistingAssembly (assemblyId : Z).

(** The handler of either call. *)
Definition create_assembly_version (E : sqlite_errors) (u : user) (t : target)
    (b : assembly_body) (now : Z) (st : db) : db * response :=
  match t with
  | NewAssembly => post_assemblies E u b now st
  | ExistingAssembly assemblyId => post_assembly_versions E u assemblyId b now st
  end.

(** The end of the must-be-frozen message of either call. *)
Definition what (t : target) : string :=
  match t with
  | NewAssembly => "assembly"
  | ExistingAssembly _ => "assembly version"
  end.

(** The tests that the handlers make before they look up the part
    versions. *)
Definition reaches_part_check (E : sqlite_errors) (u : user) (t : target)
    (b : assembly_body) (st : db) : bool :=
  match t with
  | NewAssembly =>
      ((role u =? "designer")%string || (role u =? "admin")%string)
      && truthy (b_assembly_code b) && truthy (ab_name b)
      && negb (too_long (b_assembly_code b) 50)
      && negb (too_long (ab_name b) 200)
      && negb (too_long (ab_description b) 2000)
  | ExistingAssembly assemblyId =>
      match lastErr E with
      | Some _ => false
      | None => negb (not_frozen (getLatestAssemblyVersion assemblyId st))
      end
  end.

(** The three [UPDATE ... SET status = 'frozen'] assignments of the
    source; the one of the release approval and the one of the bulk
    freeze are allowed only when their flag is set. *)
Inductive version_update (release bulk : bool)
    : (version_row -> version_row) -> Prop :=
| vu_freeze (userId : string) (now : Z) :
    version_update release bulk (freeze_row userId now)
| vu_bulk_freeze (userId : string) (now : Z) :
    bulk = true -> version_update release bulk (bulk_freeze_row userId now)
| vu_release : release = true -> version_update release bulk release_row.

(** What one call may do to a table of versions: nothing, one INSERT of
    a working row, one freezing UPDATE, or one DELETE. *)
Inductive versions_step (release bulk : bool)
    : table version_row -> table version_row -> Prop :=
| vs_same (t : table version_row) : versions_step release bulk t t
| vs_insert (t : table version_row) (item : Z) (label : string)
    (path notes : option string) (now : Z) :
    versions_step release bulk t
      (mkTable (rows t ++ [new_version item label path notes now
                             (last_rowid t + 1)])%list
               (last_rowid t + 1))
| vs_update (t : table version_row) (p : version_row -> bool)
    (f : version_row -> version_row) :
    version_update release bulk f ->
    versions_step release bulk t
      (mkTable (map (fun r => if p r then f r else r) (rows t)) (last_rowid t))
| vs_delete (t : table version_row) (p : version_row -> bool) :
    versions_step release bulk t
      (mkTable (filter (fun r => negb (p r)) (rows t)) (last_rowid t)).

(** Rowids are distinct and none exceeds the AUTOINCREMENT counter. *)
Definition wf_table {A : Type} (key : A -> Z) (t : table A) : Prop :=
  primary_key key t /\ Forall (fun r => key r <= last_rowid t) (rows t).



(** None of the calls approves a release request. *)
Definition no_release_approval (calls : list call) : bool :=
  forallb (fun c => negb (is_release_approval (req c))) calls.



(** [item_type] is 'part' or 'assembly'. *)
Definition valid_item_type (item_type : option string) : Prop :=
  item_type = Some "part" \/ item_type = Some "assembly".

(** The version exists and belongs to the part. *)
Definition version_of_part (st : db) (partId v : Z) (a : version_row) : Prop :=
  In a (rows (part_versions st)) /\ v_id a = v /\ item_id a = partId.

(** ** Sample calls and stores *)


(** A part created with a working path and then frozen by the bulk
    route. *)
Definition bulk_freeze_with_path : list call :=
  [ok designer
     (PostParts (part_named "PN-100" "Bracket" (Some "/vault/pn-100"))) 10;
   ok approver (PostPartsBulkFreeze (Some [1])) 12].

(** PN-100 created, its V1 frozen and its V2 created, all within the
    second 10: V1 is frozen, V2 is working. *)
Definition store_same_second : db :=
  run [ok designer
         (PostParts (part_named "PN-100" "Bracket" (Some "/vault/pn-100"))) 10;
       ok approver (PostPartVersionFreeze 1 1) 10;
       ok designer (PostPartVersions 1 (mkVersionBody None None None)) 10]
      (empty_db default_users).


(** PN-100 with its working version V1. *)
Definition store_working : db :=
  run [ok designer
         (PostParts (part_named "PN-100" "Bracket" (Some "/vault/pn-100"))) 10]
      (empty_db default_users).

(** PN-100 with V1 frozen by the approver at time 12. *)
Definition store_frozen : db :=
  run [ok approver (PostPartVersionFreeze 1 1) 12] store_working.

(** ASM-1, built from the frozen V1 of PN-100, its own V1 frozen. *)
Definition store_assembled : db :=
  run [ok designer (PostAssemblies (assembly_named "ASM-1" "Gearbox" [1])) 13;
       ok approver (PostAssemblyVersionFreeze 1 1) 14] store_frozen.

(** PN-100 with V1 working and a pending release request for it. *)
Definition store_release_pending : db :=
  run [ok designer (PostReleaseRequests (Some "part") (Some 1) None) 11]
      store_working.

(** The four calls behind [store_assembled]. *)
Definition assembled_calls : list call :=
  [ok designer
     (PostParts (part_named "PN-100" "Bracket" (Some "/vault/pn-100"))) 10;
   ok approver (PostPartVersionFreeze 1 1) 12;
   ok designer (PostAssemblies (assembly_named "ASM-1" "Gearbox" [1])) 13;
   ok approver (PostAssemblyVersionFreeze 1 1) 14].

(** A driver that fails on the insert into [assembly_parts] only. *)
Definition edge_insert_fails : sqlite_errors :=
  mkErrors None None None None None None None None
           (Some "SQLITE_ERROR: too many SQL variables") None None None.

(** PN-100 with V1 frozen and V2 working. *)
Definition store_two_versions : db :=
  run [ok designer (PostPartVersions 1 (mkVersionBody None None None)) 17]
      store_frozen.

(** A designer who owns no part, and PN-100 with two pending edit
    requests: one of this designer, who is not in [users], and one of the
    owner. *)
Definition second_designer : user :=
  mkReqUser "DESIGNER-02" "designer2" "designer".

Definition store_edit_pending : db :=
  run [ok second_designer (PostEditRequests 1 (Some "rework")) 11;
       ok designer (PostEditRequests 1 None) 12] store_working.

(** ** Vocabulary of the further properties *)

(** What one call may do to the table of parts or of assemblies: nothing,
    one INSERT of a row whose code is not in the table, one UPDATE that
    keeps id, code and owner, or one DELETE. *)
Inductive items_step {A : Type} (key : A -> Z) (code owner : A -> string)
    : table A -> table A -> Prop :=
| is_same (t : table A) : items_step key code owner t t
| is_insert (t : table A) (r : A) :
    key r = last_rowid t + 1 ->
    (forall q, In q (rows t) -> code q <> code r) ->
    items_step key code owner t
      (mkTable (rows t ++ [r])%list (last_rowid t + 1))
| is_update (t : table A) (p : A -> bool) (f : A -> A) :
    (forall r, key (f r) = key r /\ code (f r) = code r
               /\ owner (f r) = owner r) ->
    items_step key code owner t
      (mkTable (map (fun r => if p r then f r else r) (rows t)) (last_rowid t))
| is_delete (t : table A) (p : A -> bool) :
    items_step key code owner t
      (mkTable (filter (fun r => negb (p r)) (rows t)) (last_rowid t)).

(** Distinct rowids below the counter and distinct codes. *)
Definition wf_items {A : Type} (key : A -> Z) (code : A -> string)
    (t : table A) : Prop :=
  wf_table key t /\ NoDup (map code (rows t)).

(** [UNIQUE(part_id, user_id)] of [part_permissions]. *)
Definition unique_grants (t : table part_permission_row) : Prop :=
  NoDup (map (fun pp => (pp_part_id pp, pp_user_id pp)) (rows t)).

(** The user owns the part or holds a grant for it with [can_edit] set. *)
Definition owner_or_grantee (userId : string) (partId : Z) (st : db) : Prop :=
  exists p, In p (rows (parts st)) /\ p_id p = partId
            /\ (p_owner_id p = userId
                \/ exists pp, In pp (rows (part_permissions st))
                              /\ pp_part_id pp = partId
                              /\ pp_user_id pp = userId
                              /\ can_edit pp = true).

(** The row an edit request becomes when it is decided. *)
Definition decided_edit_request (decision userId : string) (now : Z)
    (er : edit_request_row) : edit_request_row :=
  mkEditRequest (er_id er) (er_part_id er) (er_requester_id er) decision
    (er_reason er) (er_created_at er) (Some userId) (Some now).

(** Some composition edge names the part version. *)
Definition version_referenced (versionId : Z) (st : db) : Prop :=
  exists ap, In ap (rows (assembly_parts st)) /\ part_version_id ap = versionId.

(** The edge belongs to a version of the assembly. *)
Definition edge_of_assembly (assemblyId : Z) (st : db)
    (ap : assembly_part_row) : Prop :=
  exists v, In v (rows (assembly_versions st))
            /\ item_id v = assemblyId /\ v_id v = assembly_version_id ap.

(** Some part row of the batch has a version that an edge references. *)
Definition batch_referenced (ids : list Z) (st : db) : Prop :=
  exists p pv ap,
    In p (rows (parts st)) /\ In (p_id p) ids
    /\ In pv (rows (part_versions st)) /\ item_id pv = p_id p
    /\ In ap (rows (assembly_parts st)) /\ part_version_id ap = v_id pv.

(** What a version row keeps for as long as it exists: its parent, label,
    working path, notes and creation time, its frozen status once it has
    it, and its storage path once it has one. *)
Definition keeps_version (v v' : version_row) : Prop :=
  item_id v' = item_id v
  /\ version_label v' = version_label v
  /\ working_path v' = working_path v
  /\ change_notes v' = change_notes v
  /\ v_created_at v' = v_created_at v
  /\ (status v = "frozen" -> status v' = "frozen")
  /\ (forall path, storage_path v = Some path -> storage_path v' = Some path).

(** Every composition edge names an id that was given out, and the part
    version with that id, if it is still there, is frozen. *)
Definition edges_frozen (st : db) : Prop :=
  forall ap, In ap (rows (assembly_parts st)) ->
    part_version_id ap <= last_rowid (part_versions st)
    /\ forall pv, In pv (rows (part_versions st)) ->
                  v_id pv = part_version_id ap -> status pv = "frozen".

(** What the check [lifecycle_state && !VALID_LIFECYCLE.includes(...)] lets
    through: no value, the empty string, or a lifecycle state. *)
Definition lifecycle_accepted (x : option string) : Prop :=
  x = None \/ x = Some "" \/ exists s, x = Some s /\ In s VALID_LIFECYCLE.

(** The columns that [PUT /api/parts/:part_id] never writes. *)
Definition same_part (p p' : part_row) : Prop :=
  p_id p' = p_id p /\ part_code p' = part_code p
  /\ p_owner_id p' = p_owner_id p /\ p_created_at p' = p_created_at p.

(** The columns that [PUT /api/assemblies/:assembly_id] never writes. *)
Definition same_assembly (a a' : assembly_row) : Prop :=
  a_id a' = a_id a /\ assembly_code a' = assembly_code a
  /\ a_owner_id a' = a_owner_id a /\ a_created_at a' = a_created_at a.

(** The strings that a regular expression matches. *)
Inductive matches : regex -> code_units -> Prop :=
| m_eps : matches Eps []
| m_class (member : Z -> bool) (c : Z) :
    member c = true -> matches (Class member) [c]
| m_seq (r1 r2 : regex) (s1 s2 : code_units) :
    matches r1 s1 -> matches r2 s2 -> matches (Seq r1 r2) (s1 ++ s2)%list
| m_alt_l (r1 r2 : regex) (s : code_units) :
    matches r1 s -> matches (Alt r1 r2) s
| m_alt_r (r1 r2 : regex) (s : code_units) :
    matches r2 s -> matches (Alt r1 r2) s
| m_star_nil (r : regex) : matches (Star r) []
| m_star_app (r : regex) (s1 s2 : code_units) :
    matches r s1 -> matches (Star r) s2 -> matches (Star r) (s1 ++ s2)%list.

(** A part of an address: not empty, without white space and [@]. *)
Definition address_part (s : code_units) : Prop :=
  s <> [] /\ Forall (fun c => not_space_or_at c = true) s.

(** The code unit is an ASCII punctuation mark other than the backquote
    and the tilde. *)
Definition is_symbol (c : Z) : Prop :=
  33 <= c <= 47 \/ 58 <= c <= 64 \/ 91 <= c <= 95 \/ 123 <= c <= 125.

(** What a strong password has. *)
Definition strong (password : code_units) : Prop :=
  (8 <= List.length password)%nat
  /\ (exists c, In c password /\ 65 <= c <= 90)
  /\ (exists c, In c password /\ 97 <= c <= 122)
  /\ (exists c, In c password /\ 48 <= c <= 57)
  /\ (exists c, In c password /\ is_symbol c).

(** The row that a lookup found, as the list of the rows found. *)
Definition shown {A : Type} (o : option A) : list A :=
  match o with
  | Some a => [a]
  | None => []
  end.

(** The line of the bill of materials that an edge gives: the first part
    version with the id that the edge names, the first part with the id
    that this version names, and the first user with the id of its owner,
    when all three are in their tables. *)
Definition bom_line (st : db) (ap : assembly_part_row) : option bom_row :=
  match get (fun pv => part_version_id ap =? v_id pv) (part_versions st) with
  | Some pv =>
      match get (fun p => item_id pv =? p_id p) (parts st) with
      | Some p =>
          match find (fun usr => (p_owner_id p =? u_id usr)%string) (users st) with
          | Some usr =>
              Some (mkBom (p_id p) (part_code p) (p_name p) (material p)
                      (vendor p) (p_criticality p) (v_id pv) (version_label pv)
                      (status pv) (change_notes pv) (u_username usr))
          | None => None
          end
      | None => None
      end
  | None => None
  end.

(** The line of the list of pending edit requests that a request gives:
    the first user with the id of the requester and the first part with
    the id of the part, when both are in their tables. *)
Definition pending_line (st : db) (er : edit_request_row)
    : option pending_edit_request :=
  match find (fun usr => (er_requester_id er =? u_id usr)%string) (users st) with
  | Some usr =>
      match get (fun p => er_part_id er =? p_id p) (parts st) with
      | Some p => Some (mkPendingEdit er (u_username usr) (part_code p))
      | None => None
      end
  | None => None
  end.

(** * Properties *)

(** ** Lists and tables *)

Lemma string_eqb_false (a b : string) : (a =? b)%string = false <-> a <> b.
Proof. apply String.eqb_neq. Qed.

Lemma mem_In (x : Z) (l : list Z) : mem x l = true <-> In x l.
Proof.
  unfold mem. rewrite existsb_exists. split.
  - intros [y [Hy Heq]]. apply Z.eqb_eq in Heq. now subst.
  - intros H. exists x. split; [assumption | apply Z.eqb_refl].
Qed.

Lemma count_zero_iff {A : Type} (p : A -> bool) (t : table A) :
  count p t = 0 <-> forall r, In r (rows t) -> p r = false.
Proof.
  unfold count. split.
  - intros H r Hr. destruct (p r) eqn:Hp; [| reflexivity].
    assert (Hin : In r (filter p (rows t))) by (apply filter_In; auto).
    destruct (filter p (rows t)); [contradiction | discriminate].
  - intros H. replace (filter p (rows t)) with (@nil A); [reflexivity |].
    symmetry. induction (rows t) as [| r l IH]; simpl; [reflexivity |].
    rewrite (H r (or_introl eq_refl)). apply IH. intros; apply H; now right.
Qed.

Lemma order_by_created_at_none (l : list version_row) :
  order_by_created_at_desc_limit_1 l = None <-> l = [].
Proof.
  destruct l as [| r l]; simpl; [tauto |].
  destruct (order_by_created_at_desc_limit_1 l) as [r' |];
    [destruct (v_created_at r <? v_created_at r') |]; split; discriminate.
Qed.

(** The row returned is one of the rows and none is more recent. *)
Lemma order_by_created_at_latest (l : list version_row) (r : version_row) :
  order_by_created_at_desc_limit_1 l = Some r ->
  In r l /\ Forall (fun r' => v_created_at r' <= v_created_at r) l.
Proof.
  revert r. induction l as [| x l IH]; simpl; intros r H; [discriminate |].
  destruct (order_by_created_at_desc_limit_1 l) as [r' |] eqn:Hl.
  - destruct (IH r' eq_refl) as [Hin Hall].
    destruct (v_created_at x <? v_created_at r') eqn:Hlt; injection H as <-.
    + apply Z.ltb_lt in Hlt. split; [now right |].
      constructor; [lia | assumption].
    + apply Z.ltb_ge in Hlt. split; [now left |].
      constructor; [lia |].
      eapply Forall_impl; [| exact Hall]. simpl. intros; lia.
  - injection H as <-. apply order_by_created_at_none in Hl. subst l.
    split; [now left | constructor; [lia | constructor]].
Qed.

(** Among the rows of the greatest [created_at], the row returned is the
    one scanned first. *)
Lemma order_by_created_at_first (l : list version_row) (r : version_row) :
  order_by_created_at_desc_limit_1 l = Some r ->
  exists l1 l2,
    l = (l1 ++ r :: l2)%list
    /\ Forall (fun r' => v_created_at r' < v_created_at r) l1
    /\ Forall (fun r' => v_created_at r' <= v_created_at r) l2.
Proof.
  revert r. induction l as [| x l IH]; simpl; intros r H; [discriminate |].
  destruct (order_by_created_at_desc_limit_1 l) as [r' |] eqn:Hl.
  - destruct (v_created_at x <? v_created_at r') eqn:Hlt; injection H as <-.
    + apply Z.ltb_lt in Hlt.
      destruct (IH r' eq_refl) as [l1 [l2 [-> [H1 H2]]]].
      exists (x :: l1), l2. split; [reflexivity |].
      split; [constructor; assumption | assumption].
    + apply Z.ltb_ge in Hlt.
      destruct (order_by_created_at_latest l r' Hl) as [_ Hall].
      exists [], l. split; [reflexivity |]. split; [constructor |].
      eapply Forall_impl; [| exact Hall]. simpl. intros; lia.
  - injection H as <-. apply order_by_created_at_none in Hl. subst l.
    exists [], []. repeat split; constructor.
Qed.

Lemma getLatestPartVersion_none (partId : Z) (st : db) :
  getLatestPartVersion partId st = None <->
  count (fun v => item_id v =? partId) (part_versions st) = 0.
Proof.
  unfold getLatestPartVersion, select, count.
  rewrite order_by_created_at_none.
  destruct (filter _ (rows (part_versions st))); simpl; split;
    (reflexivity || discriminate || lia).
Qed.

Lemma getLatestPartVersion_latest (partId : Z) (st : db) (v : version_row) :
  getLatestPartVersion partId st = Some v ->
  In v (rows (part_versions st)) /\ item_id v = partId
  /\ forall v', In v' (rows (part_versions st)) -> item_id v' = partId ->
                v_created_at v' <= v_created_at v.
Proof.
  unfold getLatestPartVersion, select. intros H.
  apply order_by_created_at_latest in H. destruct H as [Hin Hall].
  apply filter_In in Hin. destruct Hin as [Hin Hid]. apply Z.eqb_eq in Hid.
  repeat split; try assumption.
  intros v' Hv' Hid'. rewrite Forall_forall in Hall. apply Hall.
  apply filter_In. split; [assumption | now apply Z.eqb_eq].
Qed.

(** The row that [getLatestPartVersion] selects: of the versions of the
    part, in the order of the table, those before it are older and none
    behind it is newer.  A version created later within the same second is
    behind it. *)
Lemma getLatestPartVersion_first_of_ties (partId : Z) (st : db)
    (v : version_row) :
  getLatestPartVersion partId st = Some v ->
  exists l1 l2,
    select (fun r => item_id r =? partId) (part_versions st)
    = (l1 ++ v :: l2)%list
    /\ Forall (fun r => v_created_at r < v_created_at v) l1
    /\ Forall (fun r => v_created_at r <= v_created_at v) l2.
Proof. unfold getLatestPartVersion. apply order_by_created_at_first. Qed.

Lemma not_frozen_true (o : option version_row) :
  not_frozen o = true <-> exists v, o = Some v /\ status v <> "frozen".
Proof.
  destruct o as [v |]; simpl.
  - rewrite negb_true_iff, string_eqb_false. split.
    + intros H. now exists v.
    + intros [v' [Hv' H]]. now injection Hv' as ->.
  - split; [discriminate | intros [v [H _]]; discriminate].
Qed.

Lemma not_frozen_false (o : option version_row) :
  not_frozen o = false <-> o = None \/ exists v, o = Some v /\ status v = "frozen".
Proof.
  destruct o as [v |]; simpl.
  - rewrite negb_false_iff, String.eqb_eq. split.
    + intros H. right. now exists v.
    + intros [H | [v' [Hv' H]]]; [discriminate | now injection Hv' as ->].
  - split; [now left | reflexivity].
Qed.

Example next_label_default : next_label None 1 = "V2".
Proof. reflexivity. Qed.

Example next_label_empty_string : next_label (Some "") 11 = "V12".
Proof. reflexivity. Qed.

Example next_label_supplied : next_label (Some "B") 1 = "B".
Proof. reflexivity. Qed.

(** ** Creating a part version *)

(** What [POST /api/parts/:part_id/versions] does, in terms of the row
    that [getLatestPartVersion] selects: it succeeds only if the part has
    no versions or that row is frozen; if that row is not frozen the call
    fails, with HTTP 400 "Previous version must be frozen ..." for a
    caller who may edit, and no row is added; on success without a label
    the new row has status 'working' and label V(n+1), n the number of
    versions of the part. *)
Lemma post_part_versions_outcome :
  forall (E : sqlite_errors) (u : user) (partId : Z) (b : version_body)
         (now : Z) (st : db),
    let out := post_part_versions E u partId b now st in
    let n := count (fun v => item_id v =? partId) (part_versions st) in
    (is_error (snd out) = false ->
       n = 0 \/ exists v, getLatestPartVersion partId st = Some v
                          /\ status v = "frozen")
    /\ (forall v, getLatestPartVersion partId st = Some v ->
                  status v <> "frozen" ->
          is_error (snd out) = true /\ fst out = st
          /\ (canEditPart E (id u) (role u) partId st = inr true ->
              lastErr E = None ->
              snd out = error 400 "Previous version must be frozen before creating a new version"))
    /\ (is_error (snd out) = false -> truthy (b_version_label b) = false ->
          rows (part_versions (fst out)) =
            (rows (part_versions st) ++
               [mkVersion (last_rowid (part_versions st) + 1) partId
                  ("V" ++ string_of_Z (n + 1)) "working" None
                  (or_null (vb_working_path b)) (or_null (b_change_notes b))
                  None None now])%list).
Proof.
  intros E u partId b now st out n. subst out. unfold post_part_versions.
  destruct (canEditPart E (id u) (role u) partId st) as [e | [|]] eqn:Hperm;
    simpl; try (repeat split; intros; try discriminate; auto; fail).
  destruct (lastErr E) as [e |] eqn:Hlast; simpl;
    [repeat split; intros; try discriminate; auto |].
  destruct (not_frozen (getLatestPartVersion partId st)) eqn:Hnf; simpl.
  - repeat split; intros; try discriminate; auto.
  - apply not_frozen_false in Hnf.
    assert (Hno : forall v, getLatestPartVersion partId st = Some v ->
                            status v <> "frozen" -> False).
    { intros v Hv Hs. destruct Hnf as [Hnone | [v' [Hv' Hs']]]; congruence. }
    split; [| split].
    + intros _. destruct Hnf as [Hnone | Hsome]; [left | now right].
      now apply getLatestPartVersion_none.
    + intros v Hv Hs. exfalso. eauto.
    + destruct (countErr E); simpl; [discriminate |].
      destruct (insertErr E); simpl; [discriminate |].
      intros _ Hlabel. unfold next_label, or_default.
      unfold truthy in Hlabel. fold n.
      destruct (b_version_label b) as [s |]; [| reflexivity].
      apply negb_false_iff in Hlabel. now rewrite Hlabel.
Qed.

(** The check reads one row only: when the row that [getLatestPartVersion]
    selects is frozen, a caller who may edit gets a new version, whatever
    the status of the other versions of the part. *)
Lemma frozen_selected_row_allows_new_version (u : user) (partId : Z)
    (b : version_body) (now : Z) (st : db) (v : version_row) :
  canEditPart no_errors (id u) (role u) partId st = inr true ->
  getLatestPartVersion partId st = Some v -> status v = "frozen" ->
  http_status (snd (post_part_versions no_errors u partId b now st)) = 201
  /\ List.length (rows (part_versions
                          (fst (post_part_versions no_errors u partId b now st))))
     = S (List.length (rows (part_versions st))).
Proof.
  intros Hperm Hlatest Hfrozen. unfold post_part_versions.
  rewrite Hperm, Hlatest. unfold not_frozen. rewrite Hfrozen. simpl.
  split; [reflexivity |]. rewrite length_app. simpl. lia.
Qed.

(** C2 fails on the code. PN-100 was created, its V1 frozen and its V2
    created within one second, so V2, the version created last, is
    working.  [getLatestPartVersion] orders by [created_at] alone and
    selects V1; the designer's next [POST /api/parts/1/versions] is
    answered 201 and adds V3 beside the working V2. *)
Theorem C2_new_version_beside_working_copy :
  rows (part_versions store_same_second)
  = [mkVersion 1 1 "V1" "frozen" (Some "/vault/pn-100") (Some "/vault/pn-100")
       None (Some "APPROVER-01") (Some 10) 10;
     mkVersion 2 1 "V2" "working" None None None None None 10]
  /\ getLatestPartVersion 1 store_same_second
     = Some (mkVersion 1 1 "V1" "frozen" (Some "/vault/pn-100")
               (Some "/vault/pn-100") None (Some "APPROVER-01") (Some 10) 10)
  /\ snd (post_part_versions no_errors designer 1
            (mkVersionBody None None None) 10 store_same_second)
     = mkResponse 201 [("id", JNum 3); ("part_id", JStr "1");
                       ("version_label", JStr "V3")]
  /\ rows (part_versions
             (fst (post_part_versions no_errors designer 1
                     (mkVersionBody None None None) 10 store_same_second)))
     = [mkVersion 1 1 "V1" "frozen" (Some "/vault/pn-100")
          (Some "/vault/pn-100") None (Some "APPROVER-01") (Some 10) 10;
        mkVersion 2 1 "V2" "working" None None None None None 10;
        mkVersion 3 1 "V3" "working" None None None None None 10].
Proof. repeat split. Qed.

(** ** Bulk freeze *)

Lemma bulk_freeze_effect (E : sqlite_errors) (u : user) (ids : list Z)
    (now : Z) (st : db) :
  let out := post_parts_bulk_freeze E u (Some ids) now st in
  let upd := update (fun v => mem (v_id v) ids && (status v =? "working")%string)
                    (bulk_freeze_row (id u) now) (part_versions st) in
  (is_error (snd out) = true /\ fst out = st)
  \/ (is_error (snd out) = false
      /\ fst out = set_part_versions (fst upd) st
      /\ snd out = mkResponse 200 [("success", JBool true); ("frozen", JNum (snd upd))]).
Proof.
  unfold post_parts_bulk_freeze.
  destruct (requireRole ["admin"; "approver"] u); simpl; [| now left].
  destruct ids as [| i ids]; [now left |].
  destruct (err E); simpl; [now left | right]. repeat split.
Qed.

Lemma update_frozen_count (p : version_row -> bool) (f : version_row -> version_row)
    (t : table version_row) :
  (forall v, p v = true -> status v <> "frozen" /\ status (f v) = "frozen") ->
  frozen_count (fst (update p f t)) = frozen_count t + snd (update p f t).
Proof.
  intros Hp. unfold frozen_count, count, update. simpl.
  induction (rows t) as [| v l IH]; simpl; [reflexivity |].
  destruct (p v) eqn:Hpv.
  - destruct (Hp v Hpv) as [Hbefore Hafter].
    apply string_eqb_false in Hbefore. apply String.eqb_eq in Hafter.
    rewrite Hbefore, Hafter. simpl List.length. lia.
  - destruct (status v =? "frozen")%string; simpl List.length; lia.
Qed.

(** C10. [POST /api/parts/bulk-freeze] changes nothing but part versions
    whose status is 'working' and whose id is in the request: every other
    table is left as it was, no row is added to [part_versions] or removed
    from it, and every row that is not working, in particular every frozen
    one, keeps all its columns; a row that changes was working and listed
    and gets the assignment of the route; when the call succeeds every
    working row that is listed is frozen, and the number reported is the
    number of versions that became frozen.  A failing call changes
    nothing. *)
Theorem C10_bulk_freeze_only_working :
  forall (E : sqlite_errors) (u : user) (version_ids : list Z) (now : Z)
         (st : db),
    let out := post_parts_bulk_freeze E u (Some version_ids) now st in
    (forall n v, nth_error (rows (part_versions st)) n = Some v ->
                 status v <> "working" ->
                 nth_error (rows (part_versions (fst out))) n = Some v)
    /\ (forall n v v',
          nth_error (rows (part_versions st)) n = Some v ->
          nth_error (rows (part_versions (fst out))) n = Some v' ->
          v' <> v ->
          status v = "working" /\ In (v_id v) version_ids
          /\ v' = bulk_freeze_row (id u) now v)
    /\ (is_error (snd out) = false ->
        snd out = mkResponse 200
                    [("success", JBool true);
                     ("frozen", JNum (frozen_count (part_versions (fst out))
                                      - frozen_count (part_versions st)))])
    /\ set_part_versions (part_versions (fst out)) st = fst out
    /\ List.length (rows (part_versions (fst out)))
       = List.length (rows (part_versions st))
    /\ last_rowid (part_versions (fst out)) = last_rowid (part_versions st)
    /\ (is_error (snd out) = true -> fst out = st)
    /\ (is_error (snd out) = false ->
        forall n v, nth_error (rows (part_versions st)) n = Some v ->
                    status v = "working" -> In (v_id v) version_ids ->
                    nth_error (rows (part_versions (fst out))) n
                    = Some (bulk_freeze_row (id u) now v)).
Proof.
  intros E u ids now st out.
  destruct (bulk_freeze_effect E u ids now st) as [[Herr Hst] | [Hok [Hst Hresp]]];
    fold out in Herr, Hst || fold out in Hok, Hst, Hresp.
  - rewrite Hst. repeat split; try congruence. now destruct st.
  - rewrite Hst. cbn [part_versions set_part_versions].
    split; [| split; [| split; [| split; [| split; [| split; [| split]]]]]].
    + intros n v Hn Hs. cbn [update fst rows].
      rewrite nth_error_map, Hn. simpl.
      apply string_eqb_false in Hs. now rewrite Hs, andb_false_r.
    + intros n v v' Hn Hn' Hneq. cbn [update fst rows] in Hn'.
      rewrite nth_error_map, Hn in Hn'. simpl in Hn'.
      destruct (mem (v_id v) ids) eqn:Hmem; simpl in Hn';
        [| congruence].
      destruct (status v =? "working")%string eqn:Hs; [| congruence].
      apply String.eqb_eq in Hs. apply mem_In in Hmem.
      injection Hn' as <-. auto.
    + intros _. rewrite Hresp.
      pose proof (update_frozen_count
                    (fun v => mem (v_id v) ids && (status v =? "working")%string)
                    (bulk_freeze_row (id u) now) (part_versions st)) as Hc.
      rewrite Hc; [now rewrite Z.add_simpl_l |].
      intros v Hv. apply andb_true_iff in Hv. destruct Hv as [_ Hv].
      apply String.eqb_eq in Hv. split; [rewrite Hv; discriminate | reflexivity].
    + reflexivity.
    + cbn [update fst rows]. apply length_map.
    + reflexivity.
    + rewrite Hok. discriminate.
    + intros _ n v Hn Hs Hin. cbn [update fst rows].
      rewrite nth_error_map, Hn. simpl.
      apply mem_In in Hin. apply String.eqb_eq in Hs. now rewrite Hin, Hs.
Qed.

(** ** Deleting a part *)

Lemma count_part_references_positive (partId : Z) (st : db) :
  (0 <? count_part_references partId st) = true <-> part_referenced partId st.
Proof.
  unfold count_part_references, part_referenced. rewrite Z.ltb_lt. split.
  - intros H.
    destruct (flat_map _ (rows (assembly_parts st))) as [| pv l] eqn:Hfm;
      [simpl in H; lia |].
    assert (Hin : In pv (pv :: l)) by now left.
    rewrite <- Hfm in Hin. apply in_flat_map in Hin.
    destruct Hin as [ap [Hap Hpv]]. apply filter_In in Hpv.
    destruct Hpv as [Hpv Hc]. apply andb_true_iff in Hc.
    destruct Hc as [H1 H2]. apply Z.eqb_eq in H1, H2.
    exists ap, pv. auto.
  - intros [ap [pv [Hap [Hpv [H1 H2]]]]].
    assert (Hin : In pv (flat_map
                           (fun ap => filter (fun pv => (part_version_id ap =? v_id pv)
                                                        && (item_id pv =? partId))
                                             (rows (part_versions st)))
                           (rows (assembly_parts st)))).
    { apply in_flat_map. exists ap. split; [assumption |].
      apply filter_In. split; [assumption |].
      apply andb_true_iff. split; now apply Z.eqb_eq. }
    destruct (flat_map _ (rows (assembly_parts st))); [contradiction |].
    simpl List.length. lia.
Qed.

Lemma delete_rows_In {A : Type} (p : A -> bool) (t : table A) (r : A) :
  In r (rows (fst (delete p t))) <-> In r (rows t) /\ p r = false.
Proof.
  unfold delete. simpl. rewrite filter_In, negb_true_iff. tauto.
Qed.

Lemma delete_by_key_In {A : Type} (key : A -> Z) (k : Z) (t : table A) (r : A) :
  In r (rows (fst (delete (fun r => k =? key r) t)))
  <-> In r (rows t) /\ key r <> k.
Proof.
  rewrite delete_rows_In, Z.eqb_neq. intuition congruence.
Qed.

(** C6. For an admin caller and a driver in working order,
    [DELETE /api/parts/:part_id] is refused (HTTP 400 "Cannot delete: part
    is referenced by assemblies ...") if and only if some composition
    edge references a version of the part.  When it is refused the store
    is unchanged; when it succeeds no row of the part is left in [parts],
    [part_versions], [part_permissions] and [edit_requests], every other
    row of these tables is kept, and the other tables are untouched.
    Whatever the driver does, a failing call leaves the store unchanged. *)
Theorem C6_delete_part_iff_unreferenced :
  forall (u : user) (partId : Z) (st : db),
    role u = "admin" ->
    let out := delete_part no_errors u partId st in
    (snd out = conflict_part_referenced <-> part_referenced partId st)
    /\ (is_error (snd out) = true <-> part_referenced partId st)
    /\ (part_referenced partId st -> fst out = st)
    /\ (~ part_referenced partId st ->
        snd out = success "Part deleted"
        /\ (forall p, In p (rows (parts (fst out)))
                      <-> In p (rows (parts st)) /\ p_id p <> partId)
        /\ (forall v, In v (rows (part_versions (fst out)))
                      <-> In v (rows (part_versions st)) /\ item_id v <> partId)
        /\ (forall pp, In pp (rows (part_permissions (fst out)))
                       <-> In pp (rows (part_permissions st))
                           /\ pp_part_id pp <> partId)
        /\ (forall er, In er (rows (edit_requests (fst out)))
                       <-> In er (rows (edit_requests st))
                           /\ er_part_id er <> partId)
        /\ assemblies (fst out) = assemblies st
        /\ assembly_versions (fst out) = assembly_versions st
        /\ assembly_parts (fst out) = assembly_parts st
        /\ release_requests (fst out) = release_requests st)
    /\ (forall E, is_error (snd (delete_part E u partId st)) = true ->
                  fst (delete_part E u partId st) = st).
Proof.
  intros u partId st Hrole out. subst out. unfold delete_part.
  rewrite Hrole. simpl negb. cbv iota.
  pose proof (count_part_references_positive partId st) as Hcount.
  split; [| split; [| split; [| split]]].
  - simpl. destruct (0 <? count_part_references partId st); simpl.
    + split; [intros _; now apply Hcount | reflexivity].
    + split; [discriminate | intros H; apply Hcount in H; discriminate].
  - simpl. destruct (0 <? count_part_references partId st); simpl.
    + split; [intros _; now apply Hcount | reflexivity].
    + split; [discriminate | intros H; apply Hcount in H; discriminate].
  - intros H. apply Hcount in H. simpl. now rewrite H.
  - intros H. simpl.
    destruct (0 <? count_part_references partId st) eqn:Hc;
      [exfalso; apply H; now apply Hcount |].
    simpl. split; [reflexivity |].
    split; [intros r; apply (delete_by_key_In p_id) |].
    split; [intros r; apply (delete_by_key_In item_id) |].
    split; [intros r; apply (delete_by_key_In pp_part_id) |].
    split; [intros r; apply (delete_by_key_In er_part_id) |].
    repeat split.
  - intros E. destruct (err E); simpl; [reflexivity |].
    destruct (0 <? count_part_references partId st); simpl; [reflexivity |].
    destruct (delErr E); simpl; [reflexivity | discriminate].
Qed.

(** ** Creating an assembly version *)

(** Selecting rows keeps their keys pairwise distinct. *)
Lemma distinct_keys_filter {A : Type} (key : A -> Z) (keep : A -> bool)
    (rs : list A) :
  NoDup (map key rs) -> NoDup (map key (filter keep rs)).
Proof.
  intros Hnd. induction rs as [| r rs IH]; simpl in *; [constructor |].
  apply NoDup_cons_iff in Hnd. destruct Hnd as [Hfresh Hnd].
  destruct (keep r); simpl; [| now apply IH].
  constructor; [| now apply IH].
  rewrite in_map_iff. intros [r' [Hkey Hr']]. apply filter_In in Hr'.
  apply Hfresh. rewrite in_map_iff. exists r'. tauto.
Qed.

Section PartVersionCheck.

Variables (st : db) (ids : list Z).
Hypothesis Hkey : primary_key v_id (part_versions st).

Let selected := select_part_versions_in ids st.

Lemma selected_In (pv : version_row) :
  In pv selected <-> In pv (rows (part_versions st)) /\ In (v_id pv) ids.
Proof.
  unfold selected, select_part_versions_in, select.
  rewrite filter_In, mem_In. tauto.
Qed.

Lemma selected_incl : incl (map v_id selected) ids.
Proof.
  intros i Hi. apply in_map_iff in Hi. destruct Hi as [pv [<- Hpv]].
  now apply selected_In in Hpv.
Qed.

Lemma selected_NoDup : NoDup (map v_id selected).
Proof. apply distinct_keys_filter. exact Hkey. Qed.

Lemma selected_length_le : (List.length selected <= List.length ids)%nat.
Proof.
  rewrite <- (length_map v_id). apply NoDup_incl_length.
  - apply selected_NoDup.
  - apply selected_incl.
Qed.

(** [rows.length === part_version_ids.length] only if every id was
    found. *)
Lemma selected_all_found :
  List.length selected = List.length ids ->
  forall i, In i ids -> resolves st i.
Proof.
  intros Hlen i Hi.
  assert (Hincl : incl ids (map v_id selected)).
  { apply NoDup_length_incl.
    - apply selected_NoDup.
    - rewrite length_map. lia.
    - apply selected_incl. }
  apply Hincl in Hi. apply in_map_iff in Hi. destruct Hi as [pv [Hid Hpv]].
  apply selected_In in Hpv. exists pv. tauto.
Qed.

(** Distinct ids that are all found give as many rows as ids. *)
Lemma selected_length_distinct :
  NoDup ids -> (forall i, In i ids -> resolves st i) ->
  List.length selected = List.length ids.
Proof.
  intros Hnd Hall. apply Nat.le_antisymm; [apply selected_length_le |].
  rewrite <- (length_map v_id selected). apply NoDup_incl_length; [exact Hnd |].
  intros i Hi. destruct (Hall i Hi) as [pv [Hpv Hid]].
  apply in_map_iff. exists pv. split; [assumption |].
  apply selected_In. split; [assumption | now rewrite Hid].
Qed.

Lemma check_part_versions_passes (E : sqlite_errors) (what : string) :
  check_part_versions E ids what st = None ->
  forall i, In i ids ->
    exists pv, In pv (rows (part_versions st))
               /\ v_id pv = i /\ status pv = "frozen".
Proof.
  unfold check_part_versions. fold selected.
  destruct (partErr E); [discriminate |].
  destruct (Z.of_nat (List.length selected) =? Z.of_nat (List.length ids))
    eqn:Hlen; simpl; [| discriminate].
  destruct (find _ selected) eqn:Hfind; [discriminate |].
  intros _ i Hi. apply Z.eqb_eq in Hlen. apply Nat2Z.inj in Hlen.
  destruct (selected_all_found Hlen i Hi) as [pv [Hpv Hid]].
  exists pv. repeat split; try assumption.
  assert (Hsel : In pv selected)
    by (apply selected_In; split; [assumption | now rewrite Hid]).
  pose proof (find_none _ _ Hfind pv Hsel) as Hs. simpl in Hs.
  apply negb_false_iff in Hs. now apply String.eqb_eq.
Qed.

Lemma check_part_versions_not_found (E : sqlite_errors) (what : string) :
  partErr E = None ->
  (exists i, In i ids /\ ~ resolves st i) ->
  check_part_versions E ids what st
  = Some (error 400 "One or more part versions not found").
Proof.
  intros HE [i [Hi Hno]]. unfold check_part_versions. fold selected.
  rewrite HE.
  destruct (Z.of_nat (List.length selected) =? Z.of_nat (List.length ids))
    eqn:Hlen; simpl; [| reflexivity].
  apply Z.eqb_eq in Hlen. apply Nat2Z.inj in Hlen.
  exfalso. apply Hno. now apply selected_all_found.
Qed.

Lemma check_part_versions_not_frozen (E : sqlite_errors) (what : string) :
  partErr E = None ->
  NoDup ids -> (forall i, In i ids -> resolves st i) ->
  (exists pv, In pv (rows (part_versions st)) /\ In (v_id pv) ids
              /\ status pv <> "frozen") ->
  check_part_versions E ids what st
  = Some (error 400 ("All part versions must be frozen before creating "
                       ++ what)).
Proof.
  intros HE Hnd Hall [pv [Hpv [Hid Hs]]].
  unfold check_part_versions. fold selected. rewrite HE.
  rewrite (selected_length_distinct Hnd Hall), Z.eqb_refl. simpl.
  destruct (find _ selected) eqn:Hfind; [reflexivity |].
  assert (Hsel : In pv selected) by (apply selected_In; tauto).
  pose proof (find_none _ _ Hfind pv Hsel) as Hf. simpl in Hf.
  apply negb_false_iff, String.eqb_eq in Hf. contradiction.
Qed.

(** Whatever the driver does, a request naming a missing or a
    non-frozen part version does not pass the check. *)
Lemma check_part_versions_rejects (E : sqlite_errors) (what : string) :
  (exists i, In i ids /\ ~ resolves st i)
  \/ (exists pv, In pv (rows (part_versions st)) /\ In (v_id pv) ids
                 /\ status pv <> "frozen") ->
  exists r, check_part_versions E ids what st = Some r /\ is_error r = true.
Proof.
  intros H.
  destruct (check_part_versions E ids what st) as [r |] eqn:Hcheck.
  - exists r. split; [reflexivity |]. revert Hcheck.
    unfold check_part_versions. destruct (partErr E); [now intros [= <-] |].
    destruct (negb _); [now intros [= <-] |].
    destruct (find _ _); [now intros [= <-] | discriminate].
  - exfalso. pose proof (check_part_versions_passes _ _ Hcheck) as Hpass.
    destruct H as [[i [Hi Hno]] | [pv [Hpv [Hid Hs]]]].
    + destruct (Hpass i Hi) as [pv [Hpv [Hid _]]]. apply Hno. now exists pv.
    + destruct (Hpass _ Hid) as [pv' [Hpv' [Hid' Hs']]].
      assert (pv' = pv); [| congruence].
      unfold primary_key in Hkey. clear - Hkey Hpv Hpv' Hid'.
      induction (rows (part_versions st)) as [| x l IH]; [contradiction |].
      simpl in Hkey. inversion Hkey as [| y l' Hnotin Hnodup]; subst.
      destruct Hpv as [-> | Hpv], Hpv' as [-> | Hpv']; auto.
      * exfalso. apply Hnotin. rewrite <- Hid'. now apply in_map.
      * exfalso. apply Hnotin. rewrite Hid'. now apply in_map.
Qed.

End PartVersionCheck.

Lemma insert_many_rows {A B : Type} (mk : B -> Z -> A) (xs : list B)
    (t : table A) :
  exists new, rows (insert_many mk xs t) = (rows t ++ new)%list
              /\ Forall2 (fun x r => exists rowid, r = mk x rowid) xs new.
Proof.
  revert t. induction xs as [| x xs IH]; intros t; cbn [insert_many].
  - exists []. split; [now rewrite app_nil_r | constructor].
  - destruct (IH (fst (insert (mk x) t))) as [new [Hrows Hall]].
    exists (mk x (last_rowid t + 1) :: new). split.
    + rewrite Hrows. simpl. now rewrite <- app_assoc.
    + constructor; [now eexists | assumption].
Qed.

Lemma insert_assembly_parts_rows (avid : Z) (ids : list Z) (now : Z) (st : db) :
  part_versions (insert_assembly_parts avid ids now st) = part_versions st
  /\ exists new,
       rows (assembly_parts (insert_assembly_parts avid ids now st))
       = (rows (assembly_parts st) ++ new)%list
       /\ map part_version_id new = ids
       /\ Forall (fun ap => assembly_version_id ap = avid) new.
Proof.
  split; [reflexivity |]. unfold insert_assembly_parts. simpl.
  destruct (insert_many_rows (fun pvid rowid => mkEdge rowid avid pvid now) ids
              (assembly_parts st)) as [new [Hrows Hall]].
  exists new. split; [assumption |]. clear Hrows.
  induction Hall as [| x r xs new [rowid ->] _ [IH1 IH2]]; simpl.
  - split; [reflexivity | constructor].
  - split; [now rewrite IH1 | constructor; [reflexivity | assumption]].
Qed.

Ltac branch :=
  match goal with
  | |- context [if ?c then _ else _] => destruct c eqn:?
  | |- context [match ?c with Some _ => _ | None => _ end] => destruct c eqn:?
  end.

(** What a call that creates an assembly version does, by the result of
    the part-version check. *)
Lemma create_assembly_version_outcome (E : sqlite_errors) (u : user)
    (t : target) (b : assembly_body) (now : Z) (st : db) (ids : list Z) :
  b_part_version_ids b = Some ids ->
  let out := create_assembly_version E u t b now st in
  match check_part_versions E ids (what t) st with
  | Some r =>
      is_error r = true ->
      is_error (snd out) = true /\ fst out = st
      /\ (ids <> [] -> reaches_part_check E u t b st = true -> snd out = r)
  | None =>
      is_error (snd out) = false ->
      part_versions (fst out) = part_versions st
      /\ exists new,
           rows (assembly_parts (fst out))
           = (rows (assembly_parts st) ++ new)%list
           /\ map part_version_id new = ids
  end.
Proof.
  intros Hids out. subst out.
  destruct t as [| assemblyId]; simpl create_assembly_version;
    [unfold post_assemblies | unfold post_assembly_versions];
    unfold on_error; rewrite Hids; cbn [what reaches_part_check].
  - destruct (check_part_versions E ids "assembly" st) as [r |] eqn:Hcheck.
    + intros Hr.
      destruct ((role u =? "designer")%string), ((role u =? "admin")%string);
        simpl; try (repeat split; try reflexivity; intros; discriminate).
      all: destruct ids as [| i ids];
        [repeat split; try reflexivity; intros; congruence |].
      all: destruct (truthy (b_assembly_code b)), (truthy (ab_name b)),
             (too_long (b_assembly_code b) 50), (too_long (ab_name b) 200),
             (too_long (ab_description b) 2000); simpl;
        try (repeat split; try reflexivity; intros; discriminate).
      all: repeat split; try reflexivity; try assumption.
    + destruct ids as [| i ids]; [branch; simpl; discriminate |].
      repeat (branch; simpl; try discriminate).
      all: intros _;
        destruct (insert_assembly_parts_rows
                    (last_rowid (assembly_versions st) + 1) (i :: ids) now
                    (set_assembly_versions
                       (fst (insert (new_version (last_rowid (assemblies st) + 1)
                                       "V1" (or_null (ab_working_path b)) None now)
                               (assembly_versions st)))
                       (set_assemblies
                          (fst (insert
                                  (fun rowid =>
                                     mkAssembly rowid
                                       (or_default (b_assembly_code b) "")
                                       (or_default (ab_name b) "")
                                       (or_null (ab_description b))
                                       (Some (or_default (ab_criticality b) "normal"))
                                       (Some "draft") (or_null (ab_tags b)) (id u)
                                       now now)
                                  (assemblies st))) st)))
          as [Hpv [new [Hrows [Hmap _]]]];
        split; [exact Hpv | exists new; split; [exact Hrows | exact Hmap]].
  - destruct (check_part_versions E ids "assembly version" st) as [r |] eqn:Hcheck.
    + intros Hr. destruct ids as [| i ids];
        [repeat split; congruence |].
      destruct (lastErr E); simpl;
        [repeat split; try reflexivity; intros; discriminate |].
      destruct (not_frozen (getLatestAssemblyVersion assemblyId st)); simpl;
        repeat split; try reflexivity; try assumption; intros; discriminate.
    + destruct ids as [| i ids]; [discriminate |].
      repeat (branch; simpl; try discriminate).
      intros _.
      destruct (insert_assembly_parts_rows
                  (last_rowid (assembly_versions st) + 1) (i :: ids) now
                  (set_assembly_versions
                     (fst (insert
                             (new_version assemblyId
                                (next_label (ab_version_label b)
                                   (count (fun v => item_id v =? assemblyId)
                                      (assembly_versions st)))
                                (or_null (ab_working_path b)) None now)
                             (assembly_versions st))) st))
        as [Hpv [new [Hrows [Hmap _]]]].
      split; [exact Hpv | exists new; split; [exact Hrows | exact Hmap]].
Qed.

(** C1. For both calls that create an assembly version: if some id of
    [part_version_ids] names no part version the call fails and writes
    nothing, with HTTP 400 "One or more part versions not found" once the
    earlier tests of the handler are passed; if some id names a part
    version whose status is not 'frozen' the call fails and writes
    nothing, with HTTP 400 "All part versions must be frozen ..." once
    the earlier tests are passed and the ids are found and distinct.
    Hence a successful call appends exactly one composition edge per id,
    and each of these edges references a part version that is frozen in
    the store the call leaves. *)
Theorem C1_assembly_versions_reference_frozen_parts :
  forall (E : sqlite_errors) (u : user) (t : target) (b : assembly_body)
         (now : Z) (st : db) (ids : list Z),
    primary_key v_id (part_versions st) ->
    b_part_version_ids b = Some ids ->
    let out := create_assembly_version E u t b now st in
    ((exists i, In i ids /\ ~ resolves st i) ->
       is_error (snd out) = true /\ fst out = st
       /\ (reaches_part_check E u t b st = true -> partErr E = None ->
           snd out = error 400 "One or more part versions not found"))
    /\ ((exists pv, In pv (rows (part_versions st)) /\ In (v_id pv) ids
                    /\ status pv <> "frozen") ->
        is_error (snd out) = true /\ fst out = st
        /\ (reaches_part_check E u t b st = true -> partErr E = None ->
            NoDup ids -> (forall i, In i ids -> resolves st i) ->
            snd out = error 400 ("All part versions must be frozen before creating "
                                   ++ what t)))
    /\ (is_error (snd out) = false ->
        exists new,
          rows (assembly_parts (fst out))
          = (rows (assembly_parts st) ++ new)%list
          /\ map part_version_id new = ids
          /\ Forall (references_frozen (fst out)) new).
Proof.
  intros E u t b now st ids Hkey Hids out.
  pose proof (create_assembly_version_outcome E u t b now st ids Hids) as Hout.
  fold out in Hout. cbv zeta in Hout.
  split; [| split].
  - intros Hmissing.
    destruct (check_part_versions_rejects st ids Hkey E (what t)
                (or_introl Hmissing)) as [r [Hcheck Hr]].
    rewrite Hcheck in Hout. destruct (Hout Hr) as [Herr [Hst Hresp]].
    repeat split; try assumption. intros Hreach HE.
    rewrite (check_part_versions_not_found st ids Hkey E (what t) HE Hmissing)
      in Hcheck.
    injection Hcheck as <-. apply Hresp; [| assumption].
    destruct Hmissing as [i [Hi _]]. intros ->. contradiction.
  - intros Hworking.
    destruct (check_part_versions_rejects st ids Hkey E (what t)
                (or_intror Hworking)) as [r [Hcheck Hr]].
    rewrite Hcheck in Hout. destruct (Hout Hr) as [Herr [Hst Hresp]].
    repeat split; try assumption. intros Hreach HE Hnd Hall.
    rewrite (check_part_versions_not_frozen st ids Hkey E (what t) HE Hnd Hall
               Hworking) in Hcheck.
    injection Hcheck as <-. apply Hresp; [| assumption].
    destruct Hworking as [pv [_ [Hi _]]]. intros ->. contradiction.
  - intros Hok.
    destruct (check_part_versions E ids (what t) st) as [r |] eqn:Hcheck.
    + exfalso. revert Hcheck Hout. unfold check_part_versions.
      destruct (partErr E); [intros [= <-] | destruct (negb _);
        [intros [= <-] | destruct (find _ _); [intros [= <-] | discriminate]]];
        intros Hout; destruct (Hout eq_refl) as [Herr _]; congruence.
    + destruct (Hout Hok) as [Hpv [new [Hrows Hmap]]].
      exists new. repeat split; try assumption.
      apply Forall_forall. intros ap Hap. unfold references_frozen.
      rewrite Hpv.
      destruct (check_part_versions_passes st ids Hkey E (what t) Hcheck
                  (part_version_id ap)) as [pv [Hin [Hid Hs]]].
      * rewrite <- Hmap. now apply in_map.
      * now exists pv.
Qed.

(** ** What a call can do to a table of versions *)

Ltac handler_cases :=
  unfold on_error;
  cbn -[freeze_row bulk_freeze_row release_row new_version];
  repeat (match goal with
          | |- context [match ?c with _ => _ end] => destruct c eqn:?
          end;
          cbn -[freeze_row bulk_freeze_row release_row new_version]).

Ltac versions_step_tac :=
  first [ apply vs_same
        | apply vs_insert
        | apply vs_delete
        | apply vs_update; first [ apply vu_freeze
                                 | apply vu_bulk_freeze; reflexivity
                                 | apply vu_release; reflexivity ] ].

Lemma handle_versions_step (E : sqlite_errors) (u : user) (r : request)
    (now : Z) (st : db) :
  let st' := fst (handle E u r now st) in
  versions_step (is_release_approval r) (is_bulk_freeze r) (part_versions st)
    (part_versions st')
  /\ versions_step (is_release_approval r) (is_bulk_freeze r)
       (assembly_versions st) (assembly_versions st')
  /\ users st' = users st.
Proof.
  destruct r; cbn [handle is_release_approval is_bulk_freeze];
    [ unfold post_parts | unfold put_part | unfold delete_part
    | unfold post_part_versions | unfold post_part_version_freeze
    | unfold post_part_rollback | unfold post_assemblies | unfold put_assembly
    | unfold delete_assembly | unfold post_assembly_versions
    | unfold post_assembly_version_freeze | unfold post_edit_requests
    | unfold approve_edit_request | unfold reject_edit_request
    | unfold post_release_requests | unfold approve_release_request
    | unfold reject_release_request | unfold get_versions_compare
    | unfold post_parts_bulk_delete | unfold post_parts_bulk_freeze ];
    unfold check_part_versions, delete_part_rows;
    handler_cases;
    (split; [versions_step_tac | split; [versions_step_tac | reflexivity]]).
Qed.

(** ** Invariants of the version tables *)

Lemma version_update_keeps_id (release bulk : bool)
    (f : version_row -> version_row) :
  version_update release bulk f -> forall v, v_id (f v) = v_id v.
Proof. intros [] v; reflexivity. Qed.

Lemma map_key_update {A : Type} (key : A -> Z) (p : A -> bool) (f : A -> A)
    (l : list A) :
  (forall r, key (f r) = key r) ->
  map key (map (fun r => if p r then f r else r) l) = map key l.
Proof.
  intros Hf. induction l as [| r l IH]; simpl; [reflexivity |].
  rewrite IH. destruct (p r); [now rewrite Hf | reflexivity].
Qed.

Lemma versions_step_wf (release bulk : bool) (t t' : table version_row) :
  versions_step release bulk t t' -> wf_table v_id t -> wf_table v_id t'.
Proof.
  unfold wf_table, primary_key.
  intros Hstep [Hnd Hle]. destruct Hstep as [t | t | t p f Hf | t p]; simpl.
  - auto.
  - rewrite map_app. simpl. split.
    + apply NoDup_app; [assumption | repeat constructor; intros [] |].
      intros i Hi [<- | []]. apply in_map_iff in Hi.
      destruct Hi as [v [Hid Hv]]. rewrite Forall_forall in Hle.
      specialize (Hle v Hv). lia.
    + apply Forall_app. split.
      * eapply Forall_impl; [| exact Hle]. simpl. intros; lia.
      * repeat constructor. simpl. lia.
  - pose proof (version_update_keeps_id release bulk f Hf) as Hid. split.
    + now rewrite map_key_update.
    + rewrite Forall_forall in *. intros v Hv. apply in_map_iff in Hv.
      destruct Hv as [v0 [<- Hv0]].
      destruct (p v0); [rewrite Hid |]; auto.
  - split.
    + now apply distinct_keys_filter.
    + rewrite Forall_forall in *. intros v Hv. apply filter_In in Hv.
      apply Hle. tauto.
Qed.




Lemma run_wf (calls : list call) (st : db) :
  wf_table v_id (part_versions st) ->
  wf_table v_id (assembly_versions st) ->
  users (run calls st) = users st
  /\ wf_table v_id (part_versions (run calls st))
  /\ wf_table v_id (assembly_versions (run calls st)).
Proof.
  revert st. induction calls as [| c calls IH]; intros st Hp Ha; simpl; [auto |].
  destruct (handle_versions_step (driver c) (caller c) (req c) (clock c) st)
    as [Hsp [Hsa Hu]].
  destruct (IH (fst (serve c st))) as [Hu' Hwf].
  - eapply versions_step_wf; eassumption.
  - eapply versions_step_wf; eassumption.
  - split; [| exact Hwf]. rewrite Hu'. exact Hu.
Qed.



Lemma wf_empty_table {A : Type} (key : A -> Z) : wf_table key (@empty_table A).
Proof. split; constructor. Qed.

(** The primary key of [part_versions] holds in every reachable store. *)
Lemma reachable_primary_key (us : list user_row) (calls : list call) :
  primary_key v_id (part_versions (run calls (empty_db us))).
Proof.
  destruct (run_wf calls (empty_db us)) as [_ [[H _] _]];
    [apply wf_empty_table | apply wf_empty_table | exact H].
Qed.

(** ** Freeze provenance *)


(** The assignment of the bulk route leaves [storage_path] as it was,
    where the direct freeze fills it from [working_path]: the two agree
    only on a row that has a storage path already or has no working
    path. *)
Lemma bulk_freeze_row_vs_freeze_row (userId : string) (now : Z)
    (v : version_row) :
  storage_path (bulk_freeze_row userId now v) = storage_path v
  /\ storage_path (freeze_row userId now v)
     = COALESCE (storage_path v) (working_path v)
  /\ (bulk_freeze_row userId now v = freeze_row userId now v
      <-> storage_path v <> None \/ working_path v = None).
Proof.
  split; [reflexivity |]. split; [reflexivity |].
  unfold bulk_freeze_row, freeze_row. split.
  - intros H. injection H as H.
    destruct (storage_path v); [left; discriminate | right; now symmetry].
  - intros [H | H].
    + destruct (storage_path v); [reflexivity | contradiction].
    + rewrite H. destruct (storage_path v); reflexivity.
Qed.

(** After [bulk_freeze_with_path] the version is frozen, has a working
    path and no storage path. *)
Example bulk_freeze_leaves_storage_path_unset :
  no_release_approval bulk_freeze_with_path = true
  /\ rows (part_versions (run bulk_freeze_with_path (empty_db default_users)))
     = [mkVersion 1 1 "V1" "frozen" None (Some "/vault/pn-100") None
          (Some "APPROVER-01") (Some 12) 10].
Proof. split; reflexivity. Qed.


(** ** The two ways to freeze *)

(** The approval and the direct freeze agree on [status] and
    [storage_path]; they agree on the whole row only when the row already
    carried the provenance that the direct freeze would write. *)
Lemma release_row_vs_freeze_row (userId : string) (now : Z) (v : version_row) :
  status (release_row v) = status (freeze_row userId now v)
  /\ storage_path (release_row v) = storage_path (freeze_row userId now v)
  /\ frozen_by (release_row v) = frozen_by v
  /\ frozen_at (release_row v) = frozen_at v
  /\ (release_row v = freeze_row userId now v
      <-> frozen_by v = Some userId /\ frozen_at v = Some now).
Proof.
  repeat split; try reflexivity.
  - unfold release_row, freeze_row in H. congruence.
  - unfold release_row, freeze_row in H. congruence.
  - intros [Hby Hat]. unfold release_row, freeze_row. now rewrite Hby, Hat.
Qed.

(** C4 fails on the code. The approver approves, at time 20, the release
    request for the working version 1 of part 1; a direct freeze of the
    same version by the same approver at the same time is run on the same
    store.  Both set the status and fill the storage path; only the direct
    freeze records [frozen_by] and [frozen_at]. *)
Theorem C4_release_approval_omits_provenance :
  snd (approve_release_request no_errors approver 1 20 store_release_pending)
  = success "Release request approved"
  /\ rows (part_versions
             (fst (approve_release_request no_errors approver 1 20
                     store_release_pending)))
     = [mkVersion 1 1 "V1" "frozen" (Some "/vault/pn-100")
          (Some "/vault/pn-100") None None None 10]
  /\ snd (post_part_version_freeze no_errors approver 1 1 20
            store_release_pending)
     = success "Part version frozen"
  /\ rows (part_versions
             (fst (post_part_version_freeze no_errors approver 1 1 20
                     store_release_pending)))
     = [mkVersion 1 1 "V1" "frozen" (Some "/vault/pn-100")
          (Some "/vault/pn-100") None (Some "APPROVER-01") (Some 20) 10].
Proof. repeat split. Qed.

(** ** Atomicity of assembly-version creation *)

(** C5 fails on the code. The part-version check passes, the version row
    is inserted, then the driver reports an error for the insert into
    [assembly_parts]: the call answers 500 and the new version row stays,
    without any composition edge; for [POST /api/assemblies] the assembly
    row stays as well. *)
Theorem C5_version_row_survives_failed_edge_insert :
  snd (post_assembly_versions edge_insert_fails designer 1
         (assembly_version_of [1]) 15 store_assembled)
  = error 500 "SQLITE_ERROR: too many SQL variables"
  /\ rows (assembly_versions
             (fst (post_assembly_versions edge_insert_fails designer 1
                     (assembly_version_of [1]) 15 store_assembled)))
     = (rows (assembly_versions store_assembled)
          ++ [mkVersion 2 1 "V2" "working" None None None None None 15])%list
  /\ assembly_parts
       (fst (post_assembly_versions edge_insert_fails designer 1
               (assembly_version_of [1]) 15 store_assembled))
     = assembly_parts store_assembled
  /\ snd (post_assemblies edge_insert_fails designer
            (assembly_named "ASM-2" "Axle" [1]) 15 store_frozen)
     = error 500 "SQLITE_ERROR: too many SQL variables"
  /\ List.length
       (rows (assemblies
                (fst (post_assemblies edge_insert_fails designer
                        (assembly_named "ASM-2" "Axle" [1]) 15 store_frozen))))
     = 1%nat
  /\ List.length
       (rows (assembly_versions
                (fst (post_assemblies edge_insert_fails designer
                        (assembly_named "ASM-2" "Axle" [1]) 15 store_frozen))))
     = 1%nat
  /\ rows (assembly_parts
             (fst (post_assemblies edge_insert_fails designer
                     (assembly_named "ASM-2" "Axle" [1]) 15 store_frozen)))
     = [].
Proof. repeat split. Qed.

(** The same for every store and request: once the checks are passed, an
    error of the edge insert leaves the version row behind. *)
Lemma failed_edge_insert_keeps_version_row (E : sqlite_errors) (u : user)
    (assemblyId : Z) (b : assembly_body) (now : Z) (st : db) (i : Z)
    (ids : list Z) (e : string) :
  b_part_version_ids b = Some (i :: ids) ->
  lastErr E = None -> countErr E = None -> versionErr E = None ->
  not_frozen (getLatestAssemblyVersion assemblyId st) = false ->
  check_part_versions E (i :: ids) "assembly version" st = None ->
  mapErr E = Some e ->
  let out := post_assembly_versions E u assemblyId b now st in
  snd out = error 500 e
  /\ assembly_parts (fst out) = assembly_parts st
  /\ rows (assembly_versions (fst out))
     = (rows (assembly_versions st)
          ++ [new_version assemblyId
                (next_label (ab_version_label b)
                   (count (fun v => item_id v =? assemblyId)
                      (assembly_versions st)))
                (or_null (ab_working_path b)) None now
                (last_rowid (assembly_versions st) + 1)])%list.
Proof.
  intros Hids Hlast Hcount Hversion Hnf Hcheck Hmap.
  unfold post_assembly_versions, on_error.
  rewrite Hids, Hlast, Hnf, Hcheck, Hcount, Hversion. cbn. rewrite Hmap.
  repeat split.
Qed.

(** ** Freezing twice *)

(** C7 fails on the code. Version 1 of part 1 was frozen by the approver
    at time 12; the admin freezes it again at time 30: the call succeeds
    and overwrites [frozen_by] and [frozen_at].  The assembly route does
    the same. *)
Theorem C7_refreeze_overwrites_provenance :
  rows (part_versions store_frozen)
  = [mkVersion 1 1 "V1" "frozen" (Some "/vault/pn-100") (Some "/vault/pn-100")
       None (Some "APPROVER-01") (Some 12) 10]
  /\ snd (post_part_version_freeze no_errors admin 1 1 30 store_frozen)
     = success "Part version frozen"
  /\ rows (part_versions
             (fst (post_part_version_freeze no_errors admin 1 1 30 store_frozen)))
     = [mkVersion 1 1 "V1" "frozen" (Some "/vault/pn-100")
          (Some "/vault/pn-100") None (Some "ADMIN-001") (Some 30) 10]
  /\ rows (assembly_versions store_assembled)
     = [mkVersion 1 1 "V1" "frozen" None None None (Some "APPROVER-01")
          (Some 14) 13]
  /\ snd (post_assembly_version_freeze no_errors admin 1 1 30 store_assembled)
     = success "Assembly version frozen"
  /\ rows (assembly_versions
             (fst (post_assembly_version_freeze no_errors admin 1 1 30
                     store_assembled)))
     = [mkVersion 1 1 "V1" "frozen" None None None (Some "ADMIN-001")
          (Some 30) 13].
Proof. repeat split. Qed.

(** The same for every frozen version: a direct freeze by an approver or
    admin succeeds and the row carries the new caller and time. *)
Lemma refreeze_rewrites_row (u : user) (partId versionId now : Z) (st : db)
    (v : version_row) :
  isApproverOrAdmin (role u) = true ->
  In v (rows (part_versions st)) ->
  v_id v = versionId -> item_id v = partId -> status v = "frozen" ->
  let out := post_part_version_freeze no_errors u partId versionId now st in
  snd out = success "Part version frozen"
  /\ In (freeze_row (id u) now v) (rows (part_versions (fst out)))
  /\ frozen_by (freeze_row (id u) now v) = Some (id u)
  /\ frozen_at (freeze_row (id u) now v) = Some now.
Proof.
  intros Hrole Hin Hid Hitem Hfrozen. unfold post_part_version_freeze.
  rewrite Hrole. cbn -[freeze_row].
  assert (Hp : (v_id v =? versionId) && (item_id v =? partId) = true)
    by (apply andb_true_iff; split; now apply Z.eqb_eq).
  assert (Hpos : (Z.of_nat
                    (List.length
                       (filter (fun v => (v_id v =? versionId)
                                         && (item_id v =? partId))
                          (rows (part_versions st)))) =? 0) = false).
  { apply Z.eqb_neq.
    assert (Hf : In v (filter (fun v => (v_id v =? versionId)
                                        && (item_id v =? partId))
                         (rows (part_versions st))))
      by (apply filter_In; auto).
    destruct (filter _ (rows (part_versions st))); [contradiction |].
    simpl List.length. lia. }
  rewrite Hpos. cbn -[freeze_row]. repeat split.
  apply in_map_iff. exists v. now rewrite Hp.
Qed.

(** ** Creating requests *)

(** C8 fails on the code. In the empty store, where no part and no
    version exists, a designer's release request for version 999 and edit
    request for part 999 are both answered 201 and stored as pending
    rows.  The schema declares [FOREIGN KEY(part_id) REFERENCES parts(id)]
    for [edit_requests]; the key is not enforced, and neither handler
    looks the part or the version up. *)
Theorem C8_requests_for_missing_items_are_stored :
  rows (parts (empty_db default_users)) = []
  /\ rows (part_versions (empty_db default_users)) = []
  /\ snd (post_release_requests no_errors designer (Some "part") (Some 999)
            None 10 (empty_db default_users))
     = mkResponse 201 [("id", JNum 1); ("item_type", JStr "part");
                       ("item_version_id", JNum 999)]
  /\ rows (release_requests
             (fst (post_release_requests no_errors designer (Some "part")
                     (Some 999) None 10 (empty_db default_users))))
     = [mkReleaseRequest 1 "part" 999 "DESIGNER-01" "pending" None 10 None None]
  /\ snd (post_edit_requests no_errors designer 999 None 10
            (empty_db default_users))
     = mkResponse 201 [("id", JNum 1); ("part_id", JStr "999")]
  /\ rows (edit_requests
             (fst (post_edit_requests no_errors designer 999 None 10
                     (empty_db default_users))))
     = [mkEditRequest 1 999 "DESIGNER-01" "pending" None 10 None None].
Proof. repeat split. Qed.

(** What the two creating routes test.  Creating an edit request succeeds
    exactly when the caller is a designer and the driver reports no error;
    creating a release request succeeds exactly when [item_type] is 'part'
    or 'assembly', [item_version_id] is present and not 0, and the driver
    reports no error.  Neither looks at the tables of parts or versions.
    A call that fails leaves the store unchanged; a call that succeeds
    appends one pending request row naming the given part or version. *)
Lemma request_creation_reads_no_table :
  forall (E : sqlite_errors) (u : user) (now : Z) (st : db),
    (forall (partId : Z) (reason : option string),
        let out := post_edit_requests E u partId reason now st in
        (is_error (snd out) = false <-> role u = "designer" /\ err E = None)
        /\ (is_error (snd out) = true -> fst out = st)
        /\ (is_error (snd out) = false ->
            rows (edit_requests (fst out))
            = (rows (edit_requests st)
                 ++ [mkEditRequest (last_rowid (edit_requests st) + 1) partId
                       (id u) "pending" (or_null reason) now None None])%list))
    /\ (forall (item_type : option string) (item_version_id : option Z)
               (reason : option string),
          let out := post_release_requests E u item_type item_version_id
                       reason now st in
          (is_error (snd out) = false
           <-> valid_item_type item_type
               /\ (exists v, item_version_id = Some v /\ v <> 0)
               /\ err E = None)
          /\ (is_error (snd out) = true -> fst out = st)
          /\ (is_error (snd out) = false ->
              exists type v,
                item_type = Some type /\ item_version_id = Some v
                /\ rows (release_requests (fst out))
                   = (rows (release_requests st)
                        ++ [mkReleaseRequest
                              (last_rowid (release_requests st) + 1) type v
                              (id u) "pending" (or_null reason) now None
                              None])%list)).
Proof.
  intros E u now st. split.
  - intros partId reason. unfold post_edit_requests, on_error.
    destruct (role u =? "designer")%string eqn:Hrole; simpl.
    + apply String.eqb_eq in Hrole.
      destruct (err E); simpl; repeat split; try discriminate; auto.
      intros [_ H]; discriminate.
    + apply string_eqb_false in Hrole.
      repeat split; try discriminate; try tauto.
  - intros item_type item_version_id reason.
    unfold post_release_requests, on_error, valid_item_type.
    assert (Hnone : forall o : option Z,
               (o = None \/ o = Some 0) -> ~ exists v, o = Some v /\ v <> 0).
    { intros o [-> | ->] [v [Hv Hne]]; congruence. }
    destruct item_version_id as [[| v | v] |];
      try (simpl; repeat split; try discriminate;
           intros [_ [Hv _]]; exfalso; revert Hv; apply Hnone; auto; fail).
    all: match goal with
         | |- context [Some ?z = Some _ /\ _ <> 0] =>
             assert (Hv : exists v0, Some z = Some v0 /\ v0 <> 0)
               by (eexists; split; [reflexivity | discriminate])
         end.
    all: destruct item_type as [type |];
      [| simpl; repeat split; try discriminate;
         intros [[H | H] _]; discriminate].
    all: destruct (string_dec type "part") as [-> | Hp];
      [| destruct (string_dec type "assembly") as [-> | Ha]].
    all: try (simpl; destruct (err E); simpl; repeat split;
              try discriminate; auto;
              try (intros [_ [_ H]]; discriminate);
              intros _; do 2 eexists; repeat split; reflexivity).
    all: cbn [truthy or_default]; destruct (type =? "")%string; simpl;
      try (repeat split; try discriminate;
           intros [[H | H] _]; congruence).
    all: rewrite (proj2 (string_eqb_false _ _) Hp),
           (proj2 (string_eqb_false _ _) Ha); simpl;
      repeat split; try discriminate;
      intros [[H | H] _]; congruence.
Qed.

(** ** Comparing two versions *)

(** Two rows of a table with the same key are the same row. *)
Lemma primary_key_unique {A : Type} (key : A -> Z) (t : table A) (a b : A) :
  primary_key key t -> In a (rows t) -> In b (rows t) -> key a = key b -> a = b.
Proof.
  unfold primary_key. induction (rows t) as [| x l IH]; simpl; [tauto |].
  intros Hnd Ha Hb Hkey. apply NoDup_cons_iff in Hnd. destruct Hnd as [Hx Hnd].
  destruct Ha as [-> | Ha], Hb as [-> | Hb]; auto.
  - exfalso. apply Hx. rewrite Hkey. now apply in_map.
  - exfalso. apply Hx. rewrite <- Hkey. now apply in_map.
Qed.

(** With [users.id] a primary key the join yields one row per version. *)
Lemma left_join_users_one (us : list user_row) (pv : version_row) :
  NoDup (map u_id us) -> exists name, left_join_users us pv = [(pv, name)].
Proof.
  unfold left_join_users. destruct (frozen_by pv) as [f |].
  - induction us as [| u us IH]; simpl; intros Hnd; [now exists None |].
    apply NoDup_cons_iff in Hnd. destruct Hnd as [Hu Hnd].
    destruct (f =? u_id u)%string eqn:Hf; [| now apply IH].
    apply String.eqb_eq in Hf. subst f.
    replace (filter (fun u0 => (u_id u =? u_id u0)%string) us) with (@nil user_row).
    + now exists (Some (u_username u)).
    + symmetry. clear IH Hnd. induction us as [| w us IH]; [reflexivity |].
      simpl in *. destruct (u_id u =? u_id w)%string eqn:Hw.
      * apply String.eqb_eq in Hw. exfalso. apply Hu. now left.
      * apply IH. intros H. apply Hu. now right.
  - intros _. exists None.
    now replace (filter (fun _ : user_row => false) us) with (@nil user_row)
      by (induction us; simpl; auto).
Qed.

Lemma left_join_users_rows (us : list user_row) (sel : list version_row) :
  NoDup (map u_id us) ->
  map fst (flat_map (left_join_users us) sel) = sel.
Proof.
  intros Hnd. induction sel as [| pv sel IH]; simpl; [reflexivity |].
  destruct (left_join_users_one us pv Hnd) as [name ->]. simpl. now rewrite IH.
Qed.

Section Compare.

Variables (st : db) (partId v1 v2 : Z).
Hypothesis Hversions : primary_key v_id (part_versions st).
Hypothesis Husers : NoDup (map u_id (users st)).

Let sel : list version_row :=
  select (fun pv => ((v_id pv =? v1) || (v_id pv =? v2)) && (item_id pv =? partId))
         (part_versions st).

Lemma sel_In (a : version_row) :
  In a sel <-> version_of_part st partId v1 a \/ version_of_part st partId v2 a.
Proof.
  unfold sel, select, version_of_part.
  rewrite filter_In, andb_true_iff, orb_true_iff, !Z.eqb_eq. tauto.
Qed.

Lemma find_version_row (a : version_row) (v : Z) :
  version_of_part st partId v a -> In a sel ->
  exists name,
    find_version v (flat_map (left_join_users (users st)) sel) = JVersion a name.
Proof.
  intros [Ha [Hid Hpart]] Hsel. unfold find_version.
  destruct (find (fun r => v_id (fst r) =? v)
              (flat_map (left_join_users (users st)) sel))
    as [[r name] |] eqn:Hfind.
  - exists name. apply find_some in Hfind. destruct Hfind as [Hin Hv].
    simpl in Hv. apply Z.eqb_eq in Hv.
    assert (Hr : In r sel).
    { rewrite <- (left_join_users_rows (users st) sel Husers).
      change r with (fst (r, name)). now apply in_map. }
    apply filter_In in Hr. destruct Hr as [Hr _].
    f_equal. apply (primary_key_unique v_id (part_versions st)); congruence.
  - exfalso.
    rewrite <- (left_join_users_rows (users st) sel Husers) in Hsel.
    apply in_map_iff in Hsel. destruct Hsel as [[r name] [Hfst Hin]].
    simpl in Hfst. subst r.
    pose proof (find_none _ _ Hfind _ Hin) as Hno. simpl in Hno.
    apply Z.eqb_neq in Hno. contradiction.
Qed.

(** Two distinct versions of the part are returned in full. *)
Lemma compare_distinct_versions (a b : version_row) :
  version_of_part st partId v1 a -> version_of_part st partId v2 b -> v1 <> v2 ->
  exists name1 name2,
    get_versions_compare no_errors partId (Some v1) (Some v2) st
    = (st, mkResponse 200 [("version1", JVersion a name1);
                           ("version2", JVersion b name2)]).
Proof.
  intros Ha Hb Hne. unfold get_versions_compare, on_error. cbn [err no_errors].
  fold sel.
  assert (Hsa : In a sel) by (apply sel_In; now left).
  assert (Hsb : In b sel) by (apply sel_In; now right).
  assert (Hlen : List.length (flat_map (left_join_users (users st)) sel) = 2%nat).
  { rewrite <- (length_map fst), left_join_users_rows by exact Husers.
    rewrite <- (length_map v_id).
    assert (Hnd : NoDup (map v_id sel))
      by (apply distinct_keys_filter; exact Hversions).
    apply Nat.le_antisymm.
    - apply (NoDup_incl_length (l' := [v1; v2]) Hnd).
      intros i Hi. apply in_map_iff in Hi. destruct Hi as [x [<- Hx]].
      apply sel_In in Hx. destruct Hx as [[_ [-> _]] | [_ [-> _]]];
        simpl; auto.
    - apply (NoDup_incl_length (l := [v1; v2])).
      + constructor; [intros [H | []]; congruence |].
        constructor; [intros [] | constructor].
      + destruct Ha as [_ [Hida _]], Hb as [_ [Hidb _]].
        intros i [<- | [<- | []]]; apply in_map_iff; eauto. }
  rewrite Hlen. simpl negb. cbv iota.
  destruct (find_version_row a v1 Ha Hsa) as [name1 ->].
  destruct (find_version_row b v2 Hb Hsb) as [name2 ->].
  now exists name1, name2.
Qed.

(** Nothing but two distinct versions of the part is ever returned, and
    the same version twice is answered 404. *)
Lemma compare_found_only_distinct :
  is_error (snd (get_versions_compare no_errors partId (Some v1) (Some v2) st))
  = false ->
  v1 <> v2 /\ (exists a, version_of_part st partId v1 a) /\ (exists b, version_of_part st partId v2 b).
Proof.
  unfold get_versions_compare, on_error. cbn [err no_errors]. fold sel.
  destruct (Z.of_nat (List.length (flat_map (left_join_users (users st)) sel))
            =? 2) eqn:Hlen; simpl; [intros _ | discriminate].
  apply Z.eqb_eq in Hlen.
  rewrite <- (length_map fst), left_join_users_rows in Hlen by exact Husers.
  assert (Hnd : NoDup (map v_id sel))
    by (apply distinct_keys_filter; exact Hversions).
  pose proof sel_In as Hsel.
  destruct sel as [| x [| y [| z l]]]; simpl in Hlen; try lia.
  simpl in Hnd. apply NoDup_cons_iff in Hnd. destruct Hnd as [Hxy _].
  assert (Hne : v_id x <> v_id y) by (intros H; apply Hxy; now left).
  destruct (proj1 (Hsel x) (or_introl eq_refl)) as [Hx | Hx],
           (proj1 (Hsel y) (or_intror (or_introl eq_refl))) as [Hy | Hy];
    pose proof Hx as [_ [Hidx _]]; pose proof Hy as [_ [Hidy _]];
    try (exfalso; congruence);
    (split; [congruence | split; eauto]).
Qed.

End Compare.

(** C9 fails on the code. Version 1 exists and belongs to part 1;
    comparing it with itself is answered 404, although both ids exist and
    belong to the part.  Two distinct versions of the part are returned. *)
Theorem C9_compare_same_version_not_found :
  rows (part_versions store_frozen)
  = [mkVersion 1 1 "V1" "frozen" (Some "/vault/pn-100") (Some "/vault/pn-100")
       None (Some "APPROVER-01") (Some 12) 10]
  /\ get_versions_compare no_errors 1 (Some 1) (Some 1) store_frozen
     = (store_frozen, error 404 "One or both versions not found").
Proof. repeat split. Qed.

(** ** The theorems at the sample stores *)

Lemma store_working_primary_key : primary_key v_id (part_versions store_working).
Proof. repeat constructor. intros []. Qed.

Lemma store_frozen_primary_key : primary_key v_id (part_versions store_frozen).
Proof. repeat constructor. intros []. Qed.

Lemma store_assembled_primary_key :
  primary_key v_id (part_versions store_assembled).
Proof. repeat constructor. intros []. Qed.

(** C1 at the sample stores: the working V1 is refused, the missing id 2
    is refused, the frozen V1 gives one edge to a frozen version. *)
Lemma C1_witness :
  snd (create_assembly_version no_errors designer NewAssembly
         (assembly_named "ASM-1" "Gearbox" [1]) 13 store_working)
  = error 400 "All part versions must be frozen before creating assembly"
  /\ snd (create_assembly_version no_errors designer (ExistingAssembly 1)
            (assembly_version_of [2]) 15 store_assembled)
     = error 400 "One or more part versions not found"
  /\ exists new,
       rows (assembly_parts
               (fst (create_assembly_version no_errors designer NewAssembly
                       (assembly_named "ASM-1" "Gearbox" [1]) 13 store_frozen)))
       = (rows (assembly_parts store_frozen) ++ new)%list
       /\ map part_version_id new = [1]
       /\ Forall (references_frozen
                    (fst (create_assembly_version no_errors designer NewAssembly
                            (assembly_named "ASM-1" "Gearbox" [1]) 13
                            store_frozen))) new.
Proof.
  split; [| split].
  - refine (proj2 (proj2 (proj1 (proj2
              (C1_assembly_versions_reference_frozen_parts no_errors designer
                 NewAssembly (assembly_named "ASM-1" "Gearbox" [1]) 13
                 store_working [1] store_working_primary_key eq_refl)) _))
              eq_refl eq_refl _ _).
    + exists (mkVersion 1 1 "V1" "working" None (Some "/vault/pn-100") None
                None None 10).
      split; [now left | split; [now left | discriminate]].
    + repeat constructor. intros [].
    + intros i [<- | []].
      exists (mkVersion 1 1 "V1" "working" None (Some "/vault/pn-100") None
                None None 10).
      split; [now left | reflexivity].
  - refine (proj2 (proj2 (proj1
              (C1_assembly_versions_reference_frozen_parts no_errors designer
                 (ExistingAssembly 1) (assembly_version_of [2]) 15
                 store_assembled [2] store_assembled_primary_key eq_refl) _))
              eq_refl eq_refl).
    exists 2. split; [now left |].
    intros [pv [[<- | []] Hid]]. discriminate.
  - exact (proj2 (proj2
             (C1_assembly_versions_reference_frozen_parts no_errors designer
                NewAssembly (assembly_named "ASM-1" "Gearbox" [1]) 13
                store_frozen [1] store_frozen_primary_key eq_refl)) eq_refl).
Defined.


(** C6 at the sample stores: PN-100 cannot be deleted while ASM-1 uses
    its V1, and is deleted with its version and grant before that. *)
Lemma C6_witness :
  role admin = "admin"
  /\ fst (delete_part no_errors admin 1 store_assembled) = store_assembled
  /\ snd (delete_part no_errors admin 1 store_assembled)
     = conflict_part_referenced
  /\ snd (delete_part no_errors admin 1 store_frozen) = success "Part deleted"
  /\ rows (parts (fst (delete_part no_errors admin 1 store_frozen))) = []
  /\ rows (part_versions (fst (delete_part no_errors admin 1 store_frozen))) = []
  /\ rows (part_permissions (fst (delete_part no_errors admin 1 store_frozen)))
     = [].
Proof.
  assert (Href : part_referenced 1 store_assembled).
  { exists (mkEdge 1 1 1 13),
           (mkVersion 1 1 "V1" "frozen" (Some "/vault/pn-100")
              (Some "/vault/pn-100") None (Some "APPROVER-01") (Some 12) 10).
    repeat split; now left. }
  assert (Hfree : ~ part_referenced 1 store_frozen).
  { intros [ap [pv [[] _]]]. }
  split; [reflexivity |]. split; [| split; [| split]].
  - exact (proj1 (proj2 (proj2
             (C6_delete_part_iff_unreferenced admin 1 store_assembled eq_refl)))
             Href).
  - exact (proj2 (proj1
             (C6_delete_part_iff_unreferenced admin 1 store_assembled eq_refl))
             Href).
  - exact (proj1 (proj1 (proj2 (proj2 (proj2
             (C6_delete_part_iff_unreferenced admin 1 store_frozen eq_refl))))
             Hfree)).
  - repeat split.
Defined.

(** C10 at a sample store: V1 of PN-100 is frozen, V2 is working; a bulk
    freeze of both by the admin leaves V1 as it was and reports 1. *)
Lemma C10_witness :
  nth_error (rows (part_versions
                     (fst (post_parts_bulk_freeze no_errors admin (Some [1; 2])
                             30 store_two_versions)))) 0
  = Some (mkVersion 1 1 "V1" "frozen" (Some "/vault/pn-100")
            (Some "/vault/pn-100") None (Some "APPROVER-01") (Some 12) 10)
  /\ snd (post_parts_bulk_freeze no_errors admin (Some [1; 2]) 30
            store_two_versions)
     = mkResponse 200 [("success", JBool true); ("frozen", JNum 1)].
Proof.
  destruct (C10_bulk_freeze_only_working no_errors admin [1; 2] 30
              store_two_versions) as [Hframe [_ [Hcount _]]].
  split.
  - apply Hframe; [reflexivity | discriminate].
  - exact (Hcount eq_refl).
Defined.

(** * Further properties of the handlers *)

(** ** Codes of parts and assemblies *)

Lemma existsb_code_fresh {A : Type} (code : A -> string) (c : string)
    (l : list A) :
  existsb (fun r => (code r =? c)%string) l = false ->
  forall q, In q l -> code q <> c.
Proof.
  intros Hex q Hq Hc.
  assert (Htrue : existsb (fun r => (code r =? c)%string) l = true).
  { apply existsb_exists. exists q. split; [assumption |].
    now apply String.eqb_eq. }
  congruence.
Qed.

Ltac items_step_tac :=
  first [ apply is_same
        | apply is_delete
        | apply is_update; intros; repeat split
        | apply is_insert;
          [ reflexivity
          | cbn; eapply existsb_code_fresh; eassumption ] ].

Lemma handle_items_step (E : sqlite_errors) (u : user) (r : request)
    (now : Z) (st : db) :
  let st' := fst (handle E u r now st) in
  items_step p_id part_code p_owner_id (parts st) (parts st')
  /\ items_step a_id assembly_code a_owner_id (assemblies st) (assemblies st').
Proof.
  destruct r; cbn [handle];
    [ unfold post_parts | unfold put_part | unfold delete_part
    | unfold post_part_versions | unfold post_part_version_freeze
    | unfold post_part_rollback | unfold post_assemblies | unfold put_assembly
    | unfold delete_assembly | unfold post_assembly_versions
    | unfold post_assembly_version_freeze | unfold post_edit_requests
    | unfold approve_edit_request | unfold reject_edit_request
    | unfold post_release_requests | unfold approve_release_request
    | unfold reject_release_request | unfold get_versions_compare
    | unfold post_parts_bulk_delete | unfold post_parts_bulk_freeze ];
    unfold check_part_versions, delete_part_rows;
    handler_cases;
    (split; items_step_tac).
Qed.

Lemma items_step_wf {A : Type} (key : A -> Z) (code owner : A -> string)
    (t t' : table A) :
  items_step key code owner t t' -> wf_items key code t -> wf_items key code t'.
Proof.
  unfold wf_items, wf_table, primary_key.
  intros Hstep [[Hkeys Hle] Hcodes].
  destruct Hstep as [t | t r Hr Hfresh | t p f Hf | t p]; simpl.
  - auto.
  - rewrite !map_app. simpl. repeat split.
    + apply NoDup_app; [assumption | repeat constructor; intros [] |].
      intros k Hk [<- | []]. apply in_map_iff in Hk.
      destruct Hk as [q [Hq Hin]]. rewrite Forall_forall in Hle.
      specialize (Hle q Hin). lia.
    + apply Forall_app. split.
      * eapply Forall_impl; [| exact Hle]. simpl. intros; lia.
      * repeat constructor. lia.
    + apply NoDup_app; [assumption | repeat constructor; intros [] |].
      intros c Hc [<- | []]. apply in_map_iff in Hc.
      destruct Hc as [q [Hq Hin]]. now apply (Hfresh q Hin).
  - repeat split.
    + rewrite map_key_update; [assumption | intros; apply Hf].
    + rewrite Forall_forall in *. intros r Hr. apply in_map_iff in Hr.
      destruct Hr as [r0 [<- Hr0]].
      destruct (p r0); [destruct (Hf r0) as [-> _] |]; auto.
    + replace (map code (map (fun r => if p r then f r else r) (rows t)))
        with (map code (rows t)); [assumption |].
      clear Hkeys Hle Hcodes.
      induction (rows t) as [| r l IH]; simpl; [reflexivity |].
      rewrite <- IH. destruct (p r); [| reflexivity].
      destruct (Hf r) as [_ [-> _]]. reflexivity.
  - repeat split.
    + now apply distinct_keys_filter.
    + rewrite Forall_forall in *. intros r Hr. apply filter_In in Hr.
      apply Hle. tauto.
    + clear Hkeys Hle. induction (rows t) as [| r l IH]; simpl; [constructor |].
      simpl in Hcodes. apply NoDup_cons_iff in Hcodes.
      destruct Hcodes as [Hr Hl].
      destruct (negb (p r)); simpl; [| now apply IH].
      constructor; [| now apply IH].
      rewrite in_map_iff. intros [q [Hq Hin]]. apply filter_In in Hin.
      apply Hr. rewrite in_map_iff. exists q. tauto.
Qed.

Lemma run_wf_items (calls : list call) (st : db) :
  wf_items p_id part_code (parts st) ->
  wf_items a_id assembly_code (assemblies st) ->
  wf_items p_id part_code (parts (run calls st))
  /\ wf_items a_id assembly_code (assemblies (run calls st)).
Proof.
  revert st. induction calls as [| c calls IH]; intros st Hp Ha; simpl; [auto |].
  destruct (handle_items_step (driver c) (caller c) (req c) (clock c) st)
    as [Hsp Hsa].
  apply IH; eapply items_step_wf; eassumption.
Qed.

(** X1. In every store reached from the empty one, whatever the calls and
    the driver errors, no two parts share a part code, no two assemblies
    share an assembly code, and the ids of both tables are distinct: the
    creating routes refuse a code in use and no other route, in
    particular neither PUT route, changes a code or an id. *)
Theorem X1_codes_stay_unique :
  forall (us : list user_row) (calls : list call),
    NoDup (map part_code (rows (parts (run calls (empty_db us)))))
    /\ NoDup (map assembly_code (rows (assemblies (run calls (empty_db us)))))
    /\ primary_key p_id (parts (run calls (empty_db us)))
    /\ primary_key a_id (assemblies (run calls (empty_db us))).
Proof.
  intros us calls.
  destruct (run_wf_items calls (empty_db us)) as [[[Hp _] Hpc] [[Ha _] Hac]].
  - split; [apply wf_empty_table | constructor].
  - split; [apply wf_empty_table | constructor].
  - auto.
Qed.

(** ** Creating a part *)

Lemma includes_In (allowed : list string) (v : string) :
  includes allowed v = true -> In v allowed.
Proof.
  unfold includes. rewrite existsb_exists. intros [x [Hx Heq]].
  apply String.eqb_eq in Heq. now subst.
Qed.

Lemma get_fresh_row {A : Type} (key : A -> Z) (t : table A) (r : A) :
  wf_table key t -> key r = last_rowid t + 1 ->
  find (fun x => key x =? last_rowid t + 1) (rows t ++ [r])%list = Some r.
Proof.
  intros [_ Hle] Hr. induction (rows t) as [| x l IH]; simpl.
  - now rewrite Hr, Z.eqb_refl.
  - apply Forall_cons_iff in Hle. destruct Hle as [Hx Hl].
    destruct (key x =? last_rowid t + 1) eqn:Hk; [apply Z.eqb_eq in Hk; lia |].
    now apply IH.
Qed.

(** X2. With a driver in working order [POST /api/parts] either fails and
    leaves the store as it was, or appends one part row owned by the
    caller, with the given code, a criticality of the enum ('normal' when
    none is given) and lifecycle 'draft', together with its first version
    'V1' in status 'working'; the caller may then edit the new part. *)
Theorem X2_created_part_has_first_version :
  forall (u : user) (b : part_body) (now : Z) (st : db),
    wf_table p_id (parts st) ->
    let out := post_parts no_errors u b now st in
    let pid := last_rowid (parts st) + 1 in
    (is_error (snd out) = true -> fst out = st)
    /\ (is_error (snd out) = false ->
        exists p,
          rows (parts (fst out)) = (rows (parts st) ++ [p])%list
          /\ p_id p = pid
          /\ b_part_code b = Some (part_code p)
          /\ p_owner_id p = id u
          /\ (exists c, p_criticality p = Some c /\ In c VALID_CRITICALITY)
          /\ p_lifecycle_state p = Some "draft"
          /\ rows (part_versions (fst out))
             = (rows (part_versions st)
                  ++ [mkVersion (last_rowid (part_versions st) + 1) pid "V1"
                        "working" None (or_null (b_working_path b)) None None
                        None now])%list
          /\ canEditPart no_errors (id u) (role u) pid (fst out) = inr true
          /\ http_status (snd out) = 201).
Proof.
  intros u b now st Hwf out pid. subst out pid.
  unfold post_parts, on_error. cbn [err versionErr no_errors].
  destruct (negb (requireRole ["designer"; "admin"] u)); [now split |].
  destruct (b_part_code b) as [code |] eqn:Hcode; simpl; [| now split].
  destruct (code =? "")%string eqn:Hempty; simpl; [now split |].
  destruct (negb (truthy (b_name b))); simpl; [now split |].
  destruct (50 <? strlen code); simpl; [now split |].
  destruct (too_long (b_name b) 200); [now split |].
  destruct (too_long (b_description b) 2000); [now split |].
  destruct (validateEnum (b_criticality b) VALID_CRITICALITY "criticality")
    as [cErr |] eqn:Hcrit; [now split |].
  destruct (existsb _ (rows (parts st))); [now split |].
  cbn -[VALID_CRITICALITY or_null or_default canEditPart].
  split; [discriminate | intros _].
  eexists. split; [reflexivity |].
  cbn -[VALID_CRITICALITY or_null or_default canEditPart].
  split; [reflexivity |]. split; [reflexivity |].
  split; [reflexivity |]. split; [| split; [reflexivity | split;
    [reflexivity | split; [| reflexivity]]]].
  - unfold validateEnum in Hcrit. unfold or_default.
    destruct (b_criticality b) as [c |]; [| exists "normal"; simpl; auto].
    destruct (c =? "")%string; cbn [negb andb] in Hcrit;
      [exists "normal"; simpl; auto |].
    destruct (includes VALID_CRITICALITY c) eqn:Hin; cbn [negb] in Hcrit;
      [| discriminate].
    exists c. split; [reflexivity | exact (includes_In VALID_CRITICALITY c Hin)].
  - unfold canEditPart. destruct (role u =? "admin")%string; [reflexivity |].
    cbn [err permErr no_errors parts set_parts set_part_versions
         set_part_permissions].
    unfold get at 1. cbn [rows].
    rewrite (get_fresh_row p_id (parts st)); [| assumption | reflexivity].
    cbn [p_owner_id]. now rewrite String.eqb_refl.
Qed.

(** ** Who may edit a part *)

Lemma find_grant_unique (l : list part_permission_row) (partId : Z)
    (userId : string) (pp : part_permission_row) :
  NoDup (map (fun pp => (pp_part_id pp, pp_user_id pp)) l) ->
  In pp l -> pp_part_id pp = partId -> pp_user_id pp = userId ->
  find (fun x => (pp_part_id x =? partId) && (pp_user_id x =? userId)%string) l
  = Some pp.
Proof.
  intros Hnd Hin Hp Hu. induction l as [| x l IH]; simpl in *; [contradiction |].
  apply NoDup_cons_iff in Hnd. destruct Hnd as [Hx Hnd].
  destruct Hin as [-> | Hin].
  - apply Z.eqb_eq in Hp. apply String.eqb_eq in Hu. now rewrite Hp, Hu.
  - destruct ((pp_part_id x =? partId) && (pp_user_id x =? userId)%string)
      eqn:Hm; [| now apply IH].
    exfalso. apply Hx. apply andb_true_iff in Hm. destruct Hm as [H1 H2].
    apply Z.eqb_eq in H1. apply String.eqb_eq in H2.
    apply in_map_iff. exists pp. split; [congruence | assumption].
Qed.

(** X3. With a driver in working order [canEditPart] always answers, and
    it allows the edit exactly when the caller is an admin or the part
    exists and the caller owns it or holds a grant with [can_edit] set.
    An admin is allowed whether or not the part exists; anyone else is
    refused for a part that does not exist. *)
Theorem X3_can_edit_part_iff :
  forall (userId role : string) (partId : Z) (st : db),
    primary_key p_id (parts st) ->
    unique_grants (part_permissions st) ->
    (exists allowed, canEditPart no_errors userId role partId st = inr allowed)
    /\ (canEditPart no_errors userId role partId st = inr true
        <-> role = "admin" \/ owner_or_grantee userId partId st).
Proof.
  intros userId role partId st Hparts Hgrants.
  unfold canEditPart, owner_or_grantee, get. cbn [err permErr no_errors].
  destruct (role =? "admin")%string eqn:Hrole.
  { apply String.eqb_eq in Hrole. split; [now exists true | tauto]. }
  apply string_eqb_false in Hrole.
  destruct (find (fun p => p_id p =? partId) (rows (parts st))) as [part |]
    eqn:Hpart.
  - apply find_some in Hpart. destruct Hpart as [Hin Hid].
    apply Z.eqb_eq in Hid.
    destruct (p_owner_id part =? userId)%string eqn:Howner.
    { apply String.eqb_eq in Howner. split; [now exists true |].
      split; [intros _; right; exists part; auto | reflexivity]. }
    apply string_eqb_false in Howner.
    destruct (find _ (rows (part_permissions st))) as [perm |] eqn:Hperm.
    + split; [now eexists |]. pose proof Hperm as Hfound.
      apply find_some in Hperm. destruct Hperm as [Hpin Hm].
      apply andb_true_iff in Hm. destruct Hm as [H1 H2].
      apply Z.eqb_eq in H1. apply String.eqb_eq in H2. split.
      * intros [= Hcan]. right. exists part. repeat split; try assumption.
        right. exists perm. auto.
      * intros [Hadmin | [p [Hp [Hpid [Hown | [pp [Hpp [Ha [Hb Hc]]]]]]]]];
          [contradiction | |].
        -- assert (p = part)
             by (apply (primary_key_unique p_id (parts st)); congruence).
           congruence.
        -- rewrite (find_grant_unique _ partId userId pp Hgrants Hpp Ha Hb)
             in Hfound. congruence.
    + split; [now eexists |]. split; [discriminate |].
      intros [Hadmin | [p [Hp [Hpid [Hown | [pp [Hpp [Ha [Hb Hc]]]]]]]]];
        [contradiction | |].
      * assert (p = part)
          by (apply (primary_key_unique p_id (parts st)); congruence).
        congruence.
      * rewrite (find_grant_unique _ partId userId pp Hgrants Hpp Ha Hb)
          in Hperm. discriminate.
  - split; [now eexists |]. split; [discriminate |].
    intros [Hadmin | [p [Hp [Hpid _]]]]; [contradiction |].
    pose proof (find_none _ _ Hpart p Hp) as Hno. simpl in Hno.
    apply Z.eqb_neq in Hno. contradiction.
Qed.

(** ** Deciding an edit request *)

Lemma find_exists_key {A : Type} (key : A -> Z) (l : list A) (k : Z) :
  (exists r, In r l /\ key r = k) ->
  exists r, find (fun x => key x =? k) l = Some r /\ In r l /\ key r = k.
Proof.
  intros [r [Hin Hk]].
  destruct (find (fun x => key x =? k) l) as [x |] eqn:Hfind.
  - exists x. apply find_some in Hfind. destruct Hfind as [Hx Hxk].
    apply Z.eqb_eq in Hxk. auto.
  - pose proof (find_none _ _ Hfind r Hin) as Hno. simpl in Hno.
    apply Z.eqb_neq in Hno. contradiction.
Qed.

Lemma replaced_grant_found (partId : Z) (userId : string) (now : Z)
    (t : table part_permission_row) :
  exists pp,
    get (fun x => (pp_part_id x =? partId) && (pp_user_id x =? userId)%string)
        (insert_or_replace_permission partId userId now t) = Some pp
    /\ can_edit pp = true.
Proof.
  unfold insert_or_replace_permission, get, insert, delete. cbn [fst rows].
  exists (mkPermission (last_rowid t + 1) partId userId true now).
  split; [| reflexivity].
  induction (rows t) as [| x l IH]; simpl.
  - now rewrite Z.eqb_refl, String.eqb_refl.
  - destruct ((pp_part_id x =? partId) && (pp_user_id x =? userId)%string)
      eqn:Hm; simpl; [exact IH |]. rewrite Hm. exact IH.
Qed.

(** X4. When an approver or admin approves an existing edit request and
    the driver works, the call succeeds and afterwards [canEditPart]
    allows the requester, whatever the requester's role, to edit the part
    of the request, provided the part exists; parts and versions are left
    as they were. *)
Theorem X4_approval_grants_edit :
  forall (u : user) (requestId : Z) (now : Z) (st : db)
         (request : edit_request_row),
    isApproverOrAdmin (role u) = true ->
    get (fun er => er_id er =? requestId) (edit_requests st) = Some request ->
    (exists p, In p (rows (parts st)) /\ p_id p = er_part_id request) ->
    let out := approve_edit_request no_errors u requestId now st in
    snd out = success "Edit request approved"
    /\ parts (fst out) = parts st
    /\ part_versions (fst out) = part_versions st
    /\ forall role',
         canEditPart no_errors (er_requester_id request) role'
           (er_part_id request) (fst out) = inr true.
Proof.
  intros u requestId now st request Hrole Hget Hpart out. subst out.
  unfold approve_edit_request, on_error. rewrite Hrole, Hget.
  cbn [negb err updateErr no_errors fst snd].
  repeat split. intros role'. unfold canEditPart.
  destruct (role' =? "admin")%string; [reflexivity |].
  cbn [err permErr no_errors parts part_permissions set_part_permissions
       set_edit_requests].
  destruct (find_exists_key p_id (rows (parts st)) (er_part_id request) Hpart)
    as [part [Hfind _]].
  unfold get at 1. rewrite Hfind.
  destruct (p_owner_id part =? er_requester_id request)%string; [reflexivity |].
  destruct (replaced_grant_found (er_part_id request) (er_requester_id request)
              now (part_permissions st)) as [pp [Hpp Hcan]].
  now rewrite Hpp, Hcan.
Qed.

(** X5. Rejecting an edit request changes no table but [edit_requests],
    whatever the caller and the driver: the store after the call is the
    store before it with the new table of edit requests, whose rowid
    counter and number of rows are the old ones.  In particular a grant
    given by an earlier approval of the same request stays, and
    [canEditPart] answers as before.  For an approver or admin and a
    working driver the answer is 404 exactly when no request has the id;
    otherwise the requests with the id become 'rejected' with the caller
    and the time, and every other request keeps its row. *)
Theorem X5_rejection_keeps_grants :
  forall (E : sqlite_errors) (u : user) (requestId : Z) (now : Z) (st : db),
    let out := reject_edit_request E u requestId now st in
    (set_edit_requests (edit_requests (fst out)) st = fst out
     /\ last_rowid (edit_requests (fst out)) = last_rowid (edit_requests st)
     /\ List.length (rows (edit_requests (fst out)))
        = List.length (rows (edit_requests st))
     /\ users (fst out) = users st
     /\ assemblies (fst out) = assemblies st
     /\ assembly_versions (fst out) = assembly_versions st
     /\ part_permissions (fst out) = part_permissions st
     /\ parts (fst out) = parts st
     /\ part_versions (fst out) = part_versions st
     /\ assembly_parts (fst out) = assembly_parts st
     /\ release_requests (fst out) = release_requests st
     /\ forall E' userId role' partId,
          canEditPart E' userId role' partId (fst out)
          = canEditPart E' userId role' partId st)
    /\ rows (edit_requests (fst out))
       = (if is_error (snd out) && negb (http_status (snd out) =? 404)
          then rows (edit_requests st)
          else map (fun er => if er_id er =? requestId
                              then decided_edit_request "rejected" (id u) now er
                              else er)
                   (rows (edit_requests st)))
    /\ (isApproverOrAdmin (role u) = true -> err E = None ->
        (snd out = error 404 "Request not found"
         <-> forall er, In er (rows (edit_requests st)) -> er_id er <> requestId)
        /\ (is_error (snd out) = false
            <-> exists er, In er (rows (edit_requests st))
                           /\ er_id er = requestId)).
Proof.
  intros E u requestId now st out. subst out.
  unfold reject_edit_request, on_error, decided_edit_request.
  destruct (isApproverOrAdmin (role u)); cbn [negb];
    [| repeat split; intros; try discriminate; now destruct st].
  destruct (err E);
    [repeat split; intros; try discriminate; now destruct st |].
  cbn [update fst snd].
  pose proof (count_zero_iff (fun er => er_id er =? requestId)
                (edit_requests st)) as Hzero.
  unfold count in Hzero.
  destruct (Z.of_nat (List.length (filter _ (rows (edit_requests st)))) =? 0)
    eqn:Hc; cbn.
  - apply Z.eqb_eq in Hc.
    split; [repeat split; apply length_map |]. split; [reflexivity |].
    intros _ _. split.
    + split; [intros _ er Her | reflexivity].
      apply Z.eqb_neq. now apply Hzero.
    + split; [discriminate |]. intros [er [Her Hid]].
      apply (proj1 Hzero Hc) in Her. apply Z.eqb_neq in Her. contradiction.
  - apply Z.eqb_neq in Hc.
    split; [repeat split; apply length_map |]. split; [reflexivity |].
    intros _ _.
    assert (Hex : exists er, In er (rows (edit_requests st))
                             /\ er_id er = requestId).
    { destruct (filter (fun er => er_id er =? requestId)
                  (rows (edit_requests st))) as [| er l] eqn:Hf;
        [simpl in Hc; lia |].
      assert (Hin : In er (er :: l)) by now left.
      rewrite <- Hf in Hin. apply filter_In in Hin. destruct Hin as [Hin Hid].
      apply Z.eqb_eq in Hid. now exists er. }
    split.
    + split; [discriminate |]. intros Hnone. destruct Hex as [er [Her Hid]].
      exfalso. now apply (Hnone er).
    + split; [intros _; exact Hex | reflexivity].
Qed.

(** ** Rolling a part back *)

(** What a rollback does to the versions and when it is refused, in terms
    of the row that [getLatestPartVersion] selects. *)
Lemma post_part_rollback_outcome :
  forall (E : sqlite_errors) (u : user) (partId version_id : Z) (now : Z)
         (st : db),
    let out := post_part_rollback E u partId (Some version_id) now st in
    let n := count (fun v => item_id v =? partId) (part_versions st) in
    (parts (fst out) = parts st
     /\ assembly_parts (fst out) = assembly_parts st
     /\ assembly_versions (fst out) = assembly_versions st
     /\ part_permissions (fst out) = part_permissions st)
    /\ (is_error (snd out) = true -> fst out = st)
    /\ (is_error (snd out) = false ->
        rows (part_versions (fst out))
        = (rows (part_versions st)
             ++ [mkVersion (last_rowid (part_versions st) + 1) partId
                   ("V" ++ string_of_Z (n + 1)) "working" None None None None
                   None now])%list)
    /\ (canEditPart E (id u) (role u) partId st = inr true ->
        E = no_errors -> version_id <> 0 ->
        (is_error (snd out) = true
         <-> version_referenced version_id st
             \/ exists v, getLatestPartVersion partId st = Some v
                          /\ status v <> "frozen")).
Proof.
  intros E u partId version_id now st out n. subst out n.
  unfold post_part_rollback, on_error.
  assert (Hlink : (0 <? count (fun ap => part_version_id ap =? version_id)
                          (assembly_parts st)) = true
                  <-> version_referenced version_id st).
  { unfold version_referenced. rewrite Z.ltb_lt. split.
    - intros Hpos.
      destruct (Z.eq_dec (count (fun ap => part_version_id ap =? version_id)
                            (assembly_parts st)) 0) as [Hz | Hnz]; [lia |].
      unfold count in *.
      destruct (filter _ (rows (assembly_parts st))) as [| ap l] eqn:Hf;
        [simpl in Hnz; lia |].
      assert (Hin : In ap (ap :: l)) by now left.
      rewrite <- Hf in Hin. apply filter_In in Hin. destruct Hin as [Hin Hid].
      apply Z.eqb_eq in Hid. now exists ap.
    - intros [ap [Hin Hid]].
      destruct (Z.eq_dec (count (fun ap => part_version_id ap =? version_id)
                            (assembly_parts st)) 0) as [Hz | Hnz].
      + apply (proj1 (count_zero_iff _ _)) with (r := ap) in Hz;
          [| assumption]. apply Z.eqb_neq in Hz. contradiction.
      + unfold count in *. lia. }
  destruct (Z.eq_dec version_id 0) as [-> | Hnz].
  { repeat split; try reflexivity; try discriminate. congruence. }
  assert (Hsome : forall (A : Type) (a b : A),
             match version_id with 0 => a | _ => b end = b)
    by (intros; destruct version_id; [contradiction | |]; reflexivity).
  rewrite Hsome. clear Hsome.
  destruct (canEditPart E (id u) (role u) partId st) as [e | [|]];
    try (repeat split; try reflexivity; discriminate).
  destruct (linkErr E) eqn:HlinkErr.
  { repeat split; try reflexivity; try discriminate.
    subst E. discriminate HlinkErr. }
  destruct (0 <? count _ (assembly_parts st)) eqn:Hcount.
  { repeat split; try reflexivity; try discriminate.
    intros _. left. now apply Hlink. }
  destruct (lastErr E) eqn:HlastErr.
  { repeat split; try reflexivity; try discriminate.
    subst E. discriminate HlastErr. }
  destruct (not_frozen (getLatestPartVersion partId st)) eqn:Hnf.
  { repeat split; try reflexivity; try discriminate.
    intros _. right. now apply not_frozen_true. }
  assert (Hok : ~ (version_referenced version_id st
                   \/ exists v, getLatestPartVersion partId st = Some v
                                /\ status v <> "frozen")).
  { intros [Href | Hlatest].
    - apply Hlink in Href. congruence.
    - apply not_frozen_true in Hlatest. congruence. }
  destruct (countErr E) eqn:HcountErr.
  { repeat split; try reflexivity; try discriminate.
    subst E. discriminate HcountErr. }
  destruct (insertErr E) eqn:HinsertErr.
  { repeat split; try reflexivity; try discriminate.
    subst E. discriminate HinsertErr. }
  cbn. repeat split; try reflexivity; try discriminate.
  intros Hfalse. contradiction.
Qed.

Lemma post_part_rollback_frame (E : sqlite_errors) (u : user)
    (partId : Z) (version_id : option Z) (now : Z) (st : db) :
  set_part_versions
    (part_versions (fst (post_part_rollback E u partId version_id now st))) st
  = fst (post_part_rollback E u partId version_id now st).
Proof.
  unfold post_part_rollback. handler_cases;
    first [reflexivity | now destruct st].
Qed.

(** X6. A rollback never touches an existing version: the store after the
    call is the store before it with the new table of part versions, and
    this table is the old one, when the call fails, or the old one with
    one more 'working' version of the part, labelled V(n+1) and without
    path or notes.  For a caller who may edit, a non-zero [version_id] and
    a working driver the call fails exactly when a composition edge
    references [version_id] or the row that [getLatestPartVersion] selects
    is not frozen; [version_id] itself need not name a version of the
    part.  The selected row is, among the versions of the part in the
    order of the table, the first of those with the greatest [created_at]:
    every version before it is older, none behind it is newer.  It need
    not be the version created last. *)
Theorem X6_rollback_appends_working_copy :
  forall (E : sqlite_errors) (u : user) (partId version_id : Z) (now : Z)
         (st : db),
    let out := post_part_rollback E u partId (Some version_id) now st in
    let n := count (fun v => item_id v =? partId) (part_versions st) in
    set_part_versions (part_versions (fst out)) st = fst out
    /\ (is_error (snd out) = true -> fst out = st)
    /\ (is_error (snd out) = false ->
        part_versions (fst out)
        = mkTable
            (rows (part_versions st)
               ++ [mkVersion (last_rowid (part_versions st) + 1) partId
                     ("V" ++ string_of_Z (n + 1)) "working" None None None None
                     None now])%list
            (last_rowid (part_versions st) + 1))
    /\ (canEditPart E (id u) (role u) partId st = inr true ->
        E = no_errors -> version_id <> 0 ->
        (is_error (snd out) = true
         <-> version_referenced version_id st
             \/ exists v, getLatestPartVersion partId st = Some v
                          /\ status v <> "frozen"))
    /\ (forall v,
          getLatestPartVersion partId st = Some v ->
          exists before behind,
            select (fun r => item_id r =? partId) (part_versions st)
            = (before ++ v :: behind)%list
            /\ Forall (fun r => v_created_at r < v_created_at v) before
            /\ Forall (fun r => v_created_at r <= v_created_at v) behind).
Proof.
  intros E u partId version_id now st out n.
  destruct (post_part_rollback_outcome E u partId version_id now st)
    as [_ [Herr [Hok Hiff]]]. fold out in Herr, Hok, Hiff. fold n in Hok.
  split; [apply post_part_rollback_frame |]. split; [exact Herr |].
  split; [| split; [exact Hiff | apply getLatestPartVersion_first_of_ties]].
  intros Hsucc. specialize (Hok Hsucc).
  subst out. revert Hsucc Hok. unfold post_part_rollback. handler_cases;
    try discriminate; intros _ Hrows; reflexivity.
Qed.

(** ** Deleting an assembly *)

Lemma mem_versions_of_assembly (assemblyId : Z) (st : db)
    (ap : assembly_part_row) :
  mem (assembly_version_id ap)
      (map v_id (select (fun v => item_id v =? assemblyId)
                   (assembly_versions st))) = true
  <-> edge_of_assembly assemblyId st ap.
Proof.
  unfold edge_of_assembly, select. rewrite mem_In, in_map_iff. split.
  - intros [v [Hid Hin]]. apply filter_In in Hin. destruct Hin as [Hin Hitem].
    apply Z.eqb_eq in Hitem. now exists v.
  - intros [v [Hin [Hitem Hid]]]. exists v. split; [assumption |].
    apply filter_In. split; [assumption | now apply Z.eqb_eq].
Qed.

(** X7. For an admin and a working driver [DELETE /api/assemblies/:id]
    succeeds and removes the assembly row, its versions and exactly the
    composition edges of these versions; every other row and the parts
    and part versions stay.  A part whose every referencing edge belonged
    to the deleted assembly can be deleted right after.  Whatever the
    caller and the driver, a failing call leaves the store unchanged. *)
Theorem X7_delete_assembly_frees_parts :
  forall (u : user) (assemblyId : Z) (st : db),
    role u = "admin" ->
    let out := delete_assembly no_errors u assemblyId st in
    snd out = success "Assembly deleted"
    /\ (forall a, In a (rows (assemblies (fst out)))
                  <-> In a (rows (assemblies st)) /\ a_id a <> assemblyId)
    /\ (forall v, In v (rows (assembly_versions (fst out)))
                  <-> In v (rows (assembly_versions st))
                      /\ item_id v <> assemblyId)
    /\ (forall ap, In ap (rows (assembly_parts (fst out)))
                   <-> In ap (rows (assembly_parts st))
                       /\ ~ edge_of_assembly assemblyId st ap)
    /\ parts (fst out) = parts st
    /\ part_versions (fst out) = part_versions st
    /\ part_permissions (fst out) = part_permissions st
    /\ (forall partId,
          (forall ap pv,
              In ap (rows (assembly_parts st)) ->
              In pv (rows (part_versions st)) ->
              part_version_id ap = v_id pv -> item_id pv = partId ->
              edge_of_assembly assemblyId st ap) ->
          snd (delete_part no_errors u partId (fst out))
          = success "Part deleted")
    /\ (forall E u', is_error (snd (delete_assembly E u' assemblyId st)) = true ->
                     fst (delete_assembly E u' assemblyId st) = st).
Proof.
  intros u assemblyId st Hrole out. subst out.
  assert (Hedges : forall ap,
             In ap (rows (assembly_parts
                            (fst (delete_assembly no_errors u assemblyId st))))
             <-> In ap (rows (assembly_parts st))
                 /\ ~ edge_of_assembly assemblyId st ap).
  { intros ap. unfold delete_assembly. rewrite Hrole.
    cbn [negb String.eqb err no_errors fst assembly_parts set_assemblies
         set_assembly_versions set_assembly_parts].
    simpl negb. cbv iota.
    cbn [fst assembly_parts set_assemblies set_assembly_versions
         set_assembly_parts].
    rewrite delete_rows_In, <- mem_versions_of_assembly.
    destruct (mem _ _); split; intros [H1 H2]; split; auto; congruence. }
  split; [| split; [| split; [| split; [exact Hedges |]]]].
  - unfold delete_assembly. now rewrite Hrole.
  - intros a. unfold delete_assembly. rewrite Hrole. simpl negb. cbv iota.
    cbn [err no_errors fst assemblies set_assemblies].
    rewrite delete_rows_In, Z.eqb_neq. tauto.
  - intros v. unfold delete_assembly. rewrite Hrole. simpl negb. cbv iota.
    cbn [err no_errors fst assemblies set_assemblies assembly_versions
         set_assembly_versions set_assembly_parts].
    rewrite delete_rows_In, Z.eqb_neq. tauto.
  - split; [unfold delete_assembly; now rewrite Hrole |].
    split; [unfold delete_assembly; now rewrite Hrole |].
    split; [unfold delete_assembly; now rewrite Hrole |].
    split.
    + intros partId Hall.
      assert (Hpv : part_versions (fst (delete_assembly no_errors u assemblyId st))
                    = part_versions st)
        by (unfold delete_assembly; now rewrite Hrole).
      assert (Hfree : (0 <? count_part_references partId
                              (fst (delete_assembly no_errors u assemblyId st)))
                      = false).
      { destruct (0 <? count_part_references partId _) eqn:Hc; [| reflexivity].
        apply count_part_references_positive in Hc.
        destruct Hc as [ap [pv [Hap [Hin [Hid Hitem]]]]].
        apply Hedges in Hap. destruct Hap as [Hap Hnot].
        rewrite Hpv in Hin. exfalso. apply Hnot. eapply Hall; eassumption. }
      unfold delete_part, on_error. rewrite Hrole. simpl negb. cbv iota.
      cbn [err delErr no_errors]. now rewrite Hfree.
    + intros E u'. unfold delete_assembly.
      destruct (negb (role u' =? "admin")%string); [reflexivity |].
      destruct (err E); [reflexivity | discriminate].
Qed.

(** ** Deleting parts in bulk *)

Lemma referenced_part_codes_nonempty (ids : list Z) (st : db) :
  referenced_part_codes ids st <> [] <-> batch_referenced ids st.
Proof.
  unfold referenced_part_codes, batch_referenced. split.
  - intros Hne.
    destruct (nodup string_dec _) as [| c l] eqn:Hnd; [contradiction |].
    assert (Hin : In c (c :: l)) by now left.
    rewrite <- Hnd in Hin. apply nodup_In in Hin.
    apply in_flat_map in Hin. destruct Hin as [p [Hp Hin]].
    apply filter_In in Hp. destruct Hp as [Hp Hmem]. apply mem_In in Hmem.
    apply in_flat_map in Hin. destruct Hin as [pv [Hpv Hin]].
    apply filter_In in Hpv. destruct Hpv as [Hpv Hitem].
    apply Z.eqb_eq in Hitem.
    apply in_map_iff in Hin. destruct Hin as [ap [_ Hap]].
    apply filter_In in Hap. destruct Hap as [Hap Hid]. apply Z.eqb_eq in Hid.
    exists p, pv, ap. repeat split; assumption.
  - intros [p [pv [ap [Hp [Hmem [Hpv [Hitem [Hap Hid]]]]]]]] Hnil.
    assert (Hin : In (part_code p) (referenced_part_codes ids st)).
    { unfold referenced_part_codes. apply nodup_In. apply in_flat_map.
      exists p. split; [apply filter_In; split; [assumption | now apply mem_In] |].
      apply in_flat_map. exists pv.
      split; [apply filter_In; split; [assumption | now apply Z.eqb_eq] |].
      apply in_map_iff. exists ap. split; [reflexivity |].
      apply filter_In. split; [assumption | now apply Z.eqb_eq]. }
    unfold referenced_part_codes in Hin. rewrite Hnil in Hin. contradiction.
Qed.

Lemma referenced_part_codes_In (ids : list Z) (st : db) (c : string) :
  In c (referenced_part_codes ids st)
  <-> exists p pv ap,
        In p (rows (parts st)) /\ In (p_id p) ids /\ part_code p = c
        /\ In pv (rows (part_versions st)) /\ item_id pv = p_id p
        /\ In ap (rows (assembly_parts st)) /\ part_version_id ap = v_id pv.
Proof.
  unfold referenced_part_codes. rewrite nodup_In, in_flat_map. split.
  - intros [p [Hp Hin]].
    apply filter_In in Hp. destruct Hp as [Hp Hmem]. apply mem_In in Hmem.
    apply in_flat_map in Hin. destruct Hin as [pv [Hpv Hin]].
    apply filter_In in Hpv. destruct Hpv as [Hpv Hitem].
    apply Z.eqb_eq in Hitem.
    apply in_map_iff in Hin. destruct Hin as [ap [Hc Hap]].
    apply filter_In in Hap. destruct Hap as [Hap Hid]. apply Z.eqb_eq in Hid.
    exists p, pv, ap. repeat split; assumption.
  - intros [p [pv [ap [Hp [Hmem [Hc [Hpv [Hitem [Hap Hid]]]]]]]]].
    exists p. split; [apply filter_In; split; [assumption | now apply mem_In] |].
    apply in_flat_map. exists pv.
    split; [apply filter_In; split; [assumption | now apply Z.eqb_eq] |].
    apply in_map_iff. exists ap. split; [assumption |].
    apply filter_In. split; [assumption | now apply Z.eqb_eq].
Qed.

Lemma delete_batch_In {A : Type} (key : A -> Z) (ids : list Z) (t : table A)
    (r : A) :
  In r (rows (fst (delete (fun r => mem (key r) ids) t)))
  <-> In r (rows t) /\ ~ In (key r) ids.
Proof.
  rewrite delete_rows_In, <- mem_In. destruct (mem (key r) ids); intuition congruence.
Qed.

(** X8. For an admin, a non-empty id list and a working driver the bulk
    delete is all or nothing: it is refused exactly when some row of
    [parts] with a listed id has a version that a composition edge
    references; the answer is then HTTP 400 with a message that names the
    codes of these parts, each once, and the store is unchanged.
    Otherwise the call removes every row with a listed part id from
    [parts], [part_versions], [part_permissions] and [edit_requests],
    keeps all other rows and tables, and reports the number of part rows
    deleted.  The check joins through [parts]: a version with a listed
    part id goes even when an edge references it, which can only be when
    no part row has this id, and the edge stays.  Whatever the caller,
    the ids and the driver, a failing call changes nothing. *)
Theorem X8_bulk_delete_all_or_nothing :
  forall (u : user) (ids : list Z) (st : db),
    role u = "admin" -> ids <> [] ->
    let out := post_parts_bulk_delete no_errors u (Some ids) st in
    (is_error (snd out) = true <-> batch_referenced ids st)
    /\ (is_error (snd out) = true -> http_status (snd out) = 400)
    /\ (~ batch_referenced ids st ->
        snd out = mkResponse 200
                    [("success", JBool true);
                     ("deleted", JNum (count (fun p => mem (p_id p) ids)
                                         (parts st)))]
        /\ (forall p, In p (rows (parts (fst out)))
                      <-> In p (rows (parts st)) /\ ~ In (p_id p) ids)
        /\ (forall v, In v (rows (part_versions (fst out)))
                      <-> In v (rows (part_versions st)) /\ ~ In (item_id v) ids)
        /\ (forall pp, In pp (rows (part_permissions (fst out)))
                       <-> In pp (rows (part_permissions st))
                           /\ ~ In (pp_part_id pp) ids)
        /\ (forall er, In er (rows (edit_requests (fst out)))
                       <-> In er (rows (edit_requests st))
                           /\ ~ In (er_part_id er) ids)
        /\ assemblies (fst out) = assemblies st
        /\ assembly_versions (fst out) = assembly_versions st
        /\ assembly_parts (fst out) = assembly_parts st)
    /\ (forall E u' ids',
          is_error (snd (post_parts_bulk_delete E u' ids' st)) = true ->
          fst (post_parts_bulk_delete E u' ids' st) = st)
    /\ (batch_referenced ids st ->
        exists codes,
          snd out = error 400 ("Cannot delete: parts "
                                 ++ String.concat ", " codes
                                 ++ " are referenced by assemblies")
          /\ NoDup codes
          /\ forall c,
               In c codes
               <-> exists p pv ap,
                     In p (rows (parts st)) /\ In (p_id p) ids
                     /\ part_code p = c
                     /\ In pv (rows (part_versions st))
                     /\ item_id pv = p_id p
                     /\ In ap (rows (assembly_parts st))
                     /\ part_version_id ap = v_id pv)
    /\ (~ batch_referenced ids st ->
        users (fst out) = users st
        /\ release_requests (fst out) = release_requests st
        /\ forall v ap,
             In v (rows (part_versions st)) -> In (item_id v) ids ->
             In ap (rows (assembly_parts st)) ->
             part_version_id ap = v_id v ->
             (forall p, In p (rows (parts st)) -> p_id p <> item_id v)
             /\ ~ In v (rows (part_versions (fst out)))
             /\ In ap (rows (assembly_parts (fst out)))).
Proof.
  intros u ids st Hrole Hne out. subst out.
  pose proof (referenced_part_codes_nonempty ids st) as Href.
  split; [| split; [| split; [| split; [| split]]]].
  - unfold post_parts_bulk_delete, requireRole, includes, on_error.
    rewrite Hrole. destruct ids as [| i ids]; [contradiction |].
    cbn [existsb String.eqb negb orb err delErr no_errors]. simpl negb. cbv iota.
    destruct (referenced_part_codes (i :: ids) st) as [| c l].
    + cbn. split; [discriminate |]. intros H. apply Href in H. contradiction.
    + cbn. split; [intros _; now apply Href | reflexivity].
  - unfold post_parts_bulk_delete, requireRole, includes, on_error.
    rewrite Hrole. destruct ids as [| i ids]; [contradiction |].
    simpl negb. cbv iota. cbn [err delErr no_errors].
    destruct (referenced_part_codes (i :: ids) st); cbn;
      [discriminate | reflexivity].
  - intros Hfree.
    unfold post_parts_bulk_delete, requireRole, includes, on_error.
    rewrite Hrole. destruct ids as [| i ids]; [contradiction |].
    simpl negb. cbv iota. cbn [err delErr no_errors].
    destruct (referenced_part_codes (i :: ids) st) as [| c l] eqn:Hcodes;
      [| exfalso; apply Hfree, Href; discriminate].
    unfold delete_part_rows.
    cbn [delete fst snd parts part_versions part_permissions edit_requests
         assemblies assembly_versions assembly_parts set_parts
         set_part_versions set_part_permissions set_edit_requests rows].
    split; [reflexivity |].
    split; [intros r; apply (delete_batch_In p_id (i :: ids) (parts st)) |].
    split; [intros r;
            apply (delete_batch_In item_id (i :: ids) (part_versions st)) |].
    split; [intros r;
            apply (delete_batch_In pp_part_id (i :: ids) (part_permissions st)) |].
    split; [intros r;
            apply (delete_batch_In er_part_id (i :: ids) (edit_requests st)) |].
    repeat split.
  - intros E u' ids'. unfold post_parts_bulk_delete, on_error.
    destruct (negb (requireRole ["admin"] u')); [reflexivity |].
    destruct ids' as [[| i' ids'] |]; try reflexivity.
    destruct (err E); [reflexivity |].
    destruct (referenced_part_codes (i' :: ids') st); [| reflexivity].
    destruct (delErr E); [reflexivity |].
    unfold delete_part_rows. cbn. discriminate.
  - intros Hbatch. exists (referenced_part_codes ids st).
    split; [| split; [apply NoDup_nodup
                     | intros c; apply referenced_part_codes_In]].
    unfold post_parts_bulk_delete, requireRole, includes, on_error.
    rewrite Hrole. destruct ids as [| i ids]; [contradiction |].
    simpl negb. cbv iota. cbn [err delErr no_errors].
    destruct (referenced_part_codes (i :: ids) st) as [| c l] eqn:Hcodes;
      [apply Href in Hbatch; contradiction | reflexivity].
  - intros Hfree.
    unfold post_parts_bulk_delete, requireRole, includes, on_error.
    rewrite Hrole. destruct ids as [| i ids]; [contradiction |].
    simpl negb. cbv iota. cbn [err delErr no_errors].
    destruct (referenced_part_codes (i :: ids) st) as [| c l] eqn:Hcodes;
      [| exfalso; apply Hfree, Href; discriminate].
    unfold delete_part_rows.
    cbn [delete fst snd parts part_versions part_permissions edit_requests
         assemblies assembly_versions assembly_parts set_parts users
         release_requests set_part_versions set_part_permissions
         set_edit_requests rows].
    split; [reflexivity |]. split; [reflexivity |].
    intros v ap Hv Hlisted Hap Hid. split; [| split; [| exact Hap]].
    + intros p Hp Hpid. apply Hfree. exists p, v, ap.
      rewrite Hpid. repeat split; assumption.
    + intros Hstay.
      apply (delete_batch_In item_id (i :: ids) (part_versions st)) in Hstay.
      tauto.
Qed.

(** ** What a version keeps *)

Lemma keeps_version_refl (v : version_row) : keeps_version v v.
Proof. unfold keeps_version. repeat split; auto. Qed.

Lemma keeps_version_trans (a b c : version_row) :
  keeps_version a b -> keeps_version b c -> keeps_version a c.
Proof.
  unfold keeps_version.
  intros [H1 [H2 [H3 [H4 [H5 [H6 H7]]]]]] [K1 [K2 [K3 [K4 [K5 [K6 K7]]]]]].
  repeat split; try congruence; auto.
Qed.

Lemma version_update_keeps (release bulk : bool)
    (f : version_row -> version_row) :
  version_update release bulk f -> forall v, keeps_version v (f v).
Proof.
  intros [userId now | userId now _ | _] v; unfold keeps_version; simpl;
    repeat split; auto; intros path Hpath; now rewrite Hpath.
Qed.

(** A row found after a call under an id given out before the call comes
    from the row that had this id before the call. *)
Lemma versions_step_keeps (release bulk : bool) (t t' : table version_row) :
  versions_step release bulk t t' -> wf_table v_id t ->
  last_rowid t <= last_rowid t'
  /\ forall v', In v' (rows t') -> v_id v' <= last_rowid t ->
       exists v, In v (rows t) /\ v_id v = v_id v' /\ keeps_version v v'.
Proof.
  intros Hstep [Hkey Hle].
  destruct Hstep as [t | t item label path notes now | t p f Hf | t p];
    cbn [rows last_rowid].
  - split; [lia |]. intros v' Hv' _. exists v'.
    split; [assumption | split; [reflexivity | apply keeps_version_refl]].
  - split; [lia |]. intros v' Hv' Hid. apply in_app_or in Hv'.
    destruct Hv' as [Hv' | [<- | []]]; [| simpl in Hid; lia].
    exists v'.
    split; [assumption | split; [reflexivity | apply keeps_version_refl]].
  - split; [lia |]. intros v' Hv' _. apply in_map_iff in Hv'.
    destruct Hv' as [v [<- Hv]]. exists v. split; [assumption |].
    destruct (p v).
    + split; [symmetry; eapply version_update_keeps_id; eassumption
             | eapply version_update_keeps; eassumption].
    + split; [reflexivity | apply keeps_version_refl].
  - split; [lia |]. intros v' Hv' _. apply filter_In in Hv'. exists v'.
    split; [tauto | split; [reflexivity | apply keeps_version_refl]].
Qed.

Lemma run_keeps_versions (calls : list call) (st : db) :
  wf_table v_id (part_versions st) -> wf_table v_id (assembly_versions st) ->
  (forall v', In v' (rows (part_versions (run calls st))) ->
              v_id v' <= last_rowid (part_versions st) ->
     exists v, In v (rows (part_versions st))
               /\ v_id v = v_id v' /\ keeps_version v v')
  /\ (forall v', In v' (rows (assembly_versions (run calls st))) ->
                 v_id v' <= last_rowid (assembly_versions st) ->
       exists v, In v (rows (assembly_versions st))
                 /\ v_id v = v_id v' /\ keeps_version v v').
Proof.
  revert st. induction calls as [| c calls IH]; intros st Hp Ha; simpl.
  - split; intros v' Hv' _; exists v';
      (split; [assumption | split; [reflexivity | apply keeps_version_refl]]).
  - destruct (handle_versions_step (driver c) (caller c) (req c) (clock c) st)
      as [Hsp [Hsa _]]. cbv zeta in Hsp, Hsa. fold (serve c st) in Hsp, Hsa.
    destruct (versions_step_keeps _ _ _ _ Hsp Hp) as [Hlp Hkp].
    destruct (versions_step_keeps _ _ _ _ Hsa Ha) as [Hla Hka].
    destruct (IH (fst (serve c st))) as [IHp IHa];
      [eapply versions_step_wf; eassumption
      | eapply versions_step_wf; eassumption |].
    split; intros v' Hv' Hid.
    + destruct (IHp v' Hv') as [v1 [Hv1 [Hid1 Hk1]]]; [lia |].
      destruct (Hkp v1 Hv1) as [v [Hv [Hid0 Hk0]]]; [lia |].
      exists v. split; [assumption | split; [congruence |]].
      eapply keeps_version_trans; eassumption.
    + destruct (IHa v' Hv') as [v1 [Hv1 [Hid1 Hk1]]]; [lia |].
      destruct (Hka v1 Hv1) as [v [Hv [Hid0 Hk0]]]; [lia |].
      exists v. split; [assumption | split; [congruence |]].
      eapply keeps_version_trans; eassumption.
Qed.

(** X9. Between any two moments of a history that starts from the empty
    store, a part version or assembly version that is found again under
    its id has the same parent, label, working path, change notes and
    creation time; if it was frozen it is still frozen, and a storage
    path it had is unchanged.  No sequence of calls, release approvals and
    failing drivers included, takes a version out of the frozen status. *)
Theorem X9_versions_never_thaw :
  forall (us : list user_row) (before after : list call) (v v' : version_row),
    (In v (rows (part_versions (run before (empty_db us))))
     /\ In v' (rows (part_versions (run after (run before (empty_db us))))))
    \/ (In v (rows (assembly_versions (run before (empty_db us))))
        /\ In v' (rows (assembly_versions
                          (run after (run before (empty_db us)))))) ->
    v_id v' = v_id v ->
    keeps_version v v'.
Proof.
  intros us before after v v' Hin Hid.
  destruct (run_wf before (empty_db us)) as [_ [Hp Ha]];
    [apply wf_empty_table | apply wf_empty_table |].
  destruct (run_keeps_versions after (run before (empty_db us)) Hp Ha)
    as [Hkp Hka].
  destruct Hin as [[Hv Hv'] | [Hv Hv']].
  - destruct Hp as [Hkey Hle]. rewrite Forall_forall in Hle.
    destruct (Hkp v' Hv') as [v0 [Hv0 [Hid0 Hk]]];
      [rewrite Hid; now apply Hle |].
    assert (v0 = v); [| now subst].
    apply (primary_key_unique v_id _ v0 v Hkey); congruence.
  - destruct Ha as [Hkey Hle]. rewrite Forall_forall in Hle.
    destruct (Hka v' Hv') as [v0 [Hv0 [Hid0 Hk]]];
      [rewrite Hid; now apply Hle |].
    assert (v0 = v); [| now subst].
    apply (primary_key_unique v_id _ v0 v Hkey); congruence.
Qed.

(** ** Composition edges stay on frozen versions *)

(** What a call that creates an assembly version does to the edges,
    whatever the driver: nothing, or the insert of one edge per id after
    the part-version check has passed, the part versions untouched. *)
Lemma create_assembly_version_edges (E : sqlite_errors) (u : user)
    (t : target) (b : assembly_body) (now : Z) (st : db) :
  let out := create_assembly_version E u t b now st in
  assembly_parts (fst out) = assembly_parts st
  \/ exists ids avid,
       check_part_versions E ids (what t) st = None
       /\ part_versions (fst out) = part_versions st
       /\ assembly_parts (fst out)
          = insert_many (fun pvid rowid => mkEdge rowid avid pvid now) ids
              (assembly_parts st).
Proof.
  destruct t as [| assemblyId]; cbn [create_assembly_version what];
    [unfold post_assemblies | unfold post_assembly_versions];
    unfold insert_assembly_parts; handler_cases;
    try (left; reflexivity);
    right; do 2 eexists; (split; [eassumption | split; reflexivity]).
Qed.

Lemma handle_edges (E : sqlite_errors) (u : user) (r : request) (now : Z)
    (st : db) :
  primary_key v_id (part_versions st) ->
  let st' := fst (handle E u r now st) in
  forall ap, In ap (rows (assembly_parts st')) ->
    In ap (rows (assembly_parts st))
    \/ (part_versions st' = part_versions st
        /\ exists pv, In pv (rows (part_versions st))
                      /\ v_id pv = part_version_id ap /\ status pv = "frozen").
Proof.
  intros Hkey st' ap. subst st'.
  assert (Hcreate : forall t b,
             In ap (rows (assembly_parts
                            (fst (create_assembly_version E u t b now st)))) ->
             In ap (rows (assembly_parts st))
             \/ (part_versions (fst (create_assembly_version E u t b now st))
                 = part_versions st
                 /\ exists pv, In pv (rows (part_versions st))
                               /\ v_id pv = part_version_id ap
                               /\ status pv = "frozen")).
  { intros t b Hin.
    destruct (create_assembly_version_edges E u t b now st)
      as [Hsame | [ids [avid [Hcheck [Hpv Hedges]]]]].
    - left. now rewrite <- Hsame.
    - rewrite Hedges in Hin.
      destruct (insert_many_rows
                  (fun pvid rowid => mkEdge rowid avid pvid now) ids
                  (assembly_parts st)) as [new [Hrows Hall]].
      rewrite Hrows in Hin. apply in_app_or in Hin.
      destruct Hin as [Hin | Hin]; [now left | right].
      split; [assumption |].
      assert (Hid : In (part_version_id ap) ids).
      { clear - Hall Hin. induction Hall as [| x r xs new [rowid ->] _ IH];
          [contradiction |].
        destruct Hin as [<- | Hin]; [now left | right; now apply IH]. }
      exact (check_part_versions_passes st ids Hkey E (what t) Hcheck _ Hid). }
  destruct r;
    try (exact (Hcreate NewAssembly b));
    try (exact (Hcreate (ExistingAssembly assemblyId) b));
    cbn [handle];
    [ unfold post_parts | unfold put_part | unfold delete_part
    | unfold post_part_versions | unfold post_part_version_freeze
    | unfold post_part_rollback | unfold put_assembly
    | unfold delete_assembly | unfold post_assembly_version_freeze
    | unfold post_edit_requests
    | unfold approve_edit_request | unfold reject_edit_request
    | unfold post_release_requests | unfold approve_release_request
    | unfold reject_release_request | unfold get_versions_compare
    | unfold post_parts_bulk_delete | unfold post_parts_bulk_freeze ];
    unfold delete_part_rows; handler_cases;
    try (intros Hin; left; exact Hin).
  intros Hin. left. apply filter_In in Hin. tauto.
Qed.

Lemma serve_edges_frozen (c : call) (st : db) :
  wf_table v_id (part_versions st) -> edges_frozen st ->
  edges_frozen (fst (serve c st)).
Proof.
  intros Hwf Hinv ap Hap.
  destruct (handle_versions_step (driver c) (caller c) (req c) (clock c) st)
    as [Hstep _]. cbv zeta in Hstep. fold (serve c st) in Hstep.
  destruct (versions_step_keeps _ _ _ _ Hstep Hwf) as [Hlast Hkeeps].
  pose proof Hwf as [Hkey Hle]. rewrite Forall_forall in Hle.
  destruct (handle_edges (driver c) (caller c) (req c) (clock c) st Hkey ap Hap)
    as [Hold | [Hsame [pv [Hpv [Hid Hfrozen]]]]].
  - destruct (Hinv ap Hold) as [Hbound Hall]. split; [lia |].
    intros pv' Hpv' Hid'.
    destruct (Hkeeps pv' Hpv') as [pv [Hpv [Hid Hk]]]; [lia |].
    apply Hk. apply Hall; [assumption | congruence].
  - fold (serve c st) in Hsame. rewrite Hsame. split.
    + rewrite <- Hid. now apply Hle.
    + intros pv' Hpv' Hid'.
      assert (pv' = pv); [| now subst].
      apply (primary_key_unique v_id _ pv' pv Hkey); congruence.
Qed.

Lemma run_edges_frozen (calls : list call) (st : db) :
  wf_table v_id (part_versions st) -> wf_table v_id (assembly_versions st) ->
  edges_frozen st -> edges_frozen (run calls st).
Proof.
  revert st. induction calls as [| c calls IH]; intros st Hp Ha Hinv; simpl;
    [assumption |].
  destruct (handle_versions_step (driver c) (caller c) (req c) (clock c) st)
    as [Hsp [Hsa _]]. cbv zeta in Hsp, Hsa. fold (serve c st) in Hsp, Hsa.
  apply IH.
  - eapply versions_step_wf; eassumption.
  - eapply versions_step_wf; eassumption.
  - now apply serve_edges_frozen.
Qed.

(** X10. In every store reached from the empty one, whatever the calls
    and the driver errors, a composition edge never points to a part
    version that is not frozen: the part version with the id the edge
    names, when it is in the table, has status 'frozen'.  The rule holds
    not only when the edge is created but for as long as it exists. *)
Theorem X10_edges_stay_on_frozen_versions :
  forall (us : list user_row) (calls : list call) (ap : assembly_part_row)
         (pv : version_row),
    In ap (rows (assembly_parts (run calls (empty_db us)))) ->
    In pv (rows (part_versions (run calls (empty_db us)))) ->
    v_id pv = part_version_id ap ->
    status pv = "frozen".
Proof.
  intros us calls ap pv Hap Hpv Hid.
  assert (Hinv : edges_frozen (run calls (empty_db us))).
  { apply run_edges_frozen; try apply wf_empty_table. intros x []. }
  destruct (Hinv ap Hap) as [_ Hall]. now apply Hall.
Qed.

(** ** Comparing two distinct versions *)

(** X11. The comparison never changes the store and answers 400 when a
    version id is missing.  With distinct rowids in [part_versions] and
    distinct user ids, and a working driver, it succeeds exactly when the
    two ids are different and each names a version of the part, and then
    returns these two rows, each with the name of the user who froze it if
    there is one. *)
Theorem X11_compare_returns_two_distinct_versions :
  forall (st : db) (partId : Z),
    primary_key v_id (part_versions st) ->
    NoDup (map u_id (users st)) ->
    (forall E v1 v2, fst (get_versions_compare E partId v1 v2 st) = st)
    /\ (forall E v1 v2, v1 = None \/ v2 = None ->
          snd (get_versions_compare E partId v1 v2 st)
          = error 400 "Two version IDs (v1, v2) are required")
    /\ (forall v1 v2,
          is_error (snd (get_versions_compare no_errors partId (Some v1)
                           (Some v2) st)) = false
          <-> v1 <> v2 /\ (exists a, version_of_part st partId v1 a)
              /\ (exists b, version_of_part st partId v2 b))
    /\ (forall v1 v2 a b,
          version_of_part st partId v1 a -> version_of_part st partId v2 b ->
          v1 <> v2 ->
          exists name1 name2,
            snd (get_versions_compare no_errors partId (Some v1) (Some v2) st)
            = mkResponse 200 [("version1", JVersion a name1);
                              ("version2", JVersion b name2)]).
Proof.
  intros st partId Hkey Husers. split; [| split; [| split]].
  - intros E v1 v2. unfold get_versions_compare, on_error.
    destruct v1, v2; try reflexivity.
    destruct (err E); [reflexivity |]. now destruct (negb _).
  - intros E v1 v2 [-> | ->]; [reflexivity | now destruct v1].
  - intros v1 v2. split.
    + now apply compare_found_only_distinct.
    + intros [Hne [[a Ha] [b Hb]]].
      destruct (compare_distinct_versions st partId v1 v2 Hkey Husers a b
                  Ha Hb Hne) as [name1 [name2 Heq]].
      now rewrite Heq.
  - intros v1 v2 a b Ha Hb Hne.
    destruct (compare_distinct_versions st partId v1 v2 Hkey Husers a b
                Ha Hb Hne) as [name1 [name2 Heq]].
    exists name1, name2. now rewrite Heq.
Qed.

(** ** Freezing one version *)


Lemma update_nth {A : Type} (p : A -> bool) (f : A -> A) (t : table A)
    (n : nat) (r : A) :
  nth_error (rows t) n = Some r ->
  nth_error (rows (fst (update p f t))) n = Some (if p r then f r else r).
Proof.
  intros Hn. unfold update. cbn [fst rows]. now rewrite nth_error_map, Hn.
Qed.







(** ** Deciding a release request *)

(** X13. For an approver or admin and a working driver the approval of a
    release request answers 404, changing nothing, exactly when no request
    has the id.  Otherwise it succeeds whatever the status of the request
    and whether or not the version exists: in the table named by the
    request's [item_type] the rows with the request's version id get
    status 'frozen' and a filled storage path and keep their [frozen_by]
    and [frozen_at]; every other version row and the table of the other
    type stay as they were.  A rejection never changes a version. *)
Theorem X13_release_approval_freezes_by_id :
  forall (u : user) (requestId : Z) (now : Z) (st : db),
    isApproverOrAdmin (role u) = true ->
    let out := approve_release_request no_errors u requestId now st in
    (snd out = error 404 "Request not found"
     <-> ~ exists rr, In rr (rows (release_requests st)) /\ rr_id rr = requestId)
    /\ (is_error (snd out) = true -> fst out = st)
    /\ (forall request,
          get (fun rr => rr_id rr =? requestId) (release_requests st)
          = Some request ->
          let target := if (item_type request =? "part")%string
                        then part_versions else assembly_versions in
          let other := if (item_type request =? "part")%string
                       then assembly_versions else part_versions in
          snd out = success "Release request approved"
          /\ other (fst out) = other st
          /\ forall n v, nth_error (rows (target st)) n = Some v ->
               nth_error (rows (target (fst out))) n
               = Some (if v_id v =? item_version_id request
                       then mkVersion (v_id v) (item_id v) (version_label v)
                              "frozen"
                              (COALESCE (storage_path v) (working_path v))
                              (working_path v) (change_notes v) (frozen_by v)
                              (frozen_at v) (v_created_at v)
                       else v))
    /\ (forall E u',
          part_versions (fst (reject_release_request E u' requestId now st))
          = part_versions st
          /\ assembly_versions
               (fst (reject_release_request E u' requestId now st))
             = assembly_versions st).
Proof.
  intros u requestId now st Hrole out. subst out.
  unfold approve_release_request, on_error. rewrite Hrole.
  cbn [negb err updateErr freezeErr no_errors].
  split; [| split; [| split]].
  - destruct (get _ (release_requests st)) as [request |] eqn:Hget.
    + split; [discriminate |]. intros Hnone. exfalso. apply Hnone.
      apply find_some in Hget. destruct Hget as [Hin Hid].
      apply Z.eqb_eq in Hid. now exists request.
    + split; [| reflexivity]. intros _ [rr [Hin Hid]].
      pose proof (find_none _ _ Hget rr Hin) as Hno. simpl in Hno.
      apply Z.eqb_neq in Hno. contradiction.
  - destruct (get _ (release_requests st)); [discriminate | reflexivity].
  - intros request Hget. rewrite Hget. cbn [snd fst].
    split; [reflexivity |].
    destruct (item_type request =? "part")%string;
      (split; [reflexivity |]); intros n v Hn;
      cbn [part_versions assembly_versions set_part_versions
           set_assembly_versions set_release_requests];
      now rewrite (update_nth _ _ _ n v Hn).
  - intros E u'. unfold reject_release_request, on_error.
    destruct (negb (isApproverOrAdmin (role u'))); [now split |].
    destruct (err E); [now split |].
    cbn [update fst snd]. now destruct (_ =? 0).
Qed.

(** ** Ordered listings *)

Lemma insert_by_In {A : Type} (before : A -> A -> bool) (a x : A) (l : list A) :
  In x (insert_by before a l) <-> x = a \/ In x l.
Proof.
  induction l as [| y l IH]; simpl.
  - intuition.
  - destruct (before a y); simpl; [intuition |]. rewrite IH. intuition.
Qed.

Lemma order_by_In {A : Type} (before : A -> A -> bool) (x : A) (l : list A) :
  In x (order_by before l) <-> In x l.
Proof.
  induction l as [| a l IH]; simpl; [reflexivity |].
  rewrite insert_by_In, IH. intuition.
Qed.

Lemma insert_by_NoDup {A : Type} (before : A -> A -> bool) (a : A) (l : list A) :
  ~ In a l -> NoDup l -> NoDup (insert_by before a l).
Proof.
  induction l as [| y l IH]; simpl; intros Hnot Hl.
  - constructor; [intros [] | constructor].
  - destruct (before a y).
    + constructor; assumption.
    + inversion Hl as [| ? ? Hy Hl']; subst. constructor.
      * rewrite insert_by_In. intros [Heq | Hin]; [subst; intuition | auto].
      * apply IH; intuition.
Qed.

Lemma order_by_NoDup {A : Type} (before : A -> A -> bool) (l : list A) :
  NoDup l -> NoDup (order_by before l).
Proof.
  induction l as [| a l IH]; simpl; intros Hl; [constructor |].
  inversion Hl; subst. apply insert_by_NoDup; [rewrite order_by_In |]; auto.
Qed.

Section Ordered.
Context {A : Type} (before : A -> A -> bool).
Hypothesis before_total : forall x y, before x y = false -> before y x = true.

Lemma insert_by_sorted (a : A) (l : list A) :
  Sorted (fun x y => before x y = true) l ->
  Sorted (fun x y => before x y = true) (insert_by before a l).
Proof.
  induction 1 as [| y l Hl IH Hhd]; simpl.
  - repeat constructor.
  - destruct (before a y) eqn:Hay.
    + constructor; [constructor; assumption | constructor; assumption].
    + constructor; [exact IH |].
      destruct l as [| z l']; simpl.
      * constructor. now apply before_total.
      * destruct (before a z); constructor.
        -- now apply before_total.
        -- now inversion Hhd.
Qed.

Lemma order_by_sorted (l : list A) :
  Sorted (fun x y => before x y = true) (order_by before l).
Proof.
  induction l as [| a l IH]; simpl; [constructor | now apply insert_by_sorted].
Qed.

End Ordered.

Lemma insert_by_permutation {A : Type} (before : A -> A -> bool) (a : A)
    (l : list A) :
  Permutation (insert_by before a l) (a :: l).
Proof.
  induction l as [| y l IH]; simpl; [reflexivity |].
  destruct (before a y); [reflexivity |].
  rewrite IH. apply perm_swap.
Qed.

Lemma order_by_permutation {A : Type} (before : A -> A -> bool) (l : list A) :
  Permutation (order_by before l) l.
Proof.
  induction l as [| a l IH]; simpl; [reflexivity |].
  rewrite insert_by_permutation. now constructor.
Qed.

Lemma string_leb_total (a b : string) :
  (a <=? b)%string = false -> (b <=? a)%string = true.
Proof.
  intros H. destruct (String.leb_total a b) as [H' | H']; congruence.
Qed.

(** ** The bill of materials *)

Lemma bom_line_In (versionId : Z) (st : db) (line : bom_row) (l : list bom_row) :
  get_bom no_errors 0 versionId st = Listed l ->
  In line l <->
  exists ap pv p usr,
    In ap (rows (assembly_parts st)) /\ assembly_version_id ap = versionId
    /\ In pv (rows (part_versions st)) /\ v_id pv = part_version_id ap
    /\ In p (rows (parts st)) /\ p_id p = item_id pv
    /\ In usr (users st) /\ u_id usr = p_owner_id p
    /\ line = mkBom (p_id p) (part_code p) (p_name p) (material p) (vendor p)
                (p_criticality p) (v_id pv) (version_label pv) (status pv)
                (change_notes pv) (u_username usr).
Proof.
  unfold get_bom. cbn [err no_errors]. intros Hl. injection Hl as <-.
  rewrite order_by_In, in_flat_map. split.
  - intros [ap [Hap Hin]]. apply filter_In in Hap. destruct Hap as [Hap Hv].
    apply in_flat_map in Hin. destruct Hin as [pv [Hpv Hin]].
    apply filter_In in Hpv. destruct Hpv as [Hpv Hid].
    apply in_flat_map in Hin. destruct Hin as [p [Hp Hin]].
    apply filter_In in Hp. destruct Hp as [Hp Hpid].
    apply in_map_iff in Hin. destruct Hin as [usr [Hline Husr]].
    apply filter_In in Husr. destruct Husr as [Husr Hown].
    apply Z.eqb_eq in Hv, Hid, Hpid. apply String.eqb_eq in Hown.
    exists ap, pv, p, usr. repeat split; auto.
  - intros [ap [pv [p [usr [Hap [Hv [Hpv [Hid [Hp [Hpid [Husr [Hown Hline]]]]]]]]]]]].
    exists ap. split; [apply filter_In; split; [assumption | now apply Z.eqb_eq] |].
    apply in_flat_map. exists pv.
    split; [apply filter_In; split; [assumption | apply Z.eqb_eq; auto] |].
    apply in_flat_map. exists p.
    split; [apply filter_In; split; [assumption | apply Z.eqb_eq; auto] |].
    apply in_map_iff. exists usr. split; [auto |].
    apply filter_In. split; [assumption | apply String.eqb_eq; auto].
Qed.

(** A selection by a key that is unique finds the row that [find] finds. *)
Lemma filter_unique {A K : Type} (key : A -> K) (k : K) (sel : A -> bool)
    (l : list A) :
  (forall r, sel r = true -> key r = k) ->
  NoDup (map key l) -> filter sel l = shown (find sel l).
Proof.
  intros Hsel. induction l as [| r l IH]; simpl; intros Hnd; [reflexivity |].
  apply NoDup_cons_iff in Hnd. destruct Hnd as [Hfresh Hnd].
  destruct (sel r) eqn:Hr; [| now apply IH].
  simpl. f_equal.
  destruct (filter sel l) as [| x l'] eqn:Hf; [reflexivity |].
  exfalso. apply Hfresh.
  assert (Hx : In x (filter sel l)) by (rewrite Hf; now left).
  apply filter_In in Hx. destruct Hx as [Hx Hsx].
  rewrite (Hsel r Hr), <- (Hsel x Hsx). now apply in_map.
Qed.

Lemma bom_line_rows (st : db) (ap : assembly_part_row) :
  primary_key v_id (part_versions st) -> primary_key p_id (parts st) ->
  NoDup (map u_id (users st)) ->
  flat_map
    (fun pv =>
       flat_map
         (fun p =>
            map (fun usr =>
                   mkBom (p_id p) (part_code p) (p_name p) (material p)
                     (vendor p) (p_criticality p) (v_id pv) (version_label pv)
                     (status pv) (change_notes pv) (u_username usr))
                (filter (fun usr => (p_owner_id p =? u_id usr)%string)
                   (users st)))
         (filter (fun p => item_id pv =? p_id p) (rows (parts st))))
    (filter (fun pv => part_version_id ap =? v_id pv) (rows (part_versions st)))
  = shown (bom_line st ap).
Proof.
  intros Hv Hp Hu. unfold bom_line, get.
  rewrite (filter_unique v_id (part_version_id ap)); [| | exact Hv].
  2: { intros r Hr. apply Z.eqb_eq in Hr. now symmetry. }
  destruct (find _ (rows (part_versions st))) as [pv |]; [| reflexivity].
  simpl. rewrite app_nil_r.
  rewrite (filter_unique p_id (item_id pv)); [| | exact Hp].
  2: { intros r Hr. apply Z.eqb_eq in Hr. now symmetry. }
  destruct (find _ (rows (parts st))) as [p |]; [| reflexivity].
  simpl. rewrite app_nil_r.
  rewrite (filter_unique u_id (p_owner_id p)); [| | exact Hu].
  2: { intros r Hr. apply String.eqb_eq in Hr. now symmetry. }
  destruct (find _ (users st)) as [usr |]; reflexivity.
Qed.

Lemma get_bom_permutation (st : db) (assemblyId versionId : Z)
    (lines : list bom_row) :
  primary_key v_id (part_versions st) -> primary_key p_id (parts st) ->
  NoDup (map u_id (users st)) ->
  get_bom no_errors assemblyId versionId st = Listed lines ->
  Permutation lines
    (flat_map (fun ap => shown (bom_line st ap))
       (filter (fun ap => assembly_version_id ap =? versionId)
          (rows (assembly_parts st)))).
Proof.
  intros Hv Hp Hu Hl. unfold get_bom in Hl. cbn [err no_errors] in Hl.
  injection Hl as <-. rewrite order_by_permutation.
  erewrite flat_map_ext; [reflexivity |].
  intros ap. now apply bom_line_rows.
Qed.

Lemma flat_map_shown_length {A B : Type} (f : A -> option B) (l : list A) :
  (List.length (flat_map (fun a => shown (f a)) l) <= List.length l)%nat.
Proof.
  induction l as [| a l IH]; simpl; [lia |].
  rewrite length_app. destruct (f a); simpl; lia.
Qed.

(** X14. The bill of materials of an assembly version, in every store
    reached from the empty one and with a working driver: the lines are in
    the order of their part codes; a line is listed exactly for the edges
    of the version whose part version, part and owner are in their tables,
    and every line shows a frozen part version.  When the user ids are
    distinct, each edge of the version gives exactly its one line or, when
    it does not resolve, none: the listing is a rearrangement of the lines
    of the edges, so a line is repeated only as often as edges give it,
    and there are at most as many lines as edges.  The route never reads
    its [assembly_id] parameter, and a driver error gives 500. *)
Theorem X14_bom_lists_frozen_versions :
  forall (us : list user_row) (calls : list call) (assemblyId versionId : Z),
    let st := run calls (empty_db us) in
    exists lines,
      get_bom no_errors assemblyId versionId st = Listed lines
      /\ Sorted (fun x y => (bom_part_code x <=? bom_part_code y)%string = true)
           lines
      /\ (forall line, In line lines -> version_status line = "frozen")
      /\ (forall line, In line lines <->
            exists ap pv p usr,
              In ap (rows (assembly_parts st))
              /\ assembly_version_id ap = versionId
              /\ In pv (rows (part_versions st))
              /\ v_id pv = part_version_id ap
              /\ In p (rows (parts st)) /\ p_id p = item_id pv
              /\ In usr (users st) /\ u_id usr = p_owner_id p
              /\ line = mkBom (p_id p) (part_code p) (p_name p) (material p)
                          (vendor p) (p_criticality p) (v_id pv)
                          (version_label pv) (status pv) (change_notes pv)
                          (u_username usr))
      /\ (forall assemblyId',
            get_bom no_errors assemblyId' versionId st = Listed lines)
      /\ (forall E e assemblyId', err E = Some e ->
            get_bom E assemblyId' versionId st = Failed 500 e)
      /\ (NoDup (map u_id us) ->
          Permutation lines
            (flat_map (fun ap => shown (bom_line st ap))
               (filter (fun ap => assembly_version_id ap =? versionId)
                  (rows (assembly_parts st))))
          /\ (List.length lines
              <= List.length
                   (filter (fun ap => (assembly_version_id ap =? versionId)%Z)
                      (rows (assembly_parts st))))%nat).
Proof.
  intros us calls assemblyId versionId st.
  destruct (get_bom no_errors 0 versionId st) as [| lines] eqn:Hl;
    [discriminate Hl |].
  exists lines.
  assert (Hinv : edges_frozen st).
  { apply run_edges_frozen; try apply wf_empty_table. intros x []. }
  split; [exact Hl |]. split; [| split; [| split; [| split; [| split]]]].
  - unfold get_bom in Hl. cbn [err no_errors] in Hl. injection Hl as <-.
    apply order_by_sorted. intros x y. apply string_leb_total.
  - intros line Hin. apply (bom_line_In versionId st line lines Hl) in Hin.
    destruct Hin as [ap [pv [p [usr [Hap [_ [Hpv [Hid [_ [_ [_ [_ ->]]]]]]]]]]]].
    cbn [version_status]. destruct (Hinv ap Hap) as [_ Hall]. now apply Hall.
  - intros line. exact (bom_line_In versionId st line lines Hl).
  - intros assemblyId'. exact Hl.
  - intros E e assemblyId' He. unfold get_bom. now rewrite He.
  - intros Hus.
    assert (Hperm : Permutation lines
                      (flat_map (fun ap => shown (bom_line st ap))
                         (filter (fun ap => assembly_version_id ap =? versionId)
                            (rows (assembly_parts st))))).
    { apply (get_bom_permutation st 0 versionId lines); [| | | exact Hl].
      - apply reachable_primary_key.
      - destruct (run_wf_items calls (empty_db us)) as [[[Hkey _] _] _];
          [split; [apply wf_empty_table | constructor]
          | split; [apply wf_empty_table | constructor] | exact Hkey].
      - destruct (run_wf calls (empty_db us)) as [Husers _];
          [apply wf_empty_table | apply wf_empty_table |].
        fold st in Husers. rewrite Husers. exact Hus. }
    split; [exact Hperm |].
    rewrite (Permutation_length Hperm). apply flat_map_shown_length.
Qed.

(** ** The impact check *)

Lemma impact_before_total (x y : impact_row) :
  impact_before x y = false -> impact_before y x = true.
Proof.
  unfold impact_before.
  rewrite (String.compare_antisym (impact_assembly_code x)
             (impact_assembly_code y)).
  destruct (impact_assembly_code y ?= impact_assembly_code x)%string; simpl;
    [apply string_leb_total | reflexivity | discriminate].
Qed.

Lemma impact_line_In (partId : Z) (st : db) (line : impact_row)
    (l : list impact_row) :
  get_part_impact no_errors partId st = Listed l ->
  In line l <->
  exists ap pv av a,
    In ap (rows (assembly_parts st))
    /\ In pv (rows (part_versions st)) /\ v_id pv = part_version_id ap
    /\ item_id pv = partId
    /\ In av (rows (assembly_versions st)) /\ v_id av = assembly_version_id ap
    /\ In a (rows (assemblies st)) /\ a_id a = item_id av
    /\ line = mkImpact (a_id a) (assembly_code a) (a_name a) (version_label av)
                (status av) (version_label pv) (v_id pv).
Proof.
  unfold get_part_impact. cbn [err no_errors]. intros Hl. injection Hl as <-.
  rewrite order_by_In, nodup_In, in_flat_map. split.
  - intros [ap [Hap Hin]].
    apply in_flat_map in Hin. destruct Hin as [pv [Hpv Hin]].
    apply filter_In in Hpv. destruct Hpv as [Hpv Hid].
    apply andb_true_iff in Hid. destruct Hid as [Hid Hpart].
    apply in_flat_map in Hin. destruct Hin as [av [Hav Hin]].
    apply filter_In in Hav. destruct Hav as [Hav Havid].
    apply in_map_iff in Hin. destruct Hin as [a [Hline Ha]].
    apply filter_In in Ha. destruct Ha as [Ha Haid].
    apply Z.eqb_eq in Hid, Hpart, Havid, Haid.
    exists ap, pv, av, a. repeat split; auto.
  - intros [ap [pv [av [a [Hap [Hpv [Hid [Hpart [Hav [Havid [Ha [Haid Hline]]]]]]]]]]]].
    exists ap. split; [assumption |].
    apply in_flat_map. exists pv. split.
    { apply filter_In. split; [assumption |].
      apply andb_true_iff. split; apply Z.eqb_eq; auto. }
    apply in_flat_map. exists av.
    split; [apply filter_In; split; [assumption | apply Z.eqb_eq; auto] |].
    apply in_map_iff. exists a. split; [auto |].
    apply filter_In. split; [assumption | apply Z.eqb_eq; auto].
Qed.

(** X15. The impact check of a part, with a working driver: the lines are
    pairwise different and ordered by assembly code, then version label;
    there is one line for every edge on a version of the part whose
    assembly version and assembly are in their tables.  Whenever the check
    lists a line, an admin's [DELETE /api/parts/:part_id] is refused and
    changes nothing; and when every edge hangs on an assembly version of an
    existing assembly, a refused delete has a line to show for it. *)
Theorem X15_impact_lines_block_delete :
  forall (u : user) (partId : Z) (st : db),
    role u = "admin" ->
    exists lines,
      get_part_impact no_errors partId st = Listed lines
      /\ NoDup lines
      /\ Sorted (fun x y => impact_before x y = true) lines
      /\ (forall line, In line lines <->
            exists ap pv av a,
              In ap (rows (assembly_parts st))
              /\ In pv (rows (part_versions st))
              /\ v_id pv = part_version_id ap /\ item_id pv = partId
              /\ In av (rows (assembly_versions st))
              /\ v_id av = assembly_version_id ap
              /\ In a (rows (assemblies st)) /\ a_id a = item_id av
              /\ line = mkImpact (a_id a) (assembly_code a) (a_name a)
                          (version_label av) (status av) (version_label pv)
                          (v_id pv))
      /\ (lines <> [] ->
          delete_part no_errors u partId st = (st, conflict_part_referenced))
      /\ ((forall ap, In ap (rows (assembly_parts st)) ->
             exists av a,
               In av (rows (assembly_versions st))
               /\ v_id av = assembly_version_id ap
               /\ In a (rows (assemblies st)) /\ a_id a = item_id av) ->
          is_error (snd (delete_part no_errors u partId st)) = true ->
          lines <> []).
Proof.
  intros u partId st Hrole.
  destruct (get_part_impact no_errors partId st) as [| lines] eqn:Hl;
    [discriminate Hl |].
  exists lines. pose proof (impact_line_In partId st) as Hin.
  pose proof (count_part_references_positive partId st) as Hcount.
  split; [reflexivity |]. split; [| split; [| split; [| split]]].
  - unfold get_part_impact in Hl. cbn [err no_errors] in Hl.
    injection Hl as <-. apply order_by_NoDup, NoDup_nodup.
  - unfold get_part_impact in Hl. cbn [err no_errors] in Hl.
    injection Hl as <-. apply order_by_sorted, impact_before_total.
  - intros line. now apply Hin.
  - intros Hlines. destruct lines as [| line lines]; [congruence |].
    assert (Hline : In line (line :: lines)) by now left.
    apply (Hin line _ Hl) in Hline.
    destruct Hline as [ap [pv [_ [_ [Hap [Hpv [Hid [Hpart _]]]]]]]].
    assert (Href : part_referenced partId st).
    { exists ap, pv. repeat split; auto. }
    apply Hcount in Href. unfold delete_part. rewrite Hrole. simpl.
    now rewrite Href.
  - intros Hwhole Herr. unfold delete_part in Herr. rewrite Hrole in Herr.
    simpl in Herr.
    destruct (0 <? count_part_references partId st) eqn:Hc;
      [| simpl in Herr; discriminate].
    apply (count_part_references_positive partId st) in Hc.
    destruct Hc as [ap [pv [Hap [Hpv [Hid Hpart]]]]].
    destruct (Hwhole ap Hap) as [av [a [Hav [Havid [Ha Haid]]]]].
    intros ->.
    apply (Hin (mkImpact (a_id a) (assembly_code a) (a_name a)
                  (version_label av) (status av) (version_label pv) (v_id pv))
             [] Hl).
    exists ap, pv, av, a. repeat split; auto.
Qed.

(** ** The lists of pending requests *)

Lemma newest_first_total {A : Type} (at_ : A -> Z) (x y : A) :
  (at_ y <=? at_ x) = false -> (at_ x <=? at_ y) = true.
Proof. rewrite Z.leb_gt, Z.leb_le. lia. Qed.

Lemma pending_edit_In (u : user) (st : db) (line : pending_edit_request)
    (l : list pending_edit_request) :
  get_edit_requests no_errors u st = Listed l ->
  In line l <->
  exists er usr p,
    In er (rows (edit_requests st)) /\ er_status er = "pending"
    /\ In usr (users st) /\ u_id usr = er_requester_id er
    /\ In p (rows (parts st)) /\ p_id p = er_part_id er
    /\ line = mkPendingEdit er (u_username usr) (part_code p).
Proof.
  unfold get_edit_requests.
  destruct (negb (isApproverOrAdmin (role u))); [discriminate |].
  cbn [err no_errors]. intros Hl. injection Hl as <-.
  rewrite order_by_In, in_flat_map. split.
  - intros [er [Her Hin]]. apply filter_In in Her. destruct Her as [Her Hst].
    apply in_flat_map in Hin. destruct Hin as [usr [Husr Hin]].
    apply filter_In in Husr. destruct Husr as [Husr Hreq].
    apply in_map_iff in Hin. destruct Hin as [p [Hline Hp]].
    apply filter_In in Hp. destruct Hp as [Hp Hpid].
    apply String.eqb_eq in Hst, Hreq. apply Z.eqb_eq in Hpid.
    exists er, usr, p. repeat split; auto.
  - intros [er [usr [p [Her [Hst [Husr [Hreq [Hp [Hpid Hline]]]]]]]]].
    exists er.
    split; [apply filter_In; split; [assumption | now apply String.eqb_eq] |].
    apply in_flat_map. exists usr.
    split; [apply filter_In; split; [assumption | apply String.eqb_eq; auto] |].
    apply in_map_iff. exists p. split; [auto |].
    apply filter_In. split; [assumption | apply Z.eqb_eq; auto].
Qed.

Lemma pending_release_In (u : user) (st : db) (rr : release_request_row)
    (l : list release_request_row) :
  get_release_requests no_errors u st = Listed l ->
  In rr l <-> In rr (rows (release_requests st)) /\ rr_status rr = "pending".
Proof.
  unfold get_release_requests.
  destruct (negb (isApproverOrAdmin (role u))); [discriminate |].
  cbn [err no_errors]. intros Hl. injection Hl as <-.
  rewrite order_by_In, filter_In, String.eqb_eq. reflexivity.
Qed.

(** The rows of a table after an UPDATE by key. *)
Lemma decided_row_In {A : Type} (key : A -> Z) (f : A -> A) (k : Z)
    (l : list A) (r' : A) :
  In r' (map (fun r => if key r =? k then f r else r) l) <->
  (exists r, In r l /\ key r = k /\ r' = f r) \/ (In r' l /\ key r' <> k).
Proof.
  rewrite in_map_iff. split.
  - intros [r [Hr Hin]]. destruct (key r =? k) eqn:Hk.
    + apply Z.eqb_eq in Hk. left. exists r. auto.
    + apply Z.eqb_neq in Hk. right. subst r'. auto.
  - intros [[r [Hin [Hk Hr]]] | [Hin Hk]].
    + exists r. apply Z.eqb_eq in Hk. rewrite Hk. auto.
    + exists r'. apply Z.eqb_neq in Hk. rewrite Hk. auto.
Qed.

Lemma get_none_update {A : Type} (key : A -> Z) (f : A -> A) (k : Z)
    (t : table A) :
  get (fun r => key r =? k) t = None ->
  map (fun r => if key r =? k then f r else r) (rows t) = rows t.
Proof.
  unfold get. intros Hnone. pose proof (find_none _ _ Hnone) as Hall.
  clear Hnone. induction (rows t) as [| r l IH]; simpl; [reflexivity |].
  rewrite (Hall r (or_introl eq_refl)). f_equal. apply IH.
  intros x Hx. apply Hall. now right.
Qed.

Lemma approve_edit_request_rows (u : user) (requestId now : Z) (st : db) :
  isApproverOrAdmin (role u) = true ->
  let st' := fst (approve_edit_request no_errors u requestId now st) in
  users st' = users st /\ parts st' = parts st
  /\ rows (edit_requests st')
     = map (fun er => if er_id er =? requestId
                      then decided_edit_request "approved" (id u) now er
                      else er)
           (rows (edit_requests st)).
Proof.
  intros Hrole. unfold approve_edit_request. rewrite Hrole. simpl.
  destruct (get (fun er => er_id er =? requestId) (edit_requests st))
    as [request |] eqn:Hget; simpl.
  - repeat split.
  - repeat split. symmetry. now apply get_none_update.
Qed.

Lemma reject_edit_request_rows (u : user) (requestId now : Z) (st : db) :
  isApproverOrAdmin (role u) = true ->
  let st' := fst (reject_edit_request no_errors u requestId now st) in
  users st' = users st /\ parts st' = parts st
  /\ rows (edit_requests st')
     = map (fun er => if er_id er =? requestId
                      then decided_edit_request "rejected" (id u) now er
                      else er)
           (rows (edit_requests st)).
Proof.
  intros Hrole. unfold reject_edit_request. rewrite Hrole. simpl.
  destruct (_ =? 0); simpl; repeat split.
Qed.

Lemma approve_release_request_rows (u : user) (requestId now : Z) (st : db) :
  isApproverOrAdmin (role u) = true ->
  rows (release_requests
          (fst (approve_release_request no_errors u requestId now st)))
  = map (fun rr => if rr_id rr =? requestId
                   then mkReleaseRequest (rr_id rr) (item_type rr)
                          (item_version_id rr) (rr_requester_id rr) "approved"
                          (rr_reason rr) (rr_created_at rr) (Some (id u))
                          (Some now)
                   else rr)
        (rows (release_requests st)).
Proof.
  intros Hrole. unfold approve_release_request. rewrite Hrole. simpl.
  destruct (get (fun rr => rr_id rr =? requestId) (release_requests st))
    as [request |] eqn:Hget; simpl.
  - destruct (item_type request =? "part")%string; reflexivity.
  - symmetry. now apply get_none_update.
Qed.

Lemma reject_release_request_rows (u : user) (requestId now : Z) (st : db) :
  isApproverOrAdmin (role u) = true ->
  rows (release_requests
          (fst (reject_release_request no_errors u requestId now st)))
  = map (fun rr => if rr_id rr =? requestId
                   then mkReleaseRequest (rr_id rr) (item_type rr)
                          (item_version_id rr) (rr_requester_id rr) "rejected"
                          (rr_reason rr) (rr_created_at rr) (Some (id u))
                          (Some now)
                   else rr)
        (rows (release_requests st)).
Proof.
  intros Hrole. unfold reject_release_request. rewrite Hrole. simpl.
  destruct (_ =? 0); reflexivity.
Qed.

Lemma pending_edits_after_decision (u : user) (st st' : db) (requestId : Z)
    (f : edit_request_row -> edit_request_row)
    (edits edits' : list pending_edit_request) :
  users st' = users st /\ parts st' = parts st
  /\ rows (edit_requests st')
     = map (fun er => if er_id er =? requestId then f er else er)
           (rows (edit_requests st)) ->
  (forall er, er_status (f er) <> "pending") ->
  get_edit_requests no_errors u st = Listed edits ->
  get_edit_requests no_errors u st' = Listed edits' ->
  forall line, In line edits' <->
               In line edits /\ er_id (pending_request line) <> requestId.
Proof.
  intros [Hu [Hp Hrows]] Hf Hl Hl' line.
  rewrite (pending_edit_In u st' line edits' Hl'),
          (pending_edit_In u st line edits Hl), Hu, Hp, Hrows.
  split.
  - intros [er [usr [p [Her [Hst [Husr [Hreq [Hin [Hpid ->]]]]]]]]].
    apply decided_row_In in Her.
    destruct Her as [[r [_ [_ ->]]] | [Her Hk]]; [now apply Hf in Hst |].
    split; [| exact Hk]. exists er, usr, p. repeat split; auto.
  - intros [[er [usr [p [Her [Hst [Husr [Hreq [Hin [Hpid ->]]]]]]]]] Hk].
    cbn [pending_request] in Hk. exists er, usr, p.
    repeat split; auto. apply decided_row_In. now right.
Qed.

Lemma pending_releases_after_decision (u : user) (st st' : db) (requestId : Z)
    (f : release_request_row -> release_request_row)
    (releases releases' : list release_request_row) :
  rows (release_requests st')
  = map (fun rr => if rr_id rr =? requestId then f rr else rr)
        (rows (release_requests st)) ->
  (forall rr, rr_status (f rr) <> "pending") ->
  get_release_requests no_errors u st = Listed releases ->
  get_release_requests no_errors u st' = Listed releases' ->
  forall rr, In rr releases' <-> In rr releases /\ rr_id rr <> requestId.
Proof.
  intros Hrows Hf Hl Hl' rr.
  rewrite (pending_release_In u st' rr releases' Hl'),
          (pending_release_In u st rr releases Hl), Hrows.
  split.
  - intros [Hrr Hst]. apply decided_row_In in Hrr.
    destruct Hrr as [[r [_ [_ ->]]] | [Hrr Hk]]; [now apply Hf in Hst |].
    auto.
  - intros [[Hrr Hst] Hk]. split; [| exact Hst].
    apply decided_row_In. now right.
Qed.

Lemma pending_line_rows (st : db) (er : edit_request_row) :
  NoDup (map u_id (users st)) -> primary_key p_id (parts st) ->
  flat_map
    (fun usr =>
       map (fun p => mkPendingEdit er (u_username usr) (part_code p))
           (filter (fun p => er_part_id er =? p_id p) (rows (parts st))))
    (filter (fun usr => (er_requester_id er =? u_id usr)%string) (users st))
  = shown (pending_line st er).
Proof.
  intros Hu Hp. unfold pending_line, get.
  rewrite (filter_unique u_id (er_requester_id er)); [| | exact Hu].
  2: { intros r Hr. apply String.eqb_eq in Hr. now symmetry. }
  destruct (find _ (users st)) as [usr |]; [| reflexivity].
  simpl. rewrite app_nil_r.
  rewrite (filter_unique p_id (er_part_id er)); [| | exact Hp].
  2: { intros r Hr. apply Z.eqb_eq in Hr. now symmetry. }
  destruct (find _ (rows (parts st))) as [p |]; reflexivity.
Qed.

Lemma filter_permutation {A : Type} (keep : A -> bool) (l l' : list A) :
  Permutation l l' -> Permutation (filter keep l) (filter keep l').
Proof.
  induction 1 as [| x l l' _ IH | x y l | l l' l'' _ IH1 _ IH2]; simpl.
  - constructor.
  - destruct (keep x); [now constructor | assumption].
  - destruct (keep x), (keep y); try reflexivity. apply perm_swap.
  - now transitivity (filter keep l').
Qed.

(** The pending rows after an UPDATE that decides the requests with one
    id. *)
Lemma pending_after_update {A : Type} (key : A -> Z) (stat : A -> string)
    (f : A -> A) (k : Z) (l : list A) :
  (forall r, stat (f r) <> "pending") ->
  filter (fun r => (stat r =? "pending")%string)
    (map (fun r => if key r =? k then f r else r) l)
  = filter (fun r => negb (key r =? k))
      (filter (fun r => (stat r =? "pending")%string) l).
Proof.
  intros Hf. induction l as [| r l IH]; simpl; [reflexivity |].
  destruct (key r =? k) eqn:Hk.
  - pose proof (Hf r) as Hr. apply String.eqb_neq in Hr. rewrite Hr, IH.
    destruct (stat r =? "pending")%string; simpl; [now rewrite Hk | reflexivity].
  - destruct (stat r =? "pending")%string; simpl; [rewrite Hk; simpl |];
      now rewrite IH.
Qed.

Lemma filter_all {A : Type} (keep : A -> bool) (l : list A) :
  (forall x, In x l -> keep x = true) -> filter keep l = l.
Proof.
  induction l as [| x l IH]; simpl; intros Hall; [reflexivity |].
  rewrite (Hall x (or_introl eq_refl)). f_equal. apply IH.
  intros y Hy. apply Hall. now right.
Qed.

Lemma filter_none {A : Type} (keep : A -> bool) (l : list A) :
  (forall x, In x l -> keep x = false) -> filter keep l = [].
Proof.
  induction l as [| x l IH]; simpl; intros Hall; [reflexivity |].
  rewrite (Hall x (or_introl eq_refl)). apply IH.
  intros y Hy. apply Hall. now right.
Qed.

(** Lines that carry the key of the row they come from can be selected by
    key before or after the join. *)
Lemma flat_map_filter_key {A B : Type} (key : A -> Z) (line_key : B -> Z)
    (G : A -> list B) (k : Z) (l : list A) :
  (forall r x, In x (G r) -> line_key x = key r) ->
  flat_map G (filter (fun r => negb (key r =? k)) l)
  = filter (fun x => negb (line_key x =? k)) (flat_map G l).
Proof.
  intros Hkey. induction l as [| r l IH]; [reflexivity |].
  cbn [filter flat_map]. rewrite filter_app.
  destruct (key r =? k) eqn:Hk; cbn [negb flat_map]; rewrite IH.
  - rewrite (filter_none _ (G r)); [reflexivity |].
    intros x Hx. now rewrite (Hkey r x Hx), Hk.
  - rewrite (filter_all _ (G r)); [reflexivity |].
    intros x Hx. now rewrite (Hkey r x Hx), Hk.
Qed.

(** The list of pending edit requests of a store, before it is ordered. *)
Lemma pending_edits_after_update (u : user) (st st' : db) (requestId : Z)
    (f : edit_request_row -> edit_request_row)
    (edits edits' : list pending_edit_request) :
  users st' = users st /\ parts st' = parts st
  /\ rows (edit_requests st')
     = map (fun er => if er_id er =? requestId then f er else er)
           (rows (edit_requests st)) ->
  (forall er, er_status (f er) <> "pending") ->
  get_edit_requests no_errors u st = Listed edits ->
  get_edit_requests no_errors u st' = Listed edits' ->
  Permutation edits'
    (filter (fun line => negb (er_id (pending_request line) =? requestId))
       edits).
Proof.
  intros [Hu [Hp Hrows]] Hf Hl Hl'. unfold get_edit_requests in Hl, Hl'.
  destruct (negb (isApproverOrAdmin (role u))); [discriminate |].
  cbn [err no_errors] in Hl, Hl'. injection Hl as <-. injection Hl' as <-.
  rewrite Hu, Hp, Hrows, order_by_permutation.
  rewrite (pending_after_update er_id er_status f requestId _ Hf).
  rewrite (flat_map_filter_key er_id (fun line => er_id (pending_request line))).
  - apply filter_permutation. symmetry. apply order_by_permutation.
  - intros er line Hin. apply in_flat_map in Hin.
    destruct Hin as [usr [_ Hin]]. apply in_map_iff in Hin.
    destruct Hin as [p [<- _]]. reflexivity.
Qed.

Lemma pending_releases_after_update (u : user) (st st' : db) (requestId : Z)
    (f : release_request_row -> release_request_row)
    (releases releases' : list release_request_row) :
  rows (release_requests st')
  = map (fun rr => if rr_id rr =? requestId then f rr else rr)
        (rows (release_requests st)) ->
  (forall rr, rr_status (f rr) <> "pending") ->
  get_release_requests no_errors u st = Listed releases ->
  get_release_requests no_errors u st' = Listed releases' ->
  Permutation releases'
    (filter (fun rr => negb (rr_id rr =? requestId)) releases).
Proof.
  intros Hrows Hf Hl Hl'. unfold get_release_requests in Hl, Hl'.
  destruct (negb (isApproverOrAdmin (role u))); [discriminate |].
  cbn [err no_errors] in Hl, Hl'. injection Hl as <-. injection Hl' as <-.
  rewrite Hrows, order_by_permutation.
  rewrite (pending_after_update rr_id rr_status f requestId _ Hf).
  apply filter_permutation. symmetry. apply order_by_permutation.
Qed.

(** X16. The lists of pending requests, for an approver or admin and a
    working driver.  A line of the edit list is a pending edit request
    with the name of its requester and the code of its part, and it is
    listed exactly when requester and part are in their tables: a request
    for a part that does not exist is stored but never shown.  When user
    ids and part ids are distinct, each pending edit request gives exactly
    its one line or, when it does not resolve, none: the list is a
    rearrangement of these lines.  The release list is a rearrangement of
    the pending release requests, whatever they name.  Both are ordered
    newest first.  Approving or rejecting request [requestId] takes
    exactly the lines of the requests with this id off the list and keeps
    every other line, as often as it was listed.  Other roles get 403. *)
Theorem X16_decided_requests_leave_the_lists :
  forall (u : user) (requestId now : Z) (st : db),
    isApproverOrAdmin (role u) = true ->
    exists edits releases,
      get_edit_requests no_errors u st = Listed edits
      /\ get_release_requests no_errors u st = Listed releases
      /\ Sorted (fun x y => (er_created_at (pending_request y)
                             <=? er_created_at (pending_request x)) = true)
           edits
      /\ Sorted (fun x y => (rr_created_at y <=? rr_created_at x) = true)
           releases
      /\ (forall line, In line edits <->
            exists er usr p,
              In er (rows (edit_requests st)) /\ er_status er = "pending"
              /\ In usr (users st) /\ u_id usr = er_requester_id er
              /\ In p (rows (parts st)) /\ p_id p = er_part_id er
              /\ line = mkPendingEdit er (u_username usr) (part_code p))
      /\ (forall rr, In rr releases <->
            In rr (rows (release_requests st)) /\ rr_status rr = "pending")
      /\ (forall out,
            out = approve_edit_request no_errors u requestId now st
            \/ out = reject_edit_request no_errors u requestId now st ->
            exists edits',
              get_edit_requests no_errors u (fst out) = Listed edits'
              /\ (forall line,
                    In line edits' <->
                    In line edits
                    /\ er_id (pending_request line) <> requestId)
              /\ Permutation edits'
                   (filter (fun line => negb (er_id (pending_request line)
                                              =? requestId))
                      edits))
      /\ (forall out,
            out = approve_release_request no_errors u requestId now st
            \/ out = reject_release_request no_errors u requestId now st ->
            exists releases',
              get_release_requests no_errors u (fst out) = Listed releases'
              /\ (forall rr,
                    In rr releases' <->
                    In rr releases /\ rr_id rr <> requestId)
              /\ Permutation releases'
                   (filter (fun rr => negb (rr_id rr =? requestId)) releases))
      /\ (forall E u',
            isApproverOrAdmin (role u') = false ->
            get_edit_requests E u' st
            = Failed 403 "Only approvers or admins can view edit requests"
            /\ get_release_requests E u' st
               = Failed 403
                   "Only approvers or admins can view release requests")
      /\ (NoDup (map u_id (users st)) -> primary_key p_id (parts st) ->
          Permutation edits
            (flat_map (fun er => shown (pending_line st er))
               (filter (fun er => (er_status er =? "pending")%string)
                  (rows (edit_requests st)))))
      /\ Permutation releases
           (filter (fun rr => (rr_status rr =? "pending")%string)
              (rows (release_requests st))).
Proof.
  intros u requestId now st Hrole.
  assert (Hedits : forall s, exists l, get_edit_requests no_errors u s = Listed l).
  { intros s. unfold get_edit_requests. rewrite Hrole. simpl. eauto. }
  assert (Hreleases : forall s,
             exists l, get_release_requests no_errors u s = Listed l).
  { intros s. unfold get_release_requests. rewrite Hrole. simpl. eauto. }
  destruct (Hedits st) as [edits Hl]. destruct (Hreleases st) as [releases Hr].
  exists edits, releases.
  split; [exact Hl |]. split; [exact Hr |].
  split; [| split; [| split; [| split; [| split; [| split; [| split;
    [| split]]]]]]].
  - unfold get_edit_requests in Hl. rewrite Hrole in Hl. simpl in Hl.
    injection Hl as <-. apply order_by_sorted. intros x y.
    apply (newest_first_total (fun l => er_created_at (pending_request l))).
  - unfold get_release_requests in Hr. rewrite Hrole in Hr. simpl in Hr.
    injection Hr as <-. apply order_by_sorted. intros x y.
    apply (newest_first_total rr_created_at).
  - intros line. exact (pending_edit_In u st line edits Hl).
  - intros rr. exact (pending_release_In u st rr releases Hr).
  - intros out Hout. destruct (Hedits (fst out)) as [edits' Hl'].
    exists edits'. split; [exact Hl' |].
    destruct Hout as [-> | ->].
    + split.
      * eapply pending_edits_after_decision;
          [apply (approve_edit_request_rows u requestId now st Hrole)
          | intros er; cbn; discriminate | exact Hl | exact Hl'].
      * eapply pending_edits_after_update;
          [apply (approve_edit_request_rows u requestId now st Hrole)
          | intros er; cbn; discriminate | exact Hl | exact Hl'].
    + split.
      * eapply pending_edits_after_decision;
          [apply (reject_edit_request_rows u requestId now st Hrole)
          | intros er; cbn; discriminate | exact Hl | exact Hl'].
      * eapply pending_edits_after_update;
          [apply (reject_edit_request_rows u requestId now st Hrole)
          | intros er; cbn; discriminate | exact Hl | exact Hl'].
  - intros out Hout. destruct (Hreleases (fst out)) as [releases' Hr'].
    exists releases'. split; [exact Hr' |].
    destruct Hout as [-> | ->].
    + split.
      * eapply pending_releases_after_decision;
          [apply (approve_release_request_rows u requestId now st Hrole)
          | intros rr; cbn; discriminate | exact Hr | exact Hr'].
      * eapply pending_releases_after_update;
          [apply (approve_release_request_rows u requestId now st Hrole)
          | intros rr; cbn; discriminate | exact Hr | exact Hr'].
    + split.
      * eapply pending_releases_after_decision;
          [apply (reject_release_request_rows u requestId now st Hrole)
          | intros rr; cbn; discriminate | exact Hr | exact Hr'].
      * eapply pending_releases_after_update;
          [apply (reject_release_request_rows u requestId now st Hrole)
          | intros rr; cbn; discriminate | exact Hr | exact Hr'].
  - intros E u' Hno. unfold get_edit_requests, get_release_requests.
    now rewrite Hno.
  - intros Hus Hparts. unfold get_edit_requests in Hl. rewrite Hrole in Hl.
    simpl in Hl. injection Hl as <-. rewrite order_by_permutation.
    erewrite flat_map_ext; [reflexivity |].
    intros er. now apply pending_line_rows.
  - unfold get_release_requests in Hr. rewrite Hrole in Hr. simpl in Hr.
    injection Hr as <-. apply order_by_permutation.
Qed.

(** ** CSV cells *)

(** X17. [csvSafe] guards the first character of a cell and nothing else:
    its result never starts with [=], [+], [-], [@], a tab or a carriage
    return; it is the cell itself when the cell does not start with one
    of them and the cell behind an apostrophe otherwise, so all
    characters of the cell are kept in place, a double quote included;
    guarding a guarded cell changes nothing; [null] gives the empty
    cell. *)
Theorem X17_csv_safe_guards_first_character :
  forall (s : string),
    starts_formula (csvSafe (Some s)) = false
    /\ (starts_formula s = false <-> csvSafe (Some s) = s)
    /\ (starts_formula s = true <-> csvSafe (Some s) = String "'" s)
    /\ csvSafe (Some (csvSafe (Some s))) = csvSafe (Some s)
    /\ (exists guard, csvSafe (Some s) = guard ++ s
                      /\ (guard = "" \/ guard = "'"))
    /\ (String.length s <= String.length (csvSafe (Some s))
        <= String.length s + 1)%nat
    /\ csvSafe None = "".
Proof.
  intros s. unfold csvSafe.
  destruct (starts_formula s) eqn:Hs; simpl; rewrite ?Hs.
  - repeat split; try reflexivity; try discriminate; try lia.
    + intros H. exfalso. apply (f_equal String.length) in H. simpl in H. lia.
    + exists "'". split; [reflexivity | now right].
  - repeat split; try reflexivity; try assumption; try discriminate; try lia.
    + intros H. exfalso. apply (f_equal String.length) in H. simpl in H. lia.
    + exists "". split; [reflexivity | now left].
Qed.

(** ** Metadata updates *)

Lemma lifecycle_check (x : option string) :
  truthy x && negb (includes VALID_LIFECYCLE (or_default x "")) = false
  <-> lifecycle_accepted x.
Proof.
  unfold lifecycle_accepted, truthy, or_default.
  destruct x as [s |]; [| simpl; intuition].
  destruct (s =? "")%string eqn:Hs; cbn [negb andb].
  - apply String.eqb_eq in Hs. subst s. intuition.
  - rewrite negb_false_iff. split.
    + intros Hin. right. right. exists s. split; [reflexivity |].
      now apply includes_In.
    + intros [Hnone | [Hempty | [s' [Heq Hin]]]]; [discriminate | |].
      * injection Hempty as ->. discriminate Hs.
      * injection Heq as <-. unfold includes. apply existsb_exists.
        exists s. split; [assumption | apply String.eqb_refl].
Qed.

Ltac row_unchanged :=
  let r := fresh "r" in
  let Hn := fresh "Hn" in
  let Hok := fresh "Hok" in
  intros ? r Hn; exists r;
  split; [exact Hn |]; split; [repeat split |];
  split; [reflexivity | intros _ Hok; discriminate Hok].

(** When the two metadata updates succeed and what they do to the rows
    that were in the table. *)
Lemma metadata_update_outcome :
  forall (u : user) (itemId now : Z) (pb : part_body) (ab : assembly_body)
         (st : db),
    let outp := put_part no_errors u itemId pb now st in
    let outa := put_assembly no_errors u itemId ab now st in
    ((is_error (snd outp) = false
      <-> canEditPart no_errors (id u) (role u) itemId st = inr true
          /\ lifecycle_accepted (b_lifecycle_state pb))
     /\ (is_error (snd outp) = true -> fst outp = st)
     /\ set_parts (parts st) (fst outp) = st
     /\ forall n p, nth_error (rows (parts st)) n = Some p ->
          exists p', nth_error (rows (parts (fst outp))) n = Some p'
                     /\ same_part p p'
                     /\ (p_id p <> itemId -> p' = p)
                     /\ (p_id p = itemId -> is_error (snd outp) = false ->
                         p_updated_at p' = now
                         /\ p_criticality p'
                            = COALESCE (b_criticality pb) (p_criticality p)
                         /\ p_lifecycle_state p'
                            = COALESCE (b_lifecycle_state pb)
                                (p_lifecycle_state p)))
    /\ ((is_error (snd outa) = false
         <-> lifecycle_accepted (ab_lifecycle_state ab)
             /\ exists asm,
                  get (fun a => a_id a =? itemId) (assemblies st) = Some asm
                  /\ (a_owner_id asm = id u \/ role u = "admin"))
        /\ (is_error (snd outa) = true -> fst outa = st)
        /\ set_assemblies (assemblies st) (fst outa) = st
        /\ forall n a, nth_error (rows (assemblies st)) n = Some a ->
             exists a', nth_error (rows (assemblies (fst outa))) n = Some a'
                        /\ same_assembly a a'
                        /\ (a_id a <> itemId -> a' = a)
                        /\ (a_id a = itemId -> is_error (snd outa) = false ->
                            a_updated_at a' = now
                            /\ a_criticality a'
                               = COALESCE (ab_criticality ab) (a_criticality a)
                            /\ a_lifecycle_state a'
                               = COALESCE (ab_lifecycle_state ab)
                                   (a_lifecycle_state a))).
Proof.
  intros u itemId now pb ab st outp outa. split.
  - subst outp outa. unfold put_part.
    pose proof (lifecycle_check (b_lifecycle_state pb)) as Hcheck.
    destruct (canEditPart no_errors (id u) (role u) itemId st)
      as [e | [|]] eqn:Hcan.
    + exfalso. unfold canEditPart in Hcan. simpl in Hcan.
      repeat match type of Hcan with
             | context [if ?c then _ else _] => destruct c
             | context [match ?c with _ => _ end] => destruct c
             end; discriminate.
    + destruct (truthy (b_lifecycle_state pb) && _) eqn:Hlife.
      * simpl. split; [| split; [| split]].
        -- split; [discriminate |]. intros [_ Hacc]. apply Hcheck in Hacc.
           discriminate.
        -- reflexivity.
        -- now destruct st.
        -- row_unchanged.
      * unfold on_error. simpl. split; [| split; [| split]].
        -- split; [intros _; split; [reflexivity | now apply Hcheck]
                  | reflexivity].
        -- discriminate.
        -- now destruct st.
        -- intros n p Hn. rewrite nth_error_map, Hn. simpl.
           destruct (p_id p =? itemId) eqn:Hid.
           ++ eexists. split; [reflexivity |].
              split; [repeat split |]. apply Z.eqb_eq in Hid.
              split; [intros Hne; contradiction | intros _ _; repeat split].
           ++ exists p. apply Z.eqb_neq in Hid.
              split; [reflexivity |]. split; [repeat split |].
              split; [reflexivity | intros Heq; contradiction].
    + simpl. split; [| split; [| split]].
      * split; [discriminate | intros [Hfalse _]; discriminate].
      * reflexivity.
      * now destruct st.
      * row_unchanged.
  - subst outp outa. unfold put_assembly.
    pose proof (lifecycle_check (ab_lifecycle_state ab)) as Hcheck.
    destruct (truthy (ab_lifecycle_state ab) && _) eqn:Hlife.
    + simpl. split; [| split; [| split]].
      * split; [discriminate |]. intros [Hacc _]. apply Hcheck in Hacc.
        discriminate.
      * reflexivity.
      * now destruct st.
      * row_unchanged.
    + unfold on_error. cbn [err updateErr no_errors].
      destruct (get (fun a => a_id a =? itemId) (assemblies st))
        as [asm |] eqn:Hget.
      * destruct (negb (a_owner_id asm =? id u)%string
                  && negb (role u =? "admin")%string) eqn:Hperm.
        -- simpl. apply andb_true_iff in Hperm. destruct Hperm as [Hown Hadm].
           apply negb_true_iff in Hown, Hadm.
           apply String.eqb_neq in Hown, Hadm.
           split; [| split; [| split]].
           ++ split; [discriminate |].
              intros [_ [asm' [Heq [Ho | Ha]]]]; injection Heq as <-;
                contradiction.
           ++ reflexivity.
           ++ now destruct st.
           ++ row_unchanged.
        -- simpl. apply andb_false_iff in Hperm.
           split; [| split; [| split]].
           ++ split; [| reflexivity]. intros _.
              split; [now apply Hcheck |]. exists asm. split; [reflexivity |].
              destruct Hperm as [Hown | Hadm]; apply negb_false_iff in Hown || apply negb_false_iff in Hadm.
              ** left. now apply String.eqb_eq.
              ** right. now apply String.eqb_eq.
           ++ discriminate.
           ++ now destruct st.
           ++ intros n a Hn. rewrite nth_error_map, Hn. simpl.
              destruct (a_id a =? itemId) eqn:Hid.
              ** eexists. split; [reflexivity |].
                 split; [repeat split |]. apply Z.eqb_eq in Hid.
                 split; [intros Hne; contradiction | intros _ _; repeat split].
              ** exists a. apply Z.eqb_neq in Hid.
                 split; [reflexivity |]. split; [repeat split |].
                 split; [reflexivity | intros Heq; contradiction].
      * simpl. split; [| split; [| split]].
        -- split; [discriminate | intros [_ [asm [Heq _]]]; discriminate].
        -- reflexivity.
        -- now destruct st.
        -- row_unchanged.
Qed.

Lemma metadata_update_frame (E : sqlite_errors) (u : user) (itemId now : Z)
    (pb : part_body) (ab : assembly_body) (st : db) :
  let outp := put_part E u itemId pb now st in
  let outa := put_assembly E u itemId ab now st in
  (List.length (rows (parts (fst outp))) = List.length (rows (parts st))
   /\ last_rowid (parts (fst outp)) = last_rowid (parts st))
  /\ (List.length (rows (assemblies (fst outa)))
      = List.length (rows (assemblies st))
      /\ last_rowid (assemblies (fst outa)) = last_rowid (assemblies st)).
Proof.
  unfold put_part, put_assembly, on_error. split.
  - repeat match goal with
           | |- context [match ?c with _ => _ end] => destruct c
           end; cbn; split; first [reflexivity | apply length_map].
  - repeat match goal with
           | |- context [match ?c with _ => _ end] => destruct c
           end; cbn; split; first [reflexivity | apply length_map].
Qed.

(** X18. The two metadata updates, with a working driver.  [PUT
    /api/parts/:part_id] succeeds exactly when [canEditPart] allows the
    caller and the lifecycle state is absent, empty or one of
    [VALID_LIFECYCLE]; [PUT /api/assemblies/:assembly_id] exactly when the
    lifecycle state passes the same check, the assembly exists and the
    caller owns it or is an admin.  A failing call changes nothing.  The
    store after a call is the store before it with the new table of parts,
    respectively assemblies; this table has as many rows as the old one,
    in the same order, and the same rowid counter; every row keeps its id,
    code, owner and creation time; rows with another id are untouched;
    the row with the id takes the given criticality, which is not
    checked, and lifecycle state, and the time of the call. *)
Theorem X18_metadata_updates_keep_identity :
  forall (u : user) (itemId now : Z) (pb : part_body) (ab : assembly_body)
         (st : db),
    let outp := put_part no_errors u itemId pb now st in
    let outa := put_assembly no_errors u itemId ab now st in
    ((is_error (snd outp) = false
      <-> canEditPart no_errors (id u) (role u) itemId st = inr true
          /\ lifecycle_accepted (b_lifecycle_state pb))
     /\ (is_error (snd outp) = true -> fst outp = st)
     /\ set_parts (parts st) (fst outp) = st
     /\ forall n p, nth_error (rows (parts st)) n = Some p ->
          exists p', nth_error (rows (parts (fst outp))) n = Some p'
                     /\ same_part p p'
                     /\ (p_id p <> itemId -> p' = p)
                     /\ (p_id p = itemId -> is_error (snd outp) = false ->
                         p_updated_at p' = now
                         /\ p_criticality p'
                            = COALESCE (b_criticality pb) (p_criticality p)
                         /\ p_lifecycle_state p'
                            = COALESCE (b_lifecycle_state pb)
                                (p_lifecycle_state p)))
    /\ ((is_error (snd outa) = false
         <-> lifecycle_accepted (ab_lifecycle_state ab)
             /\ exists asm,
                  get (fun a => a_id a =? itemId) (assemblies st) = Some asm
                  /\ (a_owner_id asm = id u \/ role u = "admin"))
        /\ (is_error (snd outa) = true -> fst outa = st)
        /\ set_assemblies (assemblies st) (fst outa) = st
        /\ forall n a, nth_error (rows (assemblies st)) n = Some a ->
             exists a', nth_error (rows (assemblies (fst outa))) n = Some a'
                        /\ same_assembly a a'
                        /\ (a_id a <> itemId -> a' = a)
                        /\ (a_id a = itemId -> is_error (snd outa) = false ->
                            a_updated_at a' = now
                            /\ a_criticality a'
                               = COALESCE (ab_criticality ab) (a_criticality a)
                            /\ a_lifecycle_state a'
                               = COALESCE (ab_lifecycle_state ab)
                                   (a_lifecycle_state a)))
    /\ (List.length (rows (parts (fst outp))) = List.length (rows (parts st))
        /\ last_rowid (parts (fst outp)) = last_rowid (parts st))
    /\ (List.length (rows (assemblies (fst outa)))
        = List.length (rows (assemblies st))
        /\ last_rowid (assemblies (fst outa)) = last_rowid (assemblies st)).
Proof.
  intros u itemId now pb ab st outp outa.
  destruct (metadata_update_outcome u itemId now pb ab st) as [Hp Ha].
  destruct (metadata_update_frame no_errors u itemId now pb ab st)
    as [Hfp Hfa].
  split; [exact Hp |]. split; [exact Ha |]. split; [exact Hfp | exact Hfa].
Qed.

(** ** Passwords *)

Lemma in_range_spec (lo hi c : Z) : in_range lo hi c = true <-> lo <= c <= hi.
Proof. unfold in_range. rewrite andb_true_iff, !Z.leb_le. reflexivity. Qed.

Lemma symbol_class_spec (c : Z) : mem c symbol_class = true <-> is_symbol c.
Proof.
  rewrite mem_In. unfold is_symbol, symbol_class. simpl. split.
  - intros H. repeat (destruct H as [H | H]; [lia |]). contradiction.
  - intros H.
    assert (Hc : c = 33 \/ c = 34 \/ c = 35 \/ c = 36 \/ c = 37 \/ c = 38
                 \/ c = 39 \/ c = 40 \/ c = 41 \/ c = 42 \/ c = 43 \/ c = 44
                 \/ c = 45 \/ c = 46 \/ c = 47 \/ c = 58 \/ c = 59 \/ c = 60
                 \/ c = 61 \/ c = 62 \/ c = 63 \/ c = 64 \/ c = 91 \/ c = 92
                 \/ c = 93 \/ c = 94 \/ c = 95 \/ c = 123 \/ c = 124
                 \/ c = 125) by lia.
    repeat (destruct Hc as [-> | Hc]; [tauto |]). subst c. tauto.
Qed.

Lemma existsb_class (member : Z -> bool) (P : Z -> Prop) (s : code_units) :
  (forall c, member c = true <-> P c) ->
  existsb member s = true <-> exists c, In c s /\ P c.
Proof.
  intros Hspec. rewrite existsb_exists. split; intros [c [Hin Hc]]; exists c;
    (split; [assumption | now apply Hspec]).
Qed.

Lemma validatePassword_strong (password : code_units) :
  isValid (validatePassword password) = true <-> strong password.
Proof.
  unfold validatePassword, strong. cbn [isValid].
  rewrite <- (existsb_class (in_range 65 90) (fun c => 65 <= c <= 90) password
                (in_range_spec 65 90)),
          <- (existsb_class (in_range 97 122) (fun c => 97 <= c <= 122) password
                (in_range_spec 97 122)),
          <- (existsb_class (in_range 48 57) (fun c => 48 <= c <= 57) password
                (in_range_spec 48 57)),
          <- (existsb_class (fun c => mem c symbol_class) is_symbol password
                symbol_class_spec).
  destruct (Z.of_nat (List.length password) <? 8) eqn:Hlen;
    [apply Z.ltb_lt in Hlen | apply Z.ltb_ge in Hlen];
    destruct (existsb (in_range 65 90) password);
    destruct (existsb (in_range 97 122) password);
    destruct (existsb (in_range 48 57) password);
    destruct (existsb (fun c => mem c symbol_class) password);
    cbn; split; try discriminate; try (intros [H _]; lia);
    try (intros [_ [H1 [H2 [H3 H4]]]]; discriminate);
    intros _; repeat split; lia.
Qed.

(** X19. [validatePassword] accepts a password exactly when it has at
    least eight code units, an uppercase and a lowercase ASCII letter, an
    ASCII digit and an ASCII punctuation mark other than the backquote and
    the tilde.  It reports one message per broken rule, at most five, and
    none twice.  There is no upper bound and no forbidden character: a
    password that contains an accepted one is accepted. *)
Theorem X19_password_rules :
  forall (password : code_units),
    (isValid (validatePassword password) = true <-> strong password)
    /\ (isValid (validatePassword password) = true
        <-> errors (validatePassword password) = [])
    /\ (List.length (errors (validatePassword password)) <= 5)%nat
    /\ NoDup (errors (validatePassword password))
    /\ (forall before after,
          isValid (validatePassword password) = true ->
          isValid (validatePassword (before ++ password ++ after)%list) = true).
Proof.
  intros password. split; [apply validatePassword_strong |].
  split; [| split; [| split]].
  - unfold validatePassword. cbn [isValid errors]. rewrite Z.eqb_eq.
    split; [| intros ->; reflexivity].
    intros H. apply length_zero_iff_nil. lia.
  - unfold validatePassword. cbn [errors].
    repeat match goal with |- context [if ?c then _ else _] => destruct c end;
      simpl; lia.
  - unfold validatePassword. cbn [errors].
    repeat match goal with |- context [if ?c then _ else _] => destruct c end;
      simpl; repeat constructor; simpl; intuition discriminate.
  - intros before after Hvalid.
    apply validatePassword_strong. apply validatePassword_strong in Hvalid.
    destruct Hvalid as [Hlen [Hu [Hl [Hd Hs]]]].
    assert (Hin : forall c, In c password ->
                            In c (before ++ password ++ after)%list).
    { intros c Hc. apply in_or_app. right. apply in_or_app. now left. }
    split; [rewrite !length_app; lia |].
    repeat split;
      match goal with
      | H : exists c, _ |- exists c, _ =>
          let c := fresh "c" in
          let Hc := fresh "Hc" in
          let Hp := fresh "Hp" in
          destruct H as [c [Hc Hp]]; exists c; split; [now apply Hin | exact Hp]
      end.
Qed.

(** ** Email addresses *)

Lemma matches_nil_nullable (r : regex) (s : code_units) :
  matches r s -> s = [] -> nullable r = true.
Proof.
  induction 1 as [| | r1 r2 s1 s2 _ IH1 _ IH2 | r1 r2 s _ IH | r1 r2 s _ IH
                 | | r s1 s2 _ _ _ _]; intros Hnil; simpl; try reflexivity.
  - discriminate Hnil.
  - apply app_eq_nil in Hnil. destruct Hnil as [H1 H2].
    now rewrite IH1, IH2.
  - now rewrite IH.
  - rewrite IH; [apply orb_true_r | assumption].
Qed.

Lemma nullable_matches_nil (r : regex) : nullable r = true -> matches r [].
Proof.
  induction r as [| | member | r1 IH1 r2 IH2 | r1 IH1 r2 IH2 | r IH]; simpl;
    intros Hnull; try discriminate.
  - constructor.
  - apply andb_true_iff in Hnull. destruct Hnull as [H1 H2].
    apply (m_seq r1 r2 [] []); auto.
  - apply orb_true_iff in Hnull.
    destruct Hnull as [H | H]; [apply m_alt_l | apply m_alt_r]; auto.
  - constructor.
Qed.

Lemma deriv_sound (c : Z) (r : regex) (s : code_units) :
  matches (deriv c r) s -> matches r (c :: s).
Proof.
  revert s.
  induction r as [| | member | r1 IH1 r2 IH2 | r1 IH1 r2 IH2 | r IH]; simpl;
    intros s Hm.
  - inversion Hm.
  - inversion Hm.
  - destruct (member c) eqn:Hc; inversion Hm; subst. now constructor.
  - assert (Hleft : forall t, matches (Seq (deriv c r1) r2) t ->
                              matches (Seq r1 r2) (c :: t)).
    { intros t Ht. inversion Ht as [| | ? ? s1 s2 H1 H2 | | | |]; subst.
      apply (m_seq r1 r2 (c :: s1) s2); auto. }
    destruct (nullable r1) eqn:Hnull; [| now apply Hleft].
    inversion Hm; subst; [now apply Hleft |].
    apply (m_seq r1 r2 [] (c :: s)); [now apply nullable_matches_nil | auto].
  - inversion Hm; subst; [apply m_alt_l | apply m_alt_r]; auto.
  - inversion Hm as [| | ? ? s1 s2 H1 H2 | | | |]; subst.
    apply (m_star_app r (c :: s1) s2); auto.
Qed.

Lemma deriv_complete (c : Z) (r : regex) (s : code_units) :
  matches r (c :: s) -> matches (deriv c r) s.
Proof.
  intros Hm. remember (c :: s) as cs eqn:Hcs. revert c s Hcs.
  induction Hm as [| member c' Hc | r1 r2 s1 s2 H1 IH1 H2 IH2
                  | r1 r2 s' H IH | r1 r2 s' H IH
                  | | r s1 s2 H1 IH1 H2 IH2]; intros c s Hcs; simpl.
  - discriminate Hcs.
  - injection Hcs as -> <-. rewrite Hc. constructor.
  - destruct s1 as [| c1 s1'].
    + simpl in Hcs. subst s2.
      rewrite (matches_nil_nullable r1 [] H1 eq_refl).
      apply m_alt_r. now apply IH2.
    + simpl in Hcs. injection Hcs as -> <-.
      destruct (nullable r1); [apply m_alt_l |]; apply m_seq; auto.
  - apply m_alt_l. now apply IH.
  - apply m_alt_r. now apply IH.
  - discriminate Hcs.
  - destruct s1 as [| c1 s1'].
    + simpl in Hcs. exact (IH2 c s Hcs).
    + simpl in Hcs. injection Hcs as -> <-. apply m_seq; auto.
Qed.

Lemma test_anchored_matches (r : regex) (s : code_units) :
  test_anchored r s = true <-> matches r s.
Proof.
  revert r. induction s as [| c s IH]; intros r; simpl.
  - split; [apply nullable_matches_nil |].
    intros H. now apply (matches_nil_nullable r []).
  - rewrite IH. split; [apply deriv_sound | apply deriv_complete].
Qed.

Lemma matches_seq (r1 r2 : regex) (s : code_units) :
  matches (Seq r1 r2) s
  <-> exists s1 s2, s = (s1 ++ s2)%list /\ matches r1 s1 /\ matches r2 s2.
Proof.
  split.
  - intros H. inversion H as [| | ? ? s1 s2 H1 H2 | | | |]; subst. eauto.
  - intros [s1 [s2 [-> [H1 H2]]]]. now constructor.
Qed.

Lemma matches_class (member : Z -> bool) (s : code_units) :
  matches (Class member) s <-> exists c, s = [c] /\ member c = true.
Proof.
  split.
  - intros H. inversion H; subst. eauto.
  - intros [c [-> Hc]]. now constructor.
Qed.

Lemma matches_star_class (member : Z -> bool) (s : code_units) :
  matches (Star (Class member)) s <-> Forall (fun c => member c = true) s.
Proof.
  split.
  - intros H. remember (Star (Class member)) as r eqn:Hr.
    induction H as [| | | | | | r' s1 s2 H1 _ H2 IH2]; try discriminate Hr.
    + constructor.
    + injection Hr as ->. inversion H1; subst. simpl. constructor; auto.
  - induction 1 as [| c s Hc _ IH]; [constructor |].
    apply (m_star_app (Class member) [c] s); [now constructor | exact IH].
Qed.

Lemma matches_plus_class (member : Z -> bool) (s : code_units) :
  matches (Plus (Class member)) s
  <-> s <> [] /\ Forall (fun c => member c = true) s.
Proof.
  unfold Plus. rewrite matches_seq. split.
  - intros [s1 [s2 [-> [H1 H2]]]]. apply matches_class in H1.
    destruct H1 as [c [-> Hc]]. apply matches_star_class in H2. simpl.
    split; [discriminate | constructor; assumption].
  - intros [Hne Hall]. destruct s as [| c s]; [contradiction |].
    inversion Hall; subst. exists [c], s.
    split; [reflexivity |]. split; [now constructor |].
    now apply matches_star_class.
Qed.

Lemma validateEmail_parts (email : code_units) :
  validateEmail email = true
  <-> exists name domain top,
        email = (name ++ 64 :: domain ++ 46 :: top)%list
        /\ address_part name /\ address_part domain /\ address_part top.
Proof.
  unfold validateEmail, address_part. rewrite test_anchored_matches. split.
  - intros H. apply matches_seq in H. destruct H as [name [s1 [-> [Hn H]]]].
    apply matches_seq in H. destruct H as [at_ [s2 [-> [Hat H]]]].
    apply matches_seq in H. destruct H as [domain [s3 [-> [Hd H]]]].
    apply matches_seq in H. destruct H as [dot [top [-> [Hdot Ht]]]].
    apply matches_class in Hat, Hdot.
    destruct Hat as [c1 [-> Hc1]]. destruct Hdot as [c2 [-> Hc2]].
    apply Z.eqb_eq in Hc1, Hc2. subst c1 c2.
    apply matches_plus_class in Hn, Hd, Ht.
    exists name, domain, top. auto.
  - intros [name [domain [top [-> [Hn [Hd Ht]]]]]].
    apply m_seq; [now apply matches_plus_class |].
    apply (m_seq _ _ [64]); [now constructor |].
    apply m_seq; [now apply matches_plus_class |].
    apply (m_seq _ _ [46]); [now constructor |].
    now apply matches_plus_class.
Qed.

Lemma address_part_no_at (s : code_units) :
  Forall (fun c => not_space_or_at c = true) s ->
  count_occ Z.eq_dec s 64 = 0%nat
  /\ Forall (fun c => js_whitespace c = false) s.
Proof.
  induction 1 as [| c s Hc _ [IHn IHs]]; simpl; [split; constructor |].
  unfold not_space_or_at in Hc. apply negb_true_iff, orb_false_iff in Hc.
  destruct Hc as [Hws Hat]. apply Z.eqb_neq in Hat.
  destruct (Z.eq_dec c 64); [contradiction |].
  split; [exact IHn | constructor; assumption].
Qed.

(** X20. [validateEmail] accepts exactly the strings of the form
    name [@] domain [.] top in which the three parts are not empty and
    hold neither white space nor [@]; the parts may hold dots, so the
    domain may begin with a dot and the address may end with one.  An
    accepted address has exactly one [@], no white space and at least
    five code units. *)
Theorem X20_email_shape :
  forall (email : code_units),
    (validateEmail email = true
     <-> exists name domain top,
           email = (name ++ 64 :: domain ++ 46 :: top)%list
           /\ address_part name /\ address_part domain /\ address_part top)
    /\ (validateEmail email = true ->
        count_occ Z.eq_dec email 64 = 1%nat
        /\ Forall (fun c => js_whitespace c = false) email
        /\ (5 <= List.length email)%nat)
    /\ (forall name domain top,
          address_part name -> address_part domain -> address_part top ->
          validateEmail (name ++ 64 :: (46 :: domain) ++ 46 :: top ++ [46])%list
          = true).
Proof.
  intros email. split; [apply validateEmail_parts |]. split.
  - intros H. apply validateEmail_parts in H.
    destruct H as [name [domain [top [-> [[Hn Hna] [[Hd Hda] [Ht Hta]]]]]]].
    destruct (address_part_no_at name Hna) as [Hcn Hwn].
    destruct (address_part_no_at domain Hda) as [Hcd Hwd].
    destruct (address_part_no_at top Hta) as [Hct Hwt].
    split; [| split].
    + rewrite count_occ_app. simpl. rewrite count_occ_app. simpl. lia.
    + apply Forall_app. split; [assumption |]. constructor; [reflexivity |].
      apply Forall_app. split; [assumption |]. now constructor.
    + rewrite length_app. simpl. rewrite length_app. simpl.
      destruct name; [contradiction |]. destruct domain; [contradiction |].
      destruct top; [contradiction |]. simpl. lia.
  - intros name domain top [Hn Hna] [Hd Hda] [Ht Hta].
    apply validateEmail_parts. exists name, (46 :: domain), (top ++ [46])%list.
    split; [reflexivity |]. split; [split; assumption |].
    split; split; try discriminate.
    + constructor; [reflexivity | assumption].
    + destruct top; discriminate.
    + apply Forall_app. split; [assumption | now constructor].
Qed.

(** * The further properties at the sample stores *)

(** X2 at the empty store: the designer creates PN-100 and may edit it. *)
Lemma X2_witness :
  wf_table p_id (parts (empty_db default_users))
  /\ exists p,
       rows (parts store_working) = [p]
       /\ p_id p = 1 /\ p_owner_id p = "DESIGNER-01"
       /\ canEditPart no_errors "DESIGNER-01" "designer" 1 store_working
          = inr true.
Proof.
  split; [apply wf_empty_table |].
  destruct (X2_created_part_has_first_version designer
              (part_named "PN-100" "Bracket" (Some "/vault/pn-100")) 10
              (empty_db default_users) (wf_empty_table p_id)) as [_ Hnew].
  destruct (Hnew eq_refl) as [p [Hrows [Hid [_ [Hown [_ [_ [_ [Hcan _]]]]]]]]].
  exists p. repeat split; assumption.
Defined.

(** X3 at a sample store: the owner of PN-100 may edit it. *)
Lemma X3_witness :
  primary_key p_id (parts store_working)
  /\ unique_grants (part_permissions store_working)
  /\ canEditPart no_errors "DESIGNER-01" "designer" 1 store_working = inr true.
Proof.
  assert (Hkey : primary_key p_id (parts store_working)).
  { repeat constructor. intros []. }
  assert (Hgrants : unique_grants (part_permissions store_working)).
  { repeat constructor. intros []. }
  split; [exact Hkey |]. split; [exact Hgrants |].
  apply (proj2 (X3_can_edit_part_iff "DESIGNER-01" "designer" 1 store_working
                  Hkey Hgrants)).
  right. eexists. split; [now left |]. split; [reflexivity | now left].
Defined.

(** X4 at a sample store: the second designer may edit PN-100 once the
    request is approved, and not before. *)
Lemma X4_witness :
  isApproverOrAdmin (role approver) = true
  /\ canEditPart no_errors "DESIGNER-02" "designer" 1 store_edit_pending
     = inr false
  /\ canEditPart no_errors "DESIGNER-02" "designer" 1
       (fst (approve_edit_request no_errors approver 1 20 store_edit_pending))
     = inr true.
Proof.
  split; [reflexivity |]. split; [reflexivity |].
  refine (proj2 (proj2 (proj2
            (X4_approval_grants_edit approver 1 20 store_edit_pending
               (mkEditRequest 1 1 "DESIGNER-02" "pending" (Some "rework") 11
                  None None) eq_refl eq_refl _))) "designer").
  eexists. split; [now left | reflexivity].
Defined.

(** X5 at a sample store: rejecting request 3, which does not exist, is
    answered 404; rejecting request 2 succeeds. *)
Lemma X5_witness :
  snd (reject_edit_request no_errors approver 3 20 store_edit_pending)
  = error 404 "Request not found"
  /\ is_error (snd (reject_edit_request no_errors approver 2 20
                      store_edit_pending)) = false.
Proof.
  split.
  - apply (proj1 (proj2 (proj2
             (X5_rejection_keeps_grants no_errors approver 3 20
                store_edit_pending)) eq_refl eq_refl)).
    intros er [<- | [<- | []]]; discriminate.
  - apply (proj2 (proj2 (proj2
             (X5_rejection_keeps_grants no_errors approver 2 20
                store_edit_pending)) eq_refl eq_refl)).
    eexists. split; [right; now left | reflexivity].
Defined.

(** X6 at a sample store: no rollback while V1 of PN-100 is working. *)
Lemma X6_witness :
  is_error (snd (post_part_rollback no_errors designer 1 (Some 1) 20
                   store_working)) = true
  /\ fst (post_part_rollback no_errors designer 1 (Some 1) 20 store_working)
     = store_working.
Proof.
  assert (Herr : is_error (snd (post_part_rollback no_errors designer 1
                                  (Some 1) 20 store_working)) = true).
  { apply (proj1 (proj2 (proj2 (proj2
             (X6_rollback_appends_working_copy no_errors designer 1 1 20
                store_working)))) eq_refl eq_refl); [discriminate |].
    right. eexists. split; [reflexivity | discriminate]. }
  split; [exact Herr |].
  exact (proj1 (proj2
           (X6_rollback_appends_working_copy no_errors designer 1 1 20
              store_working)) Herr).
Defined.

(** X7 at a sample store: PN-100 can be deleted once ASM-1 is. *)
Lemma X7_witness :
  role admin = "admin"
  /\ snd (delete_part no_errors admin 1 store_assembled)
     = conflict_part_referenced
  /\ snd (delete_part no_errors admin 1
            (fst (delete_assembly no_errors admin 1 store_assembled)))
     = success "Part deleted".
Proof.
  split; [reflexivity |]. split; [reflexivity |].
  refine (proj1 (proj2 (proj2 (proj2 (proj2 (proj2 (proj2 (proj2
            (X7_delete_assembly_frees_parts admin 1 store_assembled
               eq_refl)))))))) 1 _).
  intros ap pv [<- | []] _ _ _.
  eexists. split; [now left | split; reflexivity].
Defined.

(** X8 at a sample store: the batch with PN-100 is refused while ASM-1
    uses its V1, and the answer names PN-100. *)
Lemma X8_witness :
  role admin = "admin" /\ [1] <> []
  /\ is_error (snd (post_parts_bulk_delete no_errors admin (Some [1])
                      store_assembled)) = true
  /\ fst (post_parts_bulk_delete no_errors admin (Some [1]) store_assembled)
     = store_assembled
  /\ snd (post_parts_bulk_delete no_errors admin (Some [1]) store_assembled)
     = error 400 "Cannot delete: parts PN-100 are referenced by assemblies".
Proof.
  assert (Hne : [1] <> []) by discriminate.
  assert (Herr : is_error (snd (post_parts_bulk_delete no_errors admin
                                  (Some [1]) store_assembled)) = true).
  { apply (proj1 (X8_bulk_delete_all_or_nothing admin [1] store_assembled
                    eq_refl Hne)).
    do 3 eexists.
    split; [now left |]. split; [now left |]. split; [now left |].
    split; [reflexivity |]. split; [now left | reflexivity]. }
  split; [reflexivity |]. split; [exact Hne |]. split; [exact Herr |].
  split; [| reflexivity].
  exact (proj1 (proj2 (proj2 (proj2
           (X8_bulk_delete_all_or_nothing admin [1] store_assembled eq_refl
              Hne))))
           no_errors admin (Some [1]) Herr).
Defined.

(** X9 at a sample run: V1 of PN-100 before and after it is frozen. *)
Lemma X9_witness :
  keeps_version
    (mkVersion 1 1 "V1" "working" None (Some "/vault/pn-100") None None None 10)
    (mkVersion 1 1 "V1" "frozen" (Some "/vault/pn-100") (Some "/vault/pn-100")
       None (Some "APPROVER-01") (Some 12) 10).
Proof.
  apply (X9_versions_never_thaw default_users
           [ok designer
              (PostParts (part_named "PN-100" "Bracket" (Some "/vault/pn-100")))
              10]
           [ok approver (PostPartVersionFreeze 1 1) 12]).
  - left. split; now left.
  - reflexivity.
Defined.

(** X10 at a sample run: the edge of ASM-1 names the frozen V1. *)
Lemma X10_witness :
  status (mkVersion 1 1 "V1" "frozen" (Some "/vault/pn-100")
            (Some "/vault/pn-100") None (Some "APPROVER-01") (Some 12) 10)
  = "frozen".
Proof.
  apply (X10_edges_stay_on_frozen_versions default_users
           [ok designer
              (PostParts (part_named "PN-100" "Bracket" (Some "/vault/pn-100")))
              10;
            ok approver (PostPartVersionFreeze 1 1) 12;
            ok designer (PostAssemblies (assembly_named "ASM-1" "Gearbox" [1]))
              13;
            ok approver (PostAssemblyVersionFreeze 1 1) 14]
           (mkEdge 1 1 1 13)).
  - now left.
  - now left.
  - reflexivity.
Defined.

(** X11 at a sample store: V1 and V2 of PN-100 are compared, V1 with
    itself is not. *)
Lemma X11_witness :
  primary_key v_id (part_versions store_two_versions)
  /\ NoDup (map u_id (users store_two_versions))
  /\ is_error (snd (get_versions_compare no_errors 1 (Some 1) (Some 2)
                      store_two_versions)) = false
  /\ is_error (snd (get_versions_compare no_errors 1 (Some 1) (Some 1)
                      store_two_versions)) = true.
Proof.
  assert (Hkey : primary_key v_id (part_versions store_two_versions)).
  { repeat constructor; simpl; intuition discriminate. }
  assert (Hus : NoDup (map u_id (users store_two_versions))).
  { repeat constructor; simpl; intuition discriminate. }
  split; [exact Hkey |]. split; [exact Hus |]. split; [| reflexivity].
  apply (proj1 (proj2 (proj2
           (X11_compare_returns_two_distinct_versions store_two_versions 1
              Hkey Hus))) 1 2).
  split; [discriminate |].
  split; eexists.
  - split; [now left | split; reflexivity].
  - split; [right; now left | split; reflexivity].
Defined.


(** X13 at a sample store: the approval freezes V1 of PN-100 and names
    nobody. *)
Lemma X13_witness :
  isApproverOrAdmin (role approver) = true
  /\ snd (approve_release_request no_errors approver 1 20
            store_release_pending)
     = success "Release request approved"
  /\ nth_error
       (rows (part_versions
                (fst (approve_release_request no_errors approver 1 20
                        store_release_pending)))) 0
     = Some (mkVersion 1 1 "V1" "frozen" (Some "/vault/pn-100")
               (Some "/vault/pn-100") None None None 10).
Proof.
  split; [reflexivity |].
  destruct (proj1 (proj2 (proj2
              (X13_release_approval_freezes_by_id approver 1 20
                 store_release_pending eq_refl)))
              (mkReleaseRequest 1 "part" 1 "DESIGNER-01" "pending" None 11
                 None None) eq_refl) as [Hok [_ Hrows]].
  split; [exact Hok |].
  exact (Hrows 0%nat _ eq_refl).
Defined.

(** X15 at a sample store: the impact check of PN-100 lists ASM-1 and the
    delete is refused. *)
Lemma X15_witness :
  role admin = "admin"
  /\ get_part_impact no_errors 1 store_assembled
     = Listed [mkImpact 1 "ASM-1" "Gearbox" "V1" "frozen" "V1" 1]
  /\ delete_part no_errors admin 1 store_assembled
     = (store_assembled, conflict_part_referenced).
Proof.
  split; [reflexivity |]. split; [reflexivity |].
  destruct (X15_impact_lines_block_delete admin 1 store_assembled eq_refl)
    as [lines [Hl [_ [_ [_ [Hrefused _]]]]]].
  apply Hrefused. intros ->. discriminate Hl.
Defined.

(** X14 at a sample run: the bill of materials of V1 of ASM-1 is the one
    line that its one edge gives. *)
Lemma X14_witness :
  NoDup (map u_id default_users)
  /\ get_bom no_errors 1 1 (run assembled_calls (empty_db default_users))
     = Listed [mkBom 1 "PN-100" "Bracket" None None (Some "normal") 1 "V1"
                 "frozen" None "designer"]
  /\ exists lines,
       get_bom no_errors 1 1 (run assembled_calls (empty_db default_users))
       = Listed lines
       /\ Permutation lines
            (flat_map
               (fun ap =>
                  shown (bom_line (run assembled_calls (empty_db default_users))
                           ap))
               (filter (fun ap => assembly_version_id ap =? 1)
                  (rows (assembly_parts
                           (run assembled_calls (empty_db default_users)))))).
Proof.
  assert (Hus : NoDup (map u_id default_users)).
  { repeat constructor; simpl; intuition discriminate. }
  split; [exact Hus |]. split; [reflexivity |].
  destruct (X14_bom_lists_frozen_versions default_users assembled_calls 1 1)
    as [lines [Hl [_ [_ [_ [_ [_ Hone]]]]]]].
  exists lines. split; [exact Hl | exact (proj1 (Hone Hus))].
Defined.

(** X16 at a sample store: the list shows request 2, the line that this
    request gives, and nothing once the request is approved. *)
Lemma X16_witness :
  isApproverOrAdmin (role approver) = true
  /\ Permutation
       [mkPendingEdit
          (mkEditRequest 2 1 "DESIGNER-01" "pending" None 12 None None)
          "designer" "PN-100"]
       (flat_map (fun er => shown (pending_line store_edit_pending er))
          (filter (fun er => (er_status er =? "pending")%string)
             (rows (edit_requests store_edit_pending))))
  /\ exists edits',
       get_edit_requests no_errors approver
         (fst (approve_edit_request no_errors approver 2 20 store_edit_pending))
       = Listed edits'
       /\ Permutation edits' [].
Proof.
  split; [reflexivity |].
  destruct (X16_decided_requests_leave_the_lists approver 2 20
              store_edit_pending eq_refl)
    as [edits [releases [Hl [_ [_ [_ [_ [_ [Hdecided [_ [_ [Hone _]]]]]]]]]]]].
  injection Hl as <-. split.
  - apply Hone; repeat constructor; simpl; intuition discriminate.
  - destruct (Hdecided _ (or_introl eq_refl)) as [edits' [Hl' [_ Hperm]]].
    exists edits'. split; [exact Hl' | exact Hperm].
Defined.
